(** * A shallow embedding of the neutron NAT agent

    The development follows the layout of the Python sources:

    - [neutron/agent/linux/nat_manager.py]  ->  Module [NatManager]
    - [neutron/agent/nat_agent.py], class [VnatCache]  ->  Module [VnatCache]
    - [neutron/db/nat_db.py], [neutron/db/nat_rpc_base.py]  ->  Module [NatDb]
    - [neutron/agent/nat_agent.py], class [NatAgent]  ->  Module [NatAgent]

    Python dictionaries are finite maps ([gmap]), Python lists are lists,
    Python strings are strings, and a Python call that can raise returns a
    sum whose left side is the exception. *)

From Stdlib Require Import Strings.String Strings.Ascii Lists.List ZArith Lia.
From Stdlib Require Import Numbers.DecimalString Numbers.DecimalN.
From stdpp Require Import base option list gmap strings fin_maps.

Local Open Scope list_scope.

(** ** Python preliminaries *)

(** The exceptions the modelled code can meet.  [RemoteError] stands for
    whatever a collaborator (RPC, command runner, device driver) raises. *)
Inductive PyExc : Type :=
  | KeyError (key : string)
  | IndexError
  | AttributeError (attr : string)
  | TypeError (msg : string)
  | ValueError (msg : string)
  | VnatNotFound (vnat_id : string)
  | VserverNotFound (vserver_id : string)
  | IntegrityError (column : string)
  | PlainException (msg : string)
  | RemoteError (msg : string).

(** [if x:] on a string that may be [None]: [None] and [''] are false. *)
Definition truthy (o : option string) : bool :=
  match o with
  | Some s => negb (String.eqb s "")
  | None => false
  end.

(** [s.lstrip()] and [s.strip()]: the blanks Python skips are the space
    and the control characters 9 to 13. *)
Fixpoint py_lstrip (s : string) : string :=
  match s with
  | String c s' => if Ascii.is_space c then py_lstrip s' else s
  | EmptyString => EmptyString
  end.

Definition py_strip (s : string) : string :=
  String.rev (py_lstrip (String.rev (py_lstrip s))).

(** [int(s)] on a string, as Python 2 reads it in base 10: blanks around
    the numeral are skipped, one sign [+] or [-] may come first, and at
    least one decimal digit follows it directly; any other string raises
    [ValueError]. *)
Definition py_int (s : string) : PyExc + Z :=
  let t := py_strip s in
  let numeral := match t with
                 | String "+" (String "-" _) => None
                 | String "+" unsigned => NilZero.int_of_string unsigned
                 | _ => NilZero.int_of_string t
                 end in
  match numeral with
  | Some d => inr (Z.of_int d)
  | None => inl (ValueError "invalid literal for int() with base 10")
  end.

(** [str(n)] on an integer. *)
Definition py_str (n : Z) : string := NilZero.string_of_int (Z.to_int n).

(** [a >= b] on strings: Python compares them character by character. *)
Definition str_ge (a b : string) : bool := String.leb b a.

(** Code that mutates a state of type [S] and can raise: the state reached
    is kept when an exception leaves the code. *)
Definition M (S A : Type) : Type := S -> S * (PyExc + A).

Definition ret {S A} (a : A) : M S A := fun s => (s, inr a).
Definition raise {S A} (e : PyExc) : M S A := fun s => (s, inl e).
Definition bind {S A B} (m : M S A) (k : A -> M S B) : M S B :=
  fun s => match m s with
           | (s', inr a) => k a s'
           | (s', inl e) => (s', inl e)
           end.
Definition gets {S A} (f : S -> A) : M S A := fun s => (s, inr (f s)).
Definition modify {S} (f : S -> S) : M S unit := fun s => (f s, inr tt).
Definition lift {S A} (r : PyExc + A) : M S A := fun s => (s, r).

Notation "x <- c1 ;; c2" := (bind c1 (fun x => c2))
  (at level 100, c1 at next level, right associativity).
Notation "c1 ;;; c2" := (bind c1 (fun _ => c2))
  (at level 100, right associativity).

(** [try: m except: handler]; every modelled exception is an [Exception],
    so [except Exception] and a bare [except] catch the same. *)
Definition try_except {S A} (m : M S A) (handler : PyExc -> M S A) : M S A :=
  fun s => match m s with
           | (s', inl e) => handler e s'
           | (s', inr a) => (s', inr a)
           end.

(** A loop that carries local variables [b] from turn to turn. *)
Fixpoint for_fold {S A B} (l : list A) (b : B) (body : B -> A -> M S B)
  : M S B :=
  match l with
  | [] => ret b
  | x :: l' => bind (body b x) (fun b' => for_fold l' b' body)
  end.

(** Every run of [m] takes a state to one related to it by [R], whether
    it returns or raises. *)
Definition preserves {S A} (R : S -> S -> Prop) (m : M S A) : Prop :=
  forall s, R s (fst (m s)).

(** [for x in l: body x]. *)
Fixpoint for_each {S A} (l : list A) (body : A -> M S unit) : M S unit :=
  match l with
  | [] => ret tt
  | x :: l' => body x ;;; for_each l' body
  end.

(** [s.split(sep)] for a one-character separator: cut at every
    occurrence; [''.split(sep) = ['']]. *)
Fixpoint py_split_on (sep : ascii) (s : string) : list string :=
  match s with
  | EmptyString => [EmptyString]
  | String c s' =>
      if Ascii.eqb c sep then EmptyString :: py_split_on sep s'
      else match py_split_on sep s' with
           | w :: ws => String c w :: ws
           | [] => [String c EmptyString]
           end
  end.

Definition py_split (s : string) : list string := py_split_on " "%char s.

(** ['%s' % x] on a string that may be [None]. *)
Definition py_fmt (o : option string) : string := default "None" o.

(** [s[:n]]. *)
Fixpoint py_prefix (n : nat) (s : string) : string :=
  match n, s with
  | S n', String c s' => String c (py_prefix n' s')
  | _, _ => EmptyString
  end.

(** A string in which the character [sep] does not occur. *)
Fixpoint lacks (sep : ascii) (s : string) : bool :=
  match s with
  | EmptyString => true
  | String c s' => negb (Ascii.eqb c sep) && lacks sep s'
  end.

Definition no_blank (s : string) : bool := lacks " "%char s.

(** A plain value (an address, a port): not empty, no blank, and not
    looking like an option name. *)
Definition plain_value (s : string) : bool :=
  match s with
  | EmptyString => false
  | String c _ => negb (Ascii.eqb c "-"%char) && no_blank s
  end.

(** The value following option [opt] in a tokenised command line. *)
Fixpoint option_value (opt : string) (ws : list string) : option string :=
  match ws with
  | [] => None
  | w :: ws' =>
      if String.eqb w opt
      then match ws' with v :: _ => Some v | [] => None end
      else option_value opt ws'
  end.

(** ** neutron/agent/linux/nat_manager.py *)
Module NatManager.

(** *** class LvsNatManager *)

Record LvsNatManager : Type := mkLvs {
  lvs_root_helper : string;
  lvs_rules : list string
}.

Definition lvs_clear_all_rules (m : LvsNatManager) : LvsNatManager :=
  mkLvs (lvs_root_helper m) (lvs_rules m ++ ["-C"]).

Definition lvs_add_nat_rule (m : LvsNatManager)
    (ext_ip ext_port fixed_ip fixed_port gateway : string) : LvsNatManager :=
  mkLvs (lvs_root_helper m)
    ((lvs_rules m ++ ["-A -t " +:+ ext_ip +:+ ":" +:+ ext_port +:+ " -s rr"])
       ++ ["-a -t " +:+ ext_ip +:+ ":" +:+ ext_port +:+ " -r "
             +:+ fixed_ip +:+ ":" +:+ fixed_port +:+ " -m"]).

Definition lvs_delete_nat_rule (m : LvsNatManager)
    (ext_ip ext_port fixed_ip fixed_port : string) : LvsNatManager :=
  mkLvs (lvs_root_helper m)
    ((lvs_rules m ++ ["-d -t " +:+ ext_ip +:+ ":" +:+ ext_port +:+ " -r "
                        +:+ fixed_ip +:+ ":" +:+ fixed_port])
       ++ ["-D -t " +:+ ext_ip +:+ ":" +:+ ext_port]).

Definition lvs_add_user_rule (m : LvsNatManager) (rule : string)
  : LvsNatManager :=
  mkLvs (lvs_root_helper m) (lvs_rules m ++ [rule]).

(** What [apply] writes to the log for one rule. *)
Inductive LvsLog : Type :=
  | LogSuccess (rule : string)
  | LogFailed (rule : string) (e : PyExc).

Section LvsApply.
(** The privileged command runner [self.execute]: it acts on the
    kernel's virtual-server table and either returns the command's
    output or raises. *)
Variable Kernel : Type.
Variable execute :
  list string -> string -> Kernel -> Kernel * (PyExc + string).

(** The machine [apply] runs on: the kernel, every argument vector
    handed to the runner so far, and the log. *)
Record Host : Type := mkHost {
  kernel : Kernel;
  executed : list (list string);
  logged : list LvsLog
}.

(** One turn of the loop: [args = s + rule.split(' ')], then the
    [try]/[except Exception] around [self.execute]. *)
Definition lvs_apply_rule (root_helper : string) (h : Host) (rule : string)
  : Host :=
  let args := ["ipvsadm"] ++ py_split rule in
  match execute args root_helper (kernel h) with
  | (k', inr _) =>
      mkHost k' (executed h ++ [args]) (logged h ++ [LogSuccess rule])
  | (k', inl e) =>
      mkHost k' (executed h ++ [args]) (logged h ++ [LogFailed rule e])
  end.

Definition lvs_apply (m : LvsNatManager) (h : Host) : LvsNatManager * Host :=
  let h' := fold_left (lvs_apply_rule (lvs_root_helper m)) (lvs_rules m) h in
  (mkLvs (lvs_root_helper m) [], h').

(** The log line [apply] writes for [rule] when the runner starts in
    kernel state [k]. *)
Definition outcome (root_helper : string) (k : Kernel) (rule : string)
  : LvsLog :=
  match execute (["ipvsadm"] ++ py_split rule) root_helper k with
  | (_, inr _) => LogSuccess rule
  | (_, inl e) => LogFailed rule e
  end.

(** Best-effort execution as the specification words it, written on the
    runner alone and not on the loop of [apply]: the commands of the
    rules are given to the runner one at a time and in order, each in the
    kernel state the one before it left behind, whether that one failed
    or not; the result is the kernel state after the last one and one
    log line for each rule. *)
Fixpoint runs_in_order (root_helper : string) (k : Kernel)
    (rules : list string) : Kernel * list LvsLog :=
  match rules with
  | [] => (k, [])
  | rule :: rest =>
      let k' := fst (execute (["ipvsadm"] ++ py_split rule) root_helper k) in
      let '(k'', lines) := runs_in_order root_helper k' rest in
      (k'', outcome root_helper k rule :: lines)
  end.

(** The log line for [rule] when the runner has answered [r]. *)
Definition log_line (rule : string) (r : PyExc + string) : LvsLog :=
  match r with
  | inr _ => LogSuccess rule
  | inl e => LogFailed rule e
  end.
End LvsApply.

Arguments mkHost {Kernel} _ _ _.
Arguments kernel {Kernel} _.
Arguments executed {Kernel} _.
Arguments logged {Kernel} _.

(** *** class IptablesNatManager *)

(** Modelled from the spec: [iptables_manager.IptablesManager] (module
    [neutron.agent.linux.iptables_manager], not among the sources).  Its
    nat table is the RuleBatch of the spec, an append-only buffer of
    directives tagged with their chain: [add_rule] appends one,
    [remove_rule] drops the first equal one. *)
Definition IptablesTable : Type := list (string * string).

Definition add_rule (t : IptablesTable) (chain rule : string) : IptablesTable :=
  t ++ [(chain, rule)].

Fixpoint remove_rule (t : IptablesTable) (chain rule : string) : IptablesTable :=
  match t with
  | [] => []
  | (c, r) :: t' =>
      if String.eqb c chain && String.eqb r rule then t'
      else (c, r) :: remove_rule t' chain rule
  end.

Record IptablesNatManager : Type := mkIpt {
  ipt_root_helper : string;
  ipt_nat_table : IptablesTable
}.

Definition ipt_clear_all_rules (m : IptablesNatManager) : IptablesNatManager := m.

Definition _nat_rules (ext_ip ext_port fixed_ip fixed_port gateway : string)
  : list (string * string) :=
  let rules := [] in
  let rules := rules ++
    [("PREROUTING", "-d " +:+ ext_ip +:+ " -p tcp -m tcp --dport " +:+ ext_port
        +:+ " -j DNAT --to-destination " +:+ fixed_ip +:+ ":" +:+ fixed_port)] in
  let rules := rules ++
    [("POSTROUTING", "-d " +:+ fixed_ip +:+ " -p tcp -m tcp --dport "
        +:+ fixed_port +:+ " -j SNAT --to-source " +:+ gateway)] in
  rules.

Definition ipt_add_nat_rule (m : IptablesNatManager)
    (ext_ip ext_port fixed_ip fixed_port gateway : string)
  : IptablesNatManager :=
  let rules := _nat_rules ext_ip ext_port fixed_ip fixed_port gateway in
  mkIpt (ipt_root_helper m)
    (fold_left (fun t cr => add_rule t (fst cr) (snd cr)) rules
       (ipt_nat_table m)).

Definition ipt_delete_nat_rule (m : IptablesNatManager)
    (ext_ip ext_port fixed_ip fixed_port gateway : string)
  : IptablesNatManager :=
  let rules := _nat_rules ext_ip ext_port fixed_ip fixed_port gateway in
  mkIpt (ipt_root_helper m)
    (fold_left (fun t cr => remove_rule t (fst cr) (snd cr)) rules
       (ipt_nat_table m)).

Definition ipt_add_user_rule (m : IptablesNatManager)
    (rules : list (string * string)) : IptablesNatManager :=
  mkIpt (ipt_root_helper m)
    (fold_left (fun t cr => add_rule t (fst cr) (snd cr)) rules
       (ipt_nat_table m)).

(** How a directive is read: its match on the destination endpoint, its
    match on the source endpoint, its target and the target's argument. *)
Definition matches_destination (ip port rule : string) : Prop :=
  option_value "-d" (py_split rule) = Some ip /\
  option_value "--dport" (py_split rule) = Some port.

Definition matches_source (ip port rule : string) : Prop :=
  option_value "-s" (py_split rule) = Some ip /\
  option_value "--sport" (py_split rule) = Some port.

Definition jumps_to (target rule : string) : Prop :=
  option_value "-j" (py_split rule) = Some target.

Definition rewrites_destination_to (endpoint rule : string) : Prop :=
  option_value "--to-destination" (py_split rule) = Some endpoint.

Definition rewrites_source_to (ip rule : string) : Prop :=
  option_value "--to-source" (py_split rule) = Some ip.

End NatManager.

(** ** The data model: vnats and vservers

    The rows of [nat_db.VNAT] and [nat_db.VSERVER], which are also the
    dictionaries [_make_vnat_dict] and [_make_vserver_dict] build and the
    objects [DictModel] wraps on the agent.  A nullable column is an
    [option]. *)

Inductive VnatType : Type := VNAT_TYPE_VM | VNAT_TYPE_HYPER.

Definition VnatType_eqb (a b : VnatType) : bool :=
  match a, b with
  | VNAT_TYPE_VM, VNAT_TYPE_VM | VNAT_TYPE_HYPER, VNAT_TYPE_HYPER => true
  | _, _ => false
  end.

Module Vnat.
Record t : Type := mk {
  id : string;
  tenant_id : option string;
  external_ip_address : option string;
  external_port : option string;
  vserver_id : option string;
  status : option string;
  admin_state_up : bool;
  shared : bool;
  vnat_type : VnatType;
  device_id : option string;
  port_id : option string;
  fixed_ip_address : string;
  gateway : option string;
  fixed_port : option string
}.
End Vnat.

Module Vserver.
Record t : Type := mk {
  id : string;
  external_ip_address : string;
  external_port : string;
  admin_state_up : bool
}.

Definition set_admin_state_up (b : bool) (vs : t) : t :=
  mk (id vs) (external_ip_address vs) (external_port vs) b.
End Vserver.

(** ** neutron/agent/nat_agent.py: class VnatCache *)
Module VnatCache.

Record VnatCache : Type := mkCache {
  cache : gmap string Vnat.t;
  port_lookup : gmap string (list string)
}.

(** [__init__] *)
Definition init : VnatCache := mkCache ∅ ∅.

Definition get_vnat_ids (c : VnatCache) : list string :=
  (map_to_list (cache c)).*1.

Definition get_vnat_by_id (c : VnatCache) (vnat_id : string)
  : option Vnat.t :=
  cache c !! vnat_id.

(** The list holds [self.cache.get(id)] for each id of the bucket, so an
    id without a cache entry contributes [None]. *)
Definition get_vnats_by_port_id (c : VnatCache) (port_id : string)
  : list (option Vnat.t) :=
  match port_lookup c !! port_id with
  | Some vnat_ids =>
      match vnat_ids with
      | _ :: _ => map (fun id => cache c !! id) vnat_ids
      | [] => []
      end
  | None => []
  end.

(** The loop of [remove],
    [for i in range(0, len(vnats) - 1): if vnats[i] == vnat.id: del ...[i]],
    over the indices computed once before the loop.  [vnats] and
    [self.port_lookup[port_id]] are one list object, so a deletion shortens
    the list the next [vnats[i]] reads. *)
Fixpoint remove_loop (vnat : option Vnat.t) (indices : list nat)
    (vnats : list string) : list string * (PyExc + unit) :=
  match indices with
  | [] => (vnats, inr tt)
  | i :: indices' =>
      match vnats !! i with
      | None => (vnats, inl IndexError)
      | Some x =>
          match vnat with
          | None => (vnats, inl (AttributeError "id"))
          | Some v =>
              if String.eqb x (Vnat.id v)
              then remove_loop vnat indices' (delete i vnats)
              else remove_loop vnat indices' vnats
          end
      end
  end.

Definition remove (vnat : option Vnat.t) (port_id : string)
  : M VnatCache unit :=
  (match vnat with
   | Some v =>
       present <- gets (fun c => cache c !! Vnat.id v) ;;
       match present with
       | Some _ =>
           modify (fun c => mkCache (delete (Vnat.id v) (cache c))
                                    (port_lookup c))
       | None => raise (KeyError (Vnat.id v))
       end
   | None => ret tt
   end) ;;;
  bucket <- gets (fun c => port_lookup c !! port_id) ;;
  match bucket with
  | None => raise (KeyError port_id)
  | Some vnats =>
      let '(vnats', r) :=
        remove_loop vnat (seq 0 (length vnats - 1)) vnats in
      modify (fun c => mkCache (cache c)
                               (<[port_id := vnats']> (port_lookup c))) ;;;
      lift r ;;;
      match vnats' with
      | [] => modify (fun c => mkCache (cache c)
                                       (delete port_id (port_lookup c)))
      | _ :: _ => ret tt
      end
  end.

Definition put (vnat : Vnat.t) (port_id : string) : M VnatCache unit :=
  old <- gets (fun c => cache c !! Vnat.id vnat) ;;
  (match old with
   | Some _ => remove old port_id
   | None => ret tt
   end) ;;;
  modify (fun c => mkCache (<[Vnat.id vnat := vnat]> (cache c))
                           (port_lookup c)) ;;;
  bucket <- gets (fun c => port_lookup c !! port_id) ;;
  match bucket with
  | Some vnats =>
      modify (fun c => mkCache (cache c)
                (<[port_id := vnats ++ [Vnat.id vnat]]> (port_lookup c)))
  | None =>
      modify (fun c => mkCache (cache c)
                (<[port_id := [Vnat.id vnat]]> (port_lookup c)))
  end.

(** The invariants of the data model: every id of a bucket has a cache
    entry, and no bucket is empty. *)
Definition ids_have_entries (c : VnatCache) : Prop :=
  forall port_id vnats vnat_id,
    port_lookup c !! port_id = Some vnats ->
    vnat_id ∈ vnats -> is_Some (cache c !! vnat_id).

Definition no_empty_bucket (c : VnatCache) : Prop :=
  forall port_id, port_lookup c !! port_id <> Some [].

(** Every vnat is filed under its own id, as [self.cache[vnat.id] = vnat]
    files it. *)
Definition keys_match (c : VnatCache) : Prop :=
  forall vnat_id v, cache c !! vnat_id = Some v -> Vnat.id v = vnat_id.

End VnatCache.

(** ** neutron/db/nat_db.py and neutron/db/nat_rpc_base.py *)
Module NatDb.

(** The body of a create request, [vnat['vnat']].  Both callers (the REST
    layer, which fills the attribute map's defaults, and the RPC
    [create_vnat]) supply the keys read with [vn[...]]; a key read with
    [vn.get] or tested with [in] may be missing, which is the outer [None]
    of [status] and [shared]. *)
Module VnatRequest.
Record t : Type := mk {
  tenant_id : option string;
  vserver_id : option string;
  status : option (option string);
  shared : option bool;
  port_id : option string;
  fixed_ip_address : option string;
  fixed_port : option string;
  device_id : option string;
  admin_state_up : bool;
  vnat_type : VnatType
}.
End VnatRequest.

(** The keyword arguments of the RPC [create_vnat]. *)
Module CreateVnatKwargs.
Record t : Type := mk {
  port_id : option string;
  fixed_ip : option string;
  fixed_port : option string;
  vnat_type : VnatType;
  device_id : option string;
  tenant_id : option string;
  shared : bool
}.
End CreateVnatKwargs.

(** A row of the table binding vnats to the nat agents hosting them. *)
Record VnatNatAgentBinding : Type := mkBinding {
  nat_agent_id : string;
  nat_agent_host : string;
  binding_vnat_id : string
}.

(** What [NatAgentNotify] is asked to send.  The notifier (it picks an
    agent and casts the message) is a collaborator; the table records the
    requests made to it. *)
Inductive Notification : Type :=
  | vnat_created (vnat : Vnat.t)
  | vnat_deleted (vnat : Vnat.t) (host : string).

Record Db : Type := mkDb {
  vservers : list Vserver.t;
  vnats : list Vnat.t;
  bindings : list VnatNatAgentBinding;
  uuids_drawn : nat;
  notifications : list Notification
}.

Definition set_vservers (f : list Vserver.t -> list Vserver.t) (db : Db) : Db :=
  mkDb (f (vservers db)) (vnats db) (bindings db) (uuids_drawn db)
       (notifications db).
Definition set_vnats (f : list Vnat.t -> list Vnat.t) (db : Db) : Db :=
  mkDb (vservers db) (f (vnats db)) (bindings db) (uuids_drawn db)
       (notifications db).
Definition set_bindings
    (f : list VnatNatAgentBinding -> list VnatNatAgentBinding) (db : Db) : Db :=
  mkDb (vservers db) (vnats db) (f (bindings db)) (uuids_drawn db)
       (notifications db).
Definition notify (n : Notification) : M Db unit :=
  modify (fun db => mkDb (vservers db) (vnats db) (bindings db)
                         (uuids_drawn db) (notifications db ++ [n])).

(** Modelled from the spec: the query layer under [get_vnats] and
    [get_vservers] ([_get_collection] of the base plugin, not among the
    sources).  A filter names a column and the values it may take; a row
    passes when each filtered column holds one of the values, and a null
    column or a null value never matches, as with SQL's [IN]. *)
Inductive VnatColumn : Type :=
  | col_fixed_ip_address | col_fixed_port | col_vserver_id
  | col_port_id | col_external_ip_address.

Definition vnat_column (c : VnatColumn) (v : Vnat.t) : option string :=
  match c with
  | col_fixed_ip_address => Some (Vnat.fixed_ip_address v)
  | col_fixed_port => Vnat.fixed_port v
  | col_vserver_id => Vnat.vserver_id v
  | col_port_id => Vnat.port_id v
  | col_external_ip_address => Vnat.external_ip_address v
  end.

Definition sql_in (x : option string) (values : list (option string)) : bool :=
  match x with
  | Some s =>
      existsb (fun o => match o with
                        | Some s' => String.eqb s s'
                        | None => false
                        end) values
  | None => false
  end.

Definition VnatFilters : Type := list (VnatColumn * list (option string)).

Definition vnat_passes (filters : VnatFilters) (v : Vnat.t) : bool :=
  forallb (fun f => sql_in (vnat_column (fst f) v) (snd f)) filters.

(** Modelled from the spec: the scheduler mix-in's
    [list_nat_agents_hosting_vnat] and [remove_vnat_from_nat_agent]
    ([agentschedulers_db], not among the sources), over the binding
    table. *)
Definition list_nat_agents_hosting_vnat (vnat_id : string)
  : M Db (list VnatNatAgentBinding) :=
  gets (fun db =>
    filter (fun b => String.eqb (binding_vnat_id b) vnat_id = true)
           (bindings db)).

Definition remove_vnat_from_nat_agent (agent_id vnat_id : string)
  : M Db unit :=
  modify (set_bindings
    (filter (fun b => negb (String.eqb (nat_agent_id b) agent_id
                           && String.eqb (binding_vnat_id b) vnat_id) = true))).

Section Plugin.
(** [uuidutils.generate_uuid]: the n-th identifier it hands out. *)
Variable generate_uuid : nat -> string.
(** [_get_tenant_id_for_create] of the base plugin: the tenant the
    request may create for, or a refusal. *)
Variable _get_tenant_id_for_create : VnatRequest.t -> PyExc + option string.

Definition fresh_uuid : M Db string :=
  n <- gets uuids_drawn ;;
  modify (fun db => mkDb (vservers db) (vnats db) (bindings db)
                         (S (uuids_drawn db)) (notifications db)) ;;;
  ret (generate_uuid n).

(** [_get_by_id(...)] ends in [.one()]: exactly one row, or not found. *)
Definition _get_vserver (id : string) : M Db Vserver.t :=
  rows <- gets (fun db =>
    filter (fun vs => String.eqb (Vserver.id vs) id = true) (vservers db)) ;;
  match rows with
  | [vs] => ret vs
  | _ => raise (VserverNotFound id)
  end.

Definition _make_vserver_dict (vs : Vserver.t) : Vserver.t := vs.

Definition get_vservers (external_ip_address : list string)
  : M Db (list Vserver.t) :=
  gets (fun db =>
    map _make_vserver_dict
      (filter (fun vs =>
         existsb (String.eqb (Vserver.external_ip_address vs))
                 external_ip_address = true) (vservers db))).

Definition create_vserver (external_ip_address external_port : string)
    (admin_state_up : bool) : M Db Vserver.t :=
  id <- fresh_uuid ;;
  let vserver_db :=
    Vserver.mk id external_ip_address external_port admin_state_up in
  modify (set_vservers (fun rows => rows ++ [vserver_db])) ;;;
  ret (_make_vserver_dict vserver_db).

(** [update_vserver] with [{'vserver': {'admin_state_up': b}}], the only
    body the sources pass. *)
Definition update_vserver (id : string) (admin_state_up : bool)
  : M Db Vserver.t :=
  vserver_db <- _get_vserver id ;;
  let vserver_db' := Vserver.set_admin_state_up admin_state_up vserver_db in
  modify (set_vservers
    (map (fun vs => if String.eqb (Vserver.id vs) id
                    then vserver_db' else vs))) ;;;
  ret (_make_vserver_dict vserver_db').

Definition _get_vnat (id : string) : M Db Vnat.t :=
  rows <- gets (fun db =>
    filter (fun v => String.eqb (Vnat.id v) id = true) (vnats db)) ;;
  match rows with
  | [v] => ret v
  | _ => raise (VnatNotFound id)
  end.

Definition _make_vnat_dict (v : Vnat.t) : Vnat.t := v.

Definition get_vnats (filters : VnatFilters) : M Db (list Vnat.t) :=
  gets (fun db =>
    map _make_vnat_dict
      (filter (fun v => vnat_passes filters v = true) (vnats db))).

Definition create_vnat (vn : VnatRequest.t) : M Db Vnat.t :=
  tenant <- lift (_get_tenant_id_for_create vn) ;;
  tenant_id <- (if truthy tenant then ret tenant
                else (u <- fresh_uuid ;; ret (Some u))) ;;
  vn_id <- fresh_uuid ;;
  let port_id := VnatRequest.port_id vn in
  let fixed_port := VnatRequest.fixed_port vn in
  ext <- (if truthy (VnatRequest.vserver_id vn)
          then
            let vserver_id := default "" (VnatRequest.vserver_id vn) in
            vserver <- _get_vserver vserver_id ;;
            ret (Some (Vserver.external_ip_address vserver),
                 Some (Vserver.external_port vserver),
                 Some vserver_id)
          else ret (None, None, None)) ;;
  let '(external_ip_address, external_port, vserver_id) := ext in
  let status := default (Some "ACTIVE") (VnatRequest.status vn) in
  let shared := default false (VnatRequest.shared vn) in
  let vnat_filter :=
    [(col_fixed_ip_address, [VnatRequest.fixed_ip_address vn]);
     (col_fixed_port, [VnatRequest.fixed_port vn])] in
  found <- get_vnats vnat_filter ;;
  match found with
  | v0 :: _ => ret (_make_vnat_dict v0)
  | [] =>
      match VnatRequest.fixed_ip_address vn with
      | None => raise (IntegrityError "fixed_ip_address")
      | Some fixed_ip_address =>
          let vnat_db :=
            Vnat.mk vn_id tenant_id external_ip_address external_port
              vserver_id status (VnatRequest.admin_state_up vn) shared
              (VnatRequest.vnat_type vn) (VnatRequest.device_id vn)
              port_id fixed_ip_address None fixed_port in
          modify (set_vnats (fun rows => rows ++ [vnat_db])) ;;;
          let vnat := _make_vnat_dict vnat_db in
          (if truthy (Some (Vnat.fixed_ip_address vnat))
              && truthy (Vnat.fixed_port vnat)
           then notify (vnat_created vnat)
           else ret tt) ;;;
          ret vnat
      end
  end.

Definition delete_vnat (id : string) : M Db unit :=
  vnat_db <- _get_vnat id ;;
  let vnat := _make_vnat_dict vnat_db in
  agents <- list_nat_agents_hosting_vnat id ;;
  for_each agents (fun agent =>
    remove_vnat_from_nat_agent (nat_agent_id agent) id ;;;
    if truthy (Vnat.vserver_id vnat)
    then notify (vnat_deleted vnat (nat_agent_host agent))
    else ret tt) ;;;
  (if truthy (Vnat.vserver_id vnat)
   then update_vserver (default "" (Vnat.vserver_id vnat)) false ;;; ret tt
   else ret tt) ;;;
  modify (set_vnats
    (filter (fun v => negb (String.eqb (Vnat.id v) id) = true))).

(** *** class NatRpcCallbackMixin *)

(** The scan of [get_vserver]: the first vserver that is down stops it;
    until then [ext_port] follows the ports that compare [>=] to it. *)
Fixpoint scan_vservers (vservers : list Vserver.t) (ext_port : string)
  : option Vserver.t * string :=
  match vservers with
  | [] => (None, ext_port)
  | vs :: rest =>
      if negb (Vserver.admin_state_up vs) then (Some vs, ext_port)
      else if str_ge (Vserver.external_port vs) ext_port
           then scan_vservers rest (Vserver.external_port vs)
           else scan_vservers rest ext_port
  end.

Definition get_vserver (ext_ip ext_port : string) : M Db Vserver.t :=
  vservers <- get_vservers [ext_ip] ;;
  match scan_vservers vservers ext_port with
  | (Some vserver, _) =>
      update_vserver (Vserver.id vserver) true ;;;
      ret vserver
  | (None, ext_port) =>
      n <- lift (py_int ext_port) ;;
      let ext_port := py_str (n + 1) in
      create_vserver ext_ip ext_port true
  end.

Definition rpc_delete_vnat (vnat_id : string) : M Db unit :=
  delete_vnat vnat_id.

(** [update_vnat] with the body the RPC [create_vnat] passes, which has
    the keys [port_id], [vnat_type], [device_id], [tenant_id] and
    [admin_state_up]; [vnat_db.update] stores each of them, a [None]
    included. *)
Definition update_vnat (id : string) (port_id : option string)
    (vnat_type : VnatType) (device_id tenant_id : option string)
    (admin_state_up : bool) : M Db Vnat.t :=
  vnat_db <- _get_vnat id ;;
  let vnat_db' :=
    Vnat.mk (Vnat.id vnat_db) tenant_id (Vnat.external_ip_address vnat_db)
      (Vnat.external_port vnat_db) (Vnat.vserver_id vnat_db)
      (Vnat.status vnat_db) admin_state_up (Vnat.shared vnat_db) vnat_type
      device_id port_id (Vnat.fixed_ip_address vnat_db) (Vnat.gateway vnat_db)
      (Vnat.fixed_port vnat_db) in
  modify (set_vnats
    (map (fun v => if String.eqb (Vnat.id v) id then vnat_db' else v))) ;;;
  ret (_make_vnat_dict vnat_db').

(** The filters the RPC [create_vnat] looks an existing vnat up with. *)
Definition rpc_create_filters (kw : CreateVnatKwargs.t) : VnatFilters :=
  (col_fixed_ip_address, [CreateVnatKwargs.fixed_ip kw])
    :: (if truthy (CreateVnatKwargs.fixed_port kw)
        then [(col_fixed_port, [CreateVnatKwargs.fixed_port kw])]
        else []).

(** The RPC [create_vnat]: it returns nothing. *)
Definition rpc_create_vnat (kw : CreateVnatKwargs.t) : M Db unit :=
  if truthy (CreateVnatKwargs.fixed_ip kw) then
    found <- get_vnats (rpc_create_filters kw) ;;
    match found with
    | [] =>
        create_vnat
          (VnatRequest.mk (CreateVnatKwargs.tenant_id kw) None None
             (Some (CreateVnatKwargs.shared kw)) (CreateVnatKwargs.port_id kw)
             (CreateVnatKwargs.fixed_ip kw) (CreateVnatKwargs.fixed_port kw)
             (CreateVnatKwargs.device_id kw) true
             (CreateVnatKwargs.vnat_type kw)) ;;;
        ret tt
    | vnat :: _ =>
        update_vnat (Vnat.id vnat) (CreateVnatKwargs.port_id kw)
          (CreateVnatKwargs.vnat_type kw) (CreateVnatKwargs.device_id kw)
          (CreateVnatKwargs.tenant_id kw) true ;;;
        ret tt
    end
  else ret tt.
End Plugin.

(** The vnats that reference a vserver. *)
Definition references (vserver_id : string) (db : Db) : list Vnat.t :=
  filter (fun v => Vnat.vserver_id v = Some vserver_id) (vnats db).

(** The admin state of the vserver [vserver_id], if the table has it. *)
Definition is_up (vserver_id : string) (db : Db) : Prop :=
  exists vs, vs ∈ vservers db /\ Vserver.id vs = vserver_id /\
             Vserver.admin_state_up vs = true.

Definition is_down (vserver_id : string) (db : Db) : Prop :=
  exists vs, vs ∈ vservers db /\ Vserver.id vs = vserver_id /\
             Vserver.admin_state_up vs = false.

(** The table holds exactly one vserver with this id, so that
    [_get_vserver] finds it. *)
Definition has_vserver (vserver_id : string) (db : Db) : Prop :=
  exists vs,
    filter (fun vs => String.eqb (Vserver.id vs) vserver_id = true)
           (vservers db) = [vs].


(** *** [nat_db.delete_vserver] *)

(** What [delete_vserver] can raise: [nat.VserverInUse], besides what
    [_get_vserver] raises. *)
Inductive DeleteVserverExc : Type :=
  | VserverInUse (vserver_id : string)
  | Raised (e : PyExc).

(** [context.session.delete(vserver)] takes the row with this primary
    key out. *)
Definition delete_vserver (id : string) (db : Db)
  : Db * (DeleteVserverExc + unit) :=
  match _get_vserver id db with
  | (db, inl e) => (db, inl (Raised e))
  | (db, inr vserver) =>
      let vserver_filter := [(col_vserver_id, [Some id])] in
      match get_vnats vserver_filter db with
      | (db, inl e) => (db, inl (Raised e))
      | (db, inr (_ :: _)) => (db, inl (VserverInUse id))
      | (db, inr []) =>
          (set_vservers
             (filter (fun vs =>
                negb (String.eqb (Vserver.id vs) (Vserver.id vserver)) = true))
             db,
           inr tt)
      end
  end.

(** Every vnat that names a vserver names one the table has. *)
Definition references_resolve (db : Db) : Prop :=
  forall v s, v ∈ vnats db -> Vnat.vserver_id v = Some s ->
              exists vs, vs ∈ vservers db /\ Vserver.id vs = s.

(** *** [nat_rpc_agent_api.NatAgentNotifyAPI._notification] *)

(** The branch for [port_delete_end]: every vnat of the port is
    deleted.  [supported] is
    [utils.is_extension_supported(plugin, NAT_AGENT_SCHEDULER_EXT_ALIAS)]. *)
Definition port_delete_end (supported : bool) (port_id : string)
  : M Db unit :=
  if supported then
    let filters := [(col_port_id, [Some port_id])] in
    vnats <- get_vnats filters ;;
    for_each vnats (fun vnat => delete_vnat (Vnat.id vnat))
  else ret tt.

End NatDb.

(** ** neutron/agent/nat_agent.py: class NatAgent *)
Module NatAgent.
Import NatManager.

(** The objects the plugin hands to the agent besides vnats and
    vservers. *)
Module Subnet.
Record t : Type := mk { id : string; network_id : string; cidr : string }.
End Subnet.

Module FixedIp.
Record t : Type := mk { ip_address : string; subnet_id : string }.
End FixedIp.

(** A nat interface: a port dictionary, to which the agent adds the keys
    ['subnet'] and ['ip_cidr']. *)
Module Intf.
Record t : Type := mk {
  id : string;
  status : string;
  fixed_ips : list FixedIp.t;
  mac_address : string;
  subnet : option Subnet.t;
  ip_cidr : option string
}.
Definition set_subnet (s : Subnet.t) (i : t) : t :=
  mk (id i) (status i) (fixed_ips i) (mac_address i) (Some s) (ip_cidr i).
Definition set_ip_cidr (c : string) (i : t) : t :=
  mk (id i) (status i) (fixed_ips i) (mac_address i) (subnet i) (Some c).
End Intf.

Module ComputeHost.
Record t : Type := mk { host_name : string; service : string }.
End ComputeHost.

(** The keyword arguments [_process_created_vnat] gives [update_vnat]; the
    others stay [None]. *)
Module UpdateVnat.
Record t : Type := mk {
  vnat_id : string;
  ext_ip : option string;
  vserver_id : option string;
  ext_port : option string;
  device_id : option string;
  admin_state_up : option bool;
  gateway : option string;
  status : option string
}.
End UpdateVnat.

Module CreateVnat.
Record t : Type := mk {
  fixed_ip : string;
  vnat_type : VnatType;
  fixed_port : option string;
  shared : bool
}.
End CreateVnat.

(** Everything the agent asks of a collaborator: the messages of
    [NatPluginApi] (named after [make_msg]'s method), the interface
    driver, [ip_lib], the command runner, the chain layer under the
    iptables backend, the compute service and the resolver. *)
Inductive Call : Type :=
  | msg_get_active_vnats (host : string) (ext_ip : option string)
  | msg_get_vserver (ext_ip ext_port : string)
  | msg_update_vnat (args : UpdateVnat.t)
  | msg_create_vnat (args : CreateVnat.t)
  | msg_delete_vnat (vnat_id : string)
  | msg_add_nat_interface (subnet_id host : string) (gateway : bool)
  | msg_remove_nat_interface (port_id : string)
  | msg_get_nat_interfaces (network_id : option string) (host : string)
  | msg_get_subnets (port_ids : list string)
  | device_exists (name : string)
  | driver_plug (network_id port_id name mac_address : string)
  | driver_unplug (name : string)
  | driver_init_l3 (name : string) (cidrs : list string)
  | utils_execute (args : list string) (root_helper : string)
  | iptables_apply (table : IptablesTable)
  | hosts_list_all
  | gethostbyname (node : string).

Inductive Reply : Type :=
  | reply_none
  | reply_vnats (l : list Vnat.t)
  | reply_vnat (v : Vnat.t)
  | reply_vserver (v : Vserver.t)
  | reply_intf (i : Intf.t)
  | reply_intfs (l : list Intf.t)
  | reply_subnets (l : list Subnet.t)
  | reply_bool (b : bool)
  | reply_string (s : string)
  | reply_hosts (l : list ComputeHost.t).

Record Conf : Type := mkConf {
  host : string;
  root_helper : string;
  local_external_ip : string;
  local_internal_ip : string;
  external_port_start : string;
  send_arp_for_ha : Z;
  console_enabled : bool;
  console_port : string;
  user_defined : bool;
  user_defined_rules : list string;
  DEV_NAME_LEN : nat
}.

(** [self.nat_manager]: one of the two backends, chosen by configuration. *)
Inductive Manager : Type :=
  | Lvs (m : LvsNatManager)
  | Iptables (m : IptablesNatManager).

(** A positional parameter without default: a call that leaves it out
    raises [TypeError] before the body runs. *)
Inductive Arg (A : Type) : Type :=
  | supplied (a : A)
  | left_out.
Arguments supplied {A} _.
Arguments left_out {A}.

Definition INTERNAL_DEV_PREFIX : string := "qn-".

Section Agent.
(** Everything outside the agent process: the plugin's database, the
    host's devices and kernel tables. *)
Variable World : Type.
Variable collaborator : Call -> World -> World * (PyExc + Reply).
(** [netaddr.IPNetwork(cidr).prefixlen] *)
Variable prefixlen : string -> PyExc + Z.

Record Agent : Type := mkAgent {
  needs_resync : bool;
  conf : Conf;
  vnat_info : list Vnat.t;
  compute_hosts : list string;
  ext_ip : string;
  nat_manager : Manager;
  default_gateway : bool;
  log : list string;
  calls : list Call;
  world : World
}.

Definition set_needs_resync (b : bool) (a : Agent) : Agent :=
  mkAgent b (conf a) (vnat_info a) (compute_hosts a) (ext_ip a)
    (nat_manager a) (default_gateway a) (log a) (calls a) (world a).
Definition set_vnat_info (l : list Vnat.t) (a : Agent) : Agent :=
  mkAgent (needs_resync a) (conf a) l (compute_hosts a) (ext_ip a)
    (nat_manager a) (default_gateway a) (log a) (calls a) (world a).
Definition append_compute_host (h : string) (a : Agent) : Agent :=
  mkAgent (needs_resync a) (conf a) (vnat_info a) (compute_hosts a ++ [h])
    (ext_ip a) (nat_manager a) (default_gateway a) (log a) (calls a)
    (world a).
Definition set_nat_manager (m : Manager) (a : Agent) : Agent :=
  mkAgent (needs_resync a) (conf a) (vnat_info a) (compute_hosts a)
    (ext_ip a) m (default_gateway a) (log a) (calls a) (world a).
Definition append_log (msg : string) (a : Agent) : Agent :=
  mkAgent (needs_resync a) (conf a) (vnat_info a) (compute_hosts a)
    (ext_ip a) (nat_manager a) (default_gateway a) (log a ++ [msg])
    (calls a) (world a).

(** One request to a collaborator: it is recorded in [calls], the world
    moves, and the answer or the exception comes back. *)
Definition call (c : Call) : M Agent Reply :=
  fun a =>
    let '(w, r) := collaborator c (world a) in
    (mkAgent (needs_resync a) (conf a) (vnat_info a) (compute_hosts a)
       (ext_ip a) (nat_manager a) (default_gateway a) (log a)
       (calls a ++ [c]) w, r).

(** An answer of another shape than the caller reads fails where the
    caller first touches it. *)
Definition bad_reply {A} : M Agent A :=
  raise (AttributeError "unexpected reply").

(** *** class NatPluginApi *)

Definition get_active_vnats (ext_ip : option string) : M Agent (list Vnat.t) :=
  h <- gets (fun a => host (conf a)) ;;
  r <- call (msg_get_active_vnats h ext_ip) ;;
  match r with
  | reply_vnats l => ret l
  | reply_none => ret []
  | _ => bad_reply
  end.

Definition get_vserver (ext_ip ext_port : string) : M Agent Vserver.t :=
  r <- call (msg_get_vserver ext_ip ext_port) ;;
  match r with reply_vserver v => ret v | _ => bad_reply end.

Definition update_vnat (args : UpdateVnat.t) : M Agent Vnat.t :=
  r <- call (msg_update_vnat args) ;;
  match r with reply_vnat v => ret v | _ => bad_reply end.

Definition create_vnat (args : CreateVnat.t) : M Agent unit :=
  call (msg_create_vnat args) ;;; ret tt.

Definition delete_vnat (vnat_id : string) : M Agent unit :=
  call (msg_delete_vnat vnat_id) ;;; ret tt.

Definition add_nat_interface (subnet_id : string) (gateway : bool)
  : M Agent Intf.t :=
  h <- gets (fun a => host (conf a)) ;;
  r <- call (msg_add_nat_interface subnet_id h gateway) ;;
  match r with reply_intf i => ret i | _ => bad_reply end.

Definition remove_nat_interface (port_id : string) : M Agent unit :=
  call (msg_remove_nat_interface port_id) ;;; ret tt.

Definition get_nat_interfaces (network_id : option string)
  : M Agent (list Intf.t) :=
  h <- gets (fun a => host (conf a)) ;;
  r <- call (msg_get_nat_interfaces network_id h) ;;
  match r with
  | reply_intfs l => ret l
  | reply_none => ret []
  | _ => bad_reply
  end.

Definition get_subnets_for_ports (port_ids : list string)
  : M Agent (list Subnet.t) :=
  r <- call (msg_get_subnets port_ids) ;;
  match r with reply_subnets l => ret l | _ => bad_reply end.

(** *** [self.nat_manager], whichever backend it is *)

Definition add_nat_rule (ext_ip ext_port fixed_ip fixed_port gateway : string)
  : M Agent unit :=
  modify (fun a =>
    set_nat_manager
      match nat_manager a with
      | Lvs m =>
          Lvs (lvs_add_nat_rule m ext_ip ext_port fixed_ip fixed_port gateway)
      | Iptables m =>
          Iptables
            (ipt_add_nat_rule m ext_ip ext_port fixed_ip fixed_port gateway)
      end a).

(** The agent passes five arguments; [LvsNatManager.delete_nat_rule]
    takes four. *)
Definition delete_nat_rule
    (ext_ip ext_port fixed_ip fixed_port gateway : string) : M Agent unit :=
  m <- gets nat_manager ;;
  match m with
  | Lvs _ =>
      raise (TypeError "delete_nat_rule() takes exactly 5 arguments (6 given)")
  | Iptables m =>
      modify (set_nat_manager
        (Iptables
           (ipt_delete_nat_rule m ext_ip ext_port fixed_ip fixed_port
              gateway)))
  end.

Definition execute (args : list string) (root_helper : string)
  : M Agent string :=
  r <- call (utils_execute args root_helper) ;;
  match r with reply_string s => ret s | _ => ret "" end.

Definition lvs_log_line (l : LvsLog) : string :=
  match l with
  | LogSuccess rule => "Success to apply rule: " +:+ rule
  | LogFailed rule _ => "Failed to apply rule: " +:+ rule
  end.

Definition nat_manager_apply : M Agent unit :=
  m <- gets nat_manager ;;
  match m with
  | Lvs m =>
      fun a =>
        let '(m', h) := lvs_apply Agent execute m (mkHost a [] []) in
        let a' := set_nat_manager (Lvs m') (kernel h) in
        (fold_left (fun a l => append_log (lvs_log_line l) a) (logged h) a',
         inr tt)
  | Iptables m => call (iptables_apply (ipt_nat_table m)) ;;; ret tt
  end.

(** *** Gateway interfaces *)

Definition _set_subnet_info (port : Intf.t) : M Agent Intf.t :=
  match Intf.fixed_ips port with
  | [] => raise (PlainException "Router port has no IP address")
  | ip0 :: more =>
      (match more with
       | [] => ret tt
       | _ :: _ => modify (append_log "Ignoring multiple IPs on router port")
       end) ;;;
      match Intf.subnet port with
      | None => raise (KeyError "subnet")
      | Some subnet =>
          n <- lift (prefixlen (Subnet.cidr subnet)) ;;
          ret (Intf.set_ip_cidr
                 (FixedIp.ip_address ip0 +:+ "/" +:+ py_str n) port)
      end
  end.

Definition get_internal_device_name (port_id : string) : M Agent string :=
  n <- gets (fun a => DEV_NAME_LEN (conf a)) ;;
  ret (py_prefix n (INTERNAL_DEV_PREFIX +:+ port_id)).

Definition ip_lib_device_exists (name : string) : M Agent bool :=
  r <- call (device_exists name) ;;
  match r with reply_bool b => ret b | _ => bad_reply end.

Definition _send_gratuitous_arp_packet (interface_name ip_address : string)
  : M Agent unit :=
  count <- gets (fun a => send_arp_for_ha (conf a)) ;;
  if (0 <? count)%Z then
    rh <- gets (fun a => root_helper (conf a)) ;;
    let arping_cmd :=
      ["arping"; "-A"; "-U"; "-I"; interface_name;
       "-c"; py_str count; ip_address] in
    try_except (execute arping_cmd rh ;;; ret tt)
      (fun _ => modify (append_log "Failed sending gratuitous ARP"))
  else ret tt.

Definition internal_network_added
    (network_id port_id internal_cidr mac_address : string) : M Agent unit :=
  interface_name <- get_internal_device_name port_id ;;
  present <- ip_lib_device_exists interface_name ;;
  (if negb present
   then call (driver_plug network_id port_id interface_name mac_address) ;;;
        ret tt
   else ret tt) ;;;
  call (driver_init_l3 interface_name [internal_cidr]) ;;;
  let ip_address := hd "" (py_split_on "/"%char internal_cidr) in
  _send_gratuitous_arp_packet interface_name ip_address.

Definition internal_network_removed (port_id : string)
    (internal_cidr : string) : M Agent unit :=
  interface_name <- get_internal_device_name port_id ;;
  present <- ip_lib_device_exists interface_name ;;
  if present then call (driver_unplug interface_name) ;;; ret tt
  else ret tt.

(** [intf['ip_cidr']] *)
Definition read_ip_cidr (intf : Intf.t) : M Agent string :=
  match Intf.ip_cidr intf with
  | Some c => ret c
  | None => raise (KeyError "ip_cidr")
  end.

(** The shared part of [_get_gateway] and of the tick: the interface of
    a subnet, created when there is none, plumbed when it is down. *)
Definition ensure_interface (subnet : Subnet.t) : M Agent Intf.t :=
  intfs <- get_nat_interfaces (Some (Subnet.network_id subnet)) ;;
  match intfs with
  | [] =>
      dg <- gets default_gateway ;;
      add_nat_interface (Subnet.id subnet) dg
  | intf :: _ => ret intf
  end.

Definition plumb_if_down (subnet : Subnet.t) (intf : Intf.t)
  : M Agent Intf.t :=
  if String.eqb (Intf.status intf) "DOWN" then
    intf <- _set_subnet_info intf ;;
    cidr <- read_ip_cidr intf ;;
    internal_network_added (Subnet.network_id subnet) (Intf.id intf) cidr
      (Intf.mac_address intf) ;;;
    ret intf
  else ret intf.

Definition _get_gateway (port_id : option string) : M Agent string :=
  gateway <- gets (fun a => local_internal_ip (conf a)) ;;
  if negb (truthy port_id) then ret gateway
  else
    subnets <- get_subnets_for_ports [default "" port_id] ;;
    match subnets with
    | [] => ret gateway
    | subnet :: _ =>
        intf <- ensure_interface subnet ;;
        let intf := Intf.set_subnet subnet intf in
        intf <- plumb_if_down subnet intf ;;
        match Intf.fixed_ips intf with
        | [] => raise IndexError
        | ip0 :: _ => ret (FixedIp.ip_address ip0)
        end
    end.

(** *** The handlers *)

Definition _process_created_vnat (vnat_id fixed_ip : string)
    (fixed_port : option string) (gateway : Arg string)
    (device_id : option string) : M Agent unit :=
  match gateway with
  | left_out =>
      raise (TypeError
        "_process_created_vnat() takes at least 5 arguments (4 given)")
  | supplied gateway =>
      ext_ip <- gets ext_ip ;;
      ext_port <- gets (fun a => external_port_start (conf a)) ;;
      vserver <- get_vserver ext_ip ext_port ;;
      let vserver_id := Vserver.id vserver in
      let ext_port := Vserver.external_port vserver in
      update_vnat
        (UpdateVnat.mk vnat_id (Some ext_ip) (Some vserver_id)
           (Some (Vserver.external_port vserver)) device_id (Some true)
           (Some gateway) (Some "ACTIVE")) ;;;
      add_nat_rule ext_ip ext_port fixed_ip (py_fmt fixed_port) gateway ;;;
      nat_manager_apply ;;;
      modify (set_needs_resync true)
  end.

Definition vnat_create_end (vnat : Vnat.t) : M Agent unit :=
  let fixed_ip := Vnat.fixed_ip_address vnat in
  let fixed_port := Vnat.fixed_port vnat in
  let device_id := Vnat.device_id vnat in
  let port_id := Vnat.port_id vnat in
  gateway <- _get_gateway port_id ;;
  _process_created_vnat (Vnat.id vnat) fixed_ip fixed_port
    (supplied gateway) device_id.

Definition _process_deleted_vnat (vnat : Vnat.t) : M Agent unit :=
  let gateway := Vnat.gateway vnat in
  delete_nat_rule (py_fmt (Vnat.external_ip_address vnat))
    (py_fmt (Vnat.external_port vnat)) (Vnat.fixed_ip_address vnat)
    (py_fmt (Vnat.fixed_port vnat)) (py_fmt gateway) ;;;
  nat_manager_apply ;;;
  modify (set_needs_resync true).

Definition vnat_delete_end (vnat : Vnat.t) : M Agent unit :=
  _process_deleted_vnat vnat.

(** *** The reconciliation tick *)

(** The local variables of the pass over the full pull: [all_vnats], the
    host-scoped pull indexed by id, and [port_ids]. *)
Definition Pass : Type := gmap string Vnat.t * list string.

(** [for v in ...: all_vnats[v.id] = v] *)
Definition index_by_id (l : list Vnat.t) : gmap string Vnat.t :=
  fold_left (fun m v => <[Vnat.id v := v]> m) l ∅.

(** One turn of [for vnat in active_vnats].  The call of
    [_process_created_vnat] gives three arguments, leaving [gateway]
    out. *)
Definition pass_vnat (p : Pass) (vnat : Vnat.t) : M Agent Pass :=
  let '(all_vnats, port_ids) := p in
  (if VnatType_eqb (Vnat.vnat_type vnat) VNAT_TYPE_HYPER
   then modify (append_compute_host (Vnat.fixed_ip_address vnat))
   else ret tt) ;;;
  let '(all_vnats, port_ids) :=
    match all_vnats !! Vnat.id vnat with
    | Some _ =>
        (delete (Vnat.id vnat) all_vnats,
         if truthy (Vnat.port_id vnat)
         then port_ids ++ [default "" (Vnat.port_id vnat)]
         else port_ids)
    | None => (all_vnats, port_ids)
    end in
  (if negb (truthy (Vnat.vserver_id vnat))
   then _process_created_vnat (Vnat.id vnat) (Vnat.fixed_ip_address vnat)
          (Vnat.fixed_port vnat) left_out None
   else ret tt) ;;;
  ret (all_vnats, port_ids).

(** [for vnat_id in all_vnats: plugin_rpc.delete_vnat(vnat_id)]; a
    dictionary is walked in no particular order, here the map's own. *)
Definition delete_inactive (all_vnats : gmap string Vnat.t) : M Agent unit :=
  for_each (map_to_list all_vnats).*1 delete_vnat.

(** From the two pulls to the deletion of the inactive vnats; returns
    [port_ids]. *)
Definition sync_vnats : M Agent (list string) :=
  active_vnats <- get_active_vnats None ;;
  modify (set_vnat_info active_vnats) ;;;
  e <- gets ext_ip ;;
  hosted <- get_active_vnats (Some e) ;;
  let all_vnats := index_by_id hosted in
  p <- for_fold active_vnats (all_vnats, []) pass_vnat ;;
  let '(all_vnats, port_ids) := p in
  delete_inactive all_vnats ;;;
  ret port_ids.

Definition index_intfs (l : list Intf.t) : gmap string Intf.t :=
  fold_left (fun m i => <[Intf.id i := i]> m) l ∅.

Definition sync_gateways (port_ids : list string) : M Agent unit :=
  intfs <- get_nat_interfaces None ;;
  let intf_dict := index_intfs intfs in
  subnets <- get_subnets_for_ports port_ids ;;
  intf_dict <- for_fold subnets intf_dict (fun intf_dict subnet =>
    intf <- ensure_interface subnet ;;
    let intf_dict := delete (Intf.id intf) intf_dict in
    let intf := Intf.set_subnet subnet intf in
    plumb_if_down subnet intf ;;;
    ret intf_dict) ;;
  for_each (map_to_list intf_dict) (fun '(id, intf) =>
    subnets <- get_subnets_for_ports [id] ;;
    match subnets with
    | [] => raise IndexError
    | subnet :: _ =>
        let intf := Intf.set_subnet subnet intf in
        intf <- _set_subnet_info intf ;;
        cidr <- read_ip_cidr intf ;;
        internal_network_removed id cidr ;;;
        remove_nat_interface id
    end).

Definition sync_console : M Agent unit :=
  enabled <- gets (fun a => console_enabled (conf a)) ;;
  if enabled then
    r <- call hosts_list_all ;;
    computes <- match r with
                | reply_hosts l => ret l
                | _ => bad_reply
                end ;;
    for_each computes (fun c =>
      let node := ComputeHost.host_name c in
      fixed_ip <- try_except
                    (r <- call (gethostbyname node) ;;
                     match r with
                     | reply_string s => ret s
                     | _ => bad_reply
                     end)
                    (fun _ => ret node) ;;
      known <- gets compute_hosts ;;
      if String.eqb (ComputeHost.service c) "compute"
         && negb (existsb (String.eqb fixed_ip) known)
      then
        f_port <- gets (fun a => console_port (conf a)) ;;
        create_vnat (CreateVnat.mk fixed_ip VNAT_TYPE_HYPER (Some f_port)
                       true) ;;;
        modify (append_compute_host fixed_ip)
      else ret tt)
  else ret tt.

(** The [try] block of [_sync_vnats_task_body]. *)
Definition try_block : M Agent unit :=
  port_ids <- sync_vnats ;;
  sync_gateways port_ids ;;;
  sync_console ;;;
  modify (set_needs_resync false).

(** The [except:] block. *)
Definition except_block (e : PyExc) : M Agent unit :=
  modify (set_needs_resync true) ;;;
  modify (append_log "Unable to sync nat agent state.").

Definition _sync_vnats_task_body : M Agent unit :=
  try_except try_block except_block.

Definition _sync_vnats_task : M Agent unit :=
  pending <- gets needs_resync ;;
  if pending then
    modify (append_log "Synchronizing state") ;;;
    _sync_vnats_task_body
  else ret tt.

(** The body ran to its last statement. *)
Definition completes (a : Agent) : Prop :=
  exists a', try_block a = (a', inr tt).

(** The requests that push rules to the kernel: the chain layer's apply
    and the virtual-server commands. *)
Definition is_rule_apply (c : Call) : bool :=
  match c with
  | iptables_apply _ => true
  | utils_execute (cmd :: _) _ => String.eqb cmd "ipvsadm"
  | _ => false
  end.

(** Between [a] and [a'] nothing was staged and nothing applied: the
    backend holds the same batch and none of the requests made in
    between pushes rules. *)
Definition rules_untouched (a a' : Agent) : Prop :=
  nat_manager a' = nat_manager a /\
  exists l, calls a' = calls a ++ l /\
            forallb (fun c => negb (is_rule_apply c)) l = true.

(** Between [a] and [a'] no request was made at all, and neither the
    backend nor the configuration changed. *)
Definition quiet (a a' : Agent) : Prop :=
  calls a' = calls a /\ world a' = world a /\
  nat_manager a' = nat_manager a /\ conf a' = conf a /\
  ext_ip a' = ext_ip a.

(** The requests made between [a] and [a']. *)
Definition new_calls (a a' : Agent) : list Call :=
  drop (length (calls a)) (calls a').

End Agent.

Arguments needs_resync {World} _.
Arguments conf {World} _.
Arguments vnat_info {World} _.
Arguments compute_hosts {World} _.
Arguments ext_ip {World} _.
Arguments nat_manager {World} _.
Arguments default_gateway {World} _.
Arguments log {World} _.
Arguments calls {World} _.
Arguments world {World} _.
Arguments mkAgent {World} _ _ _ _ _ _ _ _ _ _.

End NatAgent.

(** ** The scenarios of the spec, as concrete inputs *)
Module Scenario.

(** The binding of the first scenario: [b1], fixed endpoint 10.0.0.5:80,
    no vserver yet, no port. *)
Definition b1 : Vnat.t :=
  Vnat.mk "b1" (Some "tenant-1") None None None (Some "ACTIVE") true false
    VNAT_TYPE_VM (Some "vm-1") None "10.0.0.5" None (Some "80").

(** The cache after [put(b1, 'p1')] on an empty cache. *)
Definition cache_with_b1 : VnatCache.VnatCache :=
  fst (VnatCache.put b1 "p1" VnatCache.init).

(** The identifier generator and tenant check used in the scenarios: the
    n-th identifier is [uuid-n], and the request comes in an admin
    context, which takes the tenant from the request. *)
Definition uuid (n : nat) : string := "uuid-" +:+ py_str (Z.of_nat n).

Definition admin_tenant (vn : NatDb.VnatRequest.t) : PyExc + option string :=
  inr (NatDb.VnatRequest.tenant_id vn).

Definition empty_db : NatDb.Db := NatDb.mkDb [] [] [] 0 [].

(** A vserver that two vnats reference, both hosted by the agent on
    [node-1]. *)
Definition s1 : Vserver.t := Vserver.mk "s1" "198.51.100.1" "10001" true.

Definition v1 : Vnat.t :=
  Vnat.mk "v1" (Some "tenant-1") (Some "198.51.100.1") (Some "10001")
    (Some "s1") (Some "ACTIVE") true false VNAT_TYPE_VM (Some "vm-1") None
    "10.0.0.5" (Some "10.0.0.1") (Some "80").

Definition v2 : Vnat.t :=
  Vnat.mk "v2" (Some "tenant-1") (Some "198.51.100.1") (Some "10001")
    (Some "s1") (Some "ACTIVE") true false VNAT_TYPE_VM (Some "vm-2") None
    "10.0.0.6" (Some "10.0.0.1") (Some "80").

Definition shared_vserver_db : NatDb.Db :=
  NatDb.mkDb [s1] [v1; v2]
    [NatDb.mkBinding "agent-1" "node-1" "v1";
     NatDb.mkBinding "agent-1" "node-1" "v2"] 0 [].

(** A create request for the fixed endpoint of [v1]. *)
Definition request_v1 (vserver_id : option string) : NatDb.VnatRequest.t :=
  NatDb.VnatRequest.mk (Some "tenant-1") vserver_id None None None
    (Some "10.0.0.5") (Some "80") (Some "vm-1") true VNAT_TYPE_VM.

(** The world of the agent scenarios: what the plugin answers to the two
    pulls, its tables, and the nat table the kernel has. *)
Record World : Type := mkWorld {
  full_pull : list Vnat.t;
  host_pull : list Vnat.t;
  db : NatDb.Db;
  applied : NatManager.IptablesTable
}.

Definition activate (args : NatAgent.UpdateVnat.t) (v : Vnat.t) : Vnat.t :=
  Vnat.mk (Vnat.id v) (Vnat.tenant_id v)
    (NatAgent.UpdateVnat.ext_ip args) (NatAgent.UpdateVnat.ext_port args)
    (NatAgent.UpdateVnat.vserver_id args) (NatAgent.UpdateVnat.status args)
    true (Vnat.shared v) (Vnat.vnat_type v)
    (NatAgent.UpdateVnat.device_id args) (Vnat.port_id v)
    (Vnat.fixed_ip_address v) (NatAgent.UpdateVnat.gateway args)
    (Vnat.fixed_port v).

Definition other_than (id : string) (l : list Vnat.t) : list Vnat.t :=
  filter (fun v => negb (String.eqb (Vnat.id v) id) = true) l.

(** The plugin and the host: the pulls answer from [full_pull] and
    [host_pull], [get_vserver] is served by the plugin's own
    [NatDb.get_vserver], [update_vnat] and [delete_vnat] act on the pulls,
    the chain layer's apply installs the table it is given, and there are
    no nat interfaces, subnets or devices. *)
Definition plugin (c : NatAgent.Call) (w : World)
  : World * (PyExc + NatAgent.Reply) :=
  match c with
  | NatAgent.msg_get_active_vnats _ None =>
      (w, inr (NatAgent.reply_vnats (full_pull w)))
  | NatAgent.msg_get_active_vnats _ (Some _) =>
      (w, inr (NatAgent.reply_vnats (host_pull w)))
  | NatAgent.msg_get_vserver ext_ip ext_port =>
      let '(db', r) := NatDb.get_vserver uuid ext_ip ext_port (db w) in
      (mkWorld (full_pull w) (host_pull w) db' (applied w),
       match r with
       | inr vs => inr (NatAgent.reply_vserver vs)
       | inl e => inl e
       end)
  | NatAgent.msg_update_vnat args =>
      let id := NatAgent.UpdateVnat.vnat_id args in
      match filter (fun v => String.eqb (Vnat.id v) id = true) (full_pull w) with
      | v :: _ =>
          (mkWorld
             (map (fun u => if String.eqb (Vnat.id u) id
                            then activate args u else u) (full_pull w))
             (host_pull w) (db w) (applied w),
           inr (NatAgent.reply_vnat (activate args v)))
      | [] => (w, inl (VnatNotFound id))
      end
  | NatAgent.msg_delete_vnat id =>
      (mkWorld (other_than id (full_pull w)) (other_than id (host_pull w))
         (db w) (applied w),
       inr NatAgent.reply_none)
  | NatAgent.msg_get_nat_interfaces _ _ => (w, inr (NatAgent.reply_intfs []))
  | NatAgent.msg_get_subnets _ => (w, inr (NatAgent.reply_subnets []))
  | NatAgent.device_exists _ => (w, inr (NatAgent.reply_bool false))
  | NatAgent.iptables_apply table =>
      (mkWorld (full_pull w) (host_pull w) (db w) table,
       inr NatAgent.reply_none)
  | NatAgent.hosts_list_all => (w, inr (NatAgent.reply_hosts []))
  | _ => (w, inr NatAgent.reply_none)
  end.

Definition no_prefixlen (cidr : string) : PyExc + Z :=
  inl (ValueError "invalid IPNetwork").

(** The configuration of the first scenario: external address
    198.51.100.1, ports from 10000, the iptables backend. *)
Definition conf : NatAgent.Conf :=
  NatAgent.mkConf "node-1" "sudo" "198.51.100.1" "10.0.0.1" "10000" 3 false
    "6080" false [] 14.

Definition agent (table : NatManager.IptablesTable) (w : World)
  : NatAgent.Agent World :=
  NatAgent.mkAgent true conf [] [] "198.51.100.1"
    (NatAgent.Iptables (NatManager.mkIpt "sudo" table)) false [] [] w.

(** First scenario: the pull returns [b1], no vserver exists. *)
Definition world_b1 : World := mkWorld [b1] [] empty_db [].

(** Second scenario: [b2] was applied on this host and is returned by the
    host-scoped pull only. *)
Definition b2 : Vnat.t :=
  Vnat.mk "b2" (Some "tenant-1") (Some "198.51.100.1") (Some "10002")
    (Some "s2") (Some "ACTIVE") true false VNAT_TYPE_VM (Some "vm-2") None
    "10.0.0.6" (Some "10.0.0.1") (Some "22").

Definition rules_b2 : NatManager.IptablesTable :=
  NatManager._nat_rules "198.51.100.1" "10002" "10.0.0.6" "22" "10.0.0.1".

Definition world_b2 : World := mkWorld [] [b2] empty_db rules_b2.

(** A kernel that counts the commands it was given, and a runner that
    fails on the first command and succeeds on every later one. *)
Definition counting_runner (_ : list string) (_ : string) (k : nat)
  : nat * (PyExc + string) :=
  (S k, if Nat.eqb k 0 then inl (RemoteError "exit code 1") else inr "").

End Scenario.

(** * Properties *)

(** ** The monad *)

Lemma bind_inr {S A B} (m : M S A) (k : A -> M S B) s s' b :
  bind m k s = (s', inr b) ->
  exists s0 a, m s = (s0, inr a) /\ k a s0 = (s', inr b).
Proof.
  unfold bind. destruct (m s) as [s0 [e|a]]; intros H.
  - discriminate.
  - exists s0, a. split; [reflexivity | exact H].
Qed.

Lemma bind_inl {S A B} (m : M S A) (k : A -> M S B) s s' e :
  bind m k s = (s', inl e) ->
  m s = (s', inl e) \/
  exists s0 a, m s = (s0, inr a) /\ k a s0 = (s', inl e).
Proof.
  unfold bind. destruct (m s) as [s0 [e0|a]]; intros H.
  - left. by inversion H.
  - right. exists s0, a. split; [reflexivity | exact H].
Qed.

(** ** nat_manager.py: the virtual-server backend *)
Section LvsFacts.
Import NatManager.
Variable Kernel : Type.
Variable execute :
  list string -> string -> Kernel -> Kernel * (PyExc + string).

Lemma lvs_apply_rule_executed rh h rule :
  executed (lvs_apply_rule Kernel execute rh h rule)
  = executed h ++ [["ipvsadm"] ++ py_split rule].
Proof.
  unfold lvs_apply_rule.
  destruct (execute _ rh (kernel h)) as [k' [e|out]]; reflexivity.
Qed.

Lemma lvs_apply_rule_logged rh h rule :
  logged (lvs_apply_rule Kernel execute rh h rule)
  = logged h ++ [outcome Kernel execute rh (kernel h) rule].
Proof.
  unfold lvs_apply_rule, outcome.
  destruct (execute _ rh (kernel h)) as [k' [e|out]]; reflexivity.
Qed.

Lemma fold_executed rh rules : forall h,
  executed (fold_left (lvs_apply_rule Kernel execute rh) rules h)
  = executed h ++ map (fun r => ["ipvsadm"] ++ py_split r) rules.
Proof.
  induction rules as [|r rules IH]; intros h; simpl.
  - by rewrite app_nil_r.
  - rewrite IH, lvs_apply_rule_executed, <- app_assoc. reflexivity.
Qed.

Lemma lvs_apply_rule_kernel rh h rule :
  kernel (lvs_apply_rule Kernel execute rh h rule)
  = fst (execute (["ipvsadm"] ++ py_split rule) rh (kernel h)).
Proof.
  unfold lvs_apply_rule.
  destruct (execute _ rh (kernel h)) as [k' [e|out]]; reflexivity.
Qed.

(** The loop of [apply] against [runs_in_order]. *)
Lemma fold_runs_in_order rh rules : forall h,
  kernel (fold_left (lvs_apply_rule Kernel execute rh) rules h)
  = fst (runs_in_order Kernel execute rh (kernel h) rules) /\
  logged (fold_left (lvs_apply_rule Kernel execute rh) rules h)
  = logged h ++ snd (runs_in_order Kernel execute rh (kernel h) rules).
Proof.
  induction rules as [|r rules IH]; intros h.
  - simpl. by rewrite app_nil_r.
  - cbn [fold_left runs_in_order].
    destruct (IH (lvs_apply_rule Kernel execute rh h r)) as [Hk Hl].
    rewrite Hk, Hl, lvs_apply_rule_kernel, lvs_apply_rule_logged.
    clear Hk Hl.
    destruct (runs_in_order _ _ _ _ rules) as [k'' lines]. simpl.
    split; [reflexivity | by rewrite <- app_assoc].
Qed.

Lemma runs_in_order_app rh rules1 : forall rules2 k,
  runs_in_order Kernel execute rh k (rules1 ++ rules2)
  = let '(k1, lines1) := runs_in_order Kernel execute rh k rules1 in
    let '(k2, lines2) := runs_in_order Kernel execute rh k1 rules2 in
    (k2, lines1 ++ lines2).
Proof.
  induction rules1 as [|r rules1 IH]; intros rules2 k; simpl.
  - by destruct (runs_in_order _ _ _ _ rules2).
  - rewrite IH.
    destruct (runs_in_order _ _ _ _ rules1) as [k1 lines1].
    by destruct (runs_in_order _ _ _ k1 rules2).
Qed.

Lemma runs_in_order_line rh rules : forall k i rule,
  rules !! i = Some rule ->
  snd (runs_in_order Kernel execute rh k rules) !! i
  = Some (outcome Kernel execute rh
            (fst (runs_in_order Kernel execute rh k (take i rules))) rule).
Proof.
  induction rules as [|r rules IH]; intros k i rule Hi; [done|].
  destruct i as [|i]; simpl in *.
  - injection Hi as ->. by destruct (runs_in_order _ _ _ _ rules).
  - specialize (IH (fst (execute (["ipvsadm"] ++ py_split r) rh k)) i rule Hi).
    destruct (runs_in_order _ _ _ _ rules) as [k'' lines].
    destruct (runs_in_order _ _ _ _ (take i rules)) as [k1 lines1].
    exact IH.
Qed.

(** C5.  [LvsNatManager.apply] is [runs_in_order] on the staged rules.
    The kernel it leaves is the one the runner reaches when it is given
    the command of every staged rule, one at a time and in staging order,
    each in the kernel state the one before left behind, failed or not.
    The argument vectors handed to the runner are exactly those of the
    staged rules.  Each rule gets one log line, a failure line exactly
    when the runner raised on its command in the kernel state the rules
    before it left behind, and a failure stops nothing: the line of
    every later rule is there.  The batch is empty afterwards in every
    case. *)
Theorem lvs_apply_best_effort (m : LvsNatManager) (h : Host Kernel) :
  let rh := lvs_root_helper m in
  let m' := fst (lvs_apply Kernel execute m h) in
  let h' := snd (lvs_apply Kernel execute m h) in
  let run := runs_in_order Kernel execute rh (kernel h) (lvs_rules m) in
  lvs_rules m' = [] /\
  kernel h' = fst run /\
  executed h'
  = executed h ++ map (fun r => ["ipvsadm"] ++ py_split r) (lvs_rules m) /\
  logged h' = logged h ++ snd run /\
  (forall i rule,
     lvs_rules m !! i = Some rule ->
     snd run !! i
     = Some (log_line rule
               (snd (execute (["ipvsadm"] ++ py_split rule) rh
                       (fst (runs_in_order Kernel execute rh (kernel h)
                               (take i (lvs_rules m)))))))).
Proof.
  simpl.
  destruct (fold_runs_in_order (lvs_root_helper m) (lvs_rules m) h)
    as [Hk Hl].
  split; [reflexivity|]. split; [exact Hk|].
  split; [apply fold_executed|]. split; [exact Hl|].
  intros i rule Hi. rewrite (runs_in_order_line _ _ _ _ _ Hi).
  unfold outcome, log_line.
  by destruct (execute _ _ _) as [k' [e|out]].
Qed.
End LvsFacts.

(** ** nat_manager.py: the packet-filter backend *)
Section SplitFacts.
Variable sep : ascii.

Lemma py_split_on_word a :
  lacks sep a = true -> py_split_on sep a = [a].
Proof.
  induction a as [|c a IH]; simpl; [reflexivity|].
  intros [Hc Ha]%andb_true_iff. apply negb_true_iff in Hc.
  rewrite Hc, (IH Ha). reflexivity.
Qed.

Lemma py_split_on_cut a b :
  lacks sep a = true ->
  py_split_on sep (a +:+ String sep b) = a :: py_split_on sep b.
Proof.
  induction a as [|c a IH]; simpl.
  - intros _. by rewrite Ascii.eqb_refl.
  - intros [Hc Ha]%andb_true_iff. apply negb_true_iff in Hc.
    rewrite Hc, (IH Ha). reflexivity.
Qed.

Lemma lacks_app a b :
  lacks sep a = true -> lacks sep b = true -> lacks sep (a +:+ b) = true.
Proof.
  induction a as [|c a IH]; simpl; [done|].
  intros [Hc Ha]%andb_true_iff Hb. rewrite Hc. simpl. by apply IH.
Qed.
End SplitFacts.

Lemma plain_value_no_blank s : plain_value s = true -> no_blank s = true.
Proof.
  destruct s as [|c s]; simpl; [done|]. by intros [_ H]%andb_true_iff.
Qed.

(** A plain value is never mistaken for an option name. *)
Lemma plain_value_not_option s opt :
  plain_value s = true -> String.eqb s (String "-" opt) = false.
Proof.
  destruct s as [|c' s]; simpl; [done|].
  intros [Hc _]%andb_true_iff. apply negb_true_iff in Hc.
  by rewrite Hc.
Qed.

Lemma plain_value_app a b :
  plain_value a = true -> no_blank b = true -> plain_value (a +:+ b) = true.
Proof.
  destruct a as [|c a]; [done|].
  unfold plain_value, no_blank. simpl.
  intros [Hc [Hc' Ha]%andb_true_iff]%andb_true_iff Hb.
  rewrite Hc, Hc'. simpl. by apply lacks_app.
Qed.

Section IptablesFacts.
Import NatManager.
Variables ext_ip ext_port fixed_ip fixed_port gateway : string.
Hypothesis ext_ip_plain : plain_value ext_ip = true.
Hypothesis ext_port_plain : plain_value ext_port = true.
Hypothesis fixed_ip_plain : plain_value fixed_ip = true.
Hypothesis fixed_port_plain : plain_value fixed_port = true.
Hypothesis gateway_plain : plain_value gateway = true.

Lemma dnat_tokens :
  py_split ("-d " +:+ ext_ip +:+ " -p tcp -m tcp --dport " +:+ ext_port
            +:+ " -j DNAT --to-destination " +:+ fixed_ip +:+ ":"
            +:+ fixed_port)
  = ["-d"; ext_ip; "-p"; "tcp"; "-m"; "tcp"; "--dport"; ext_port;
     "-j"; "DNAT"; "--to-destination"; fixed_ip +:+ ":" +:+ fixed_port].
Proof.
  unfold py_split.
  change ("-d " +:+ ext_ip +:+ " -p tcp -m tcp --dport " +:+ ext_port
            +:+ " -j DNAT --to-destination " +:+ fixed_ip +:+ ":"
            +:+ fixed_port)
    with ("-d" +:+ String " " (ext_ip +:+ String " " ("-p" +:+ String " "
          ("tcp" +:+ String " " ("-m" +:+ String " " ("tcp" +:+ String " "
          ("--dport" +:+ String " " (ext_port +:+ String " "
          ("-j" +:+ String " " ("DNAT" +:+ String " "
          ("--to-destination" +:+ String " "
          (fixed_ip +:+ ":" +:+ fixed_port)))))))))))).
  rewrite !py_split_on_cut
    by (reflexivity || by apply plain_value_no_blank).
  rewrite py_split_on_word; [reflexivity|].
  apply lacks_app; [by apply plain_value_no_blank|].
  apply (lacks_app _ ":"); [reflexivity | by apply plain_value_no_blank].
Qed.

Lemma snat_tokens :
  py_split ("-d " +:+ fixed_ip +:+ " -p tcp -m tcp --dport " +:+ fixed_port
            +:+ " -j SNAT --to-source " +:+ gateway)
  = ["-d"; fixed_ip; "-p"; "tcp"; "-m"; "tcp"; "--dport"; fixed_port;
     "-j"; "SNAT"; "--to-source"; gateway].
Proof.
  unfold py_split.
  change ("-d " +:+ fixed_ip +:+ " -p tcp -m tcp --dport " +:+ fixed_port
            +:+ " -j SNAT --to-source " +:+ gateway)
    with ("-d" +:+ String " " (fixed_ip +:+ String " " ("-p" +:+ String " "
          ("tcp" +:+ String " " ("-m" +:+ String " " ("tcp" +:+ String " "
          ("--dport" +:+ String " " (fixed_port +:+ String " "
          ("-j" +:+ String " " ("SNAT" +:+ String " "
          ("--to-source" +:+ String " " gateway))))))))))).
  rewrite !py_split_on_cut
    by (reflexivity || by apply plain_value_no_blank).
  rewrite py_split_on_word; [reflexivity|].
  by apply plain_value_no_blank.
Qed.

(** Reading an option off a tokenised directive: literal tokens compare
    by computation, the five values by [plain_value_not_option]. *)
Ltac read_option :=
  simpl;
  repeat (rewrite plain_value_not_option by assumption; simpl);
  reflexivity.

(** C6, as amended.  [add_nat_rule] stages exactly two directives after
    whatever was staged before: in PREROUTING a DNAT rule that matches
    the external endpoint as destination and rewrites the destination to
    the fixed endpoint; in POSTROUTING a SNAT rule that matches the fixed
    endpoint as destination (it has no source match) and rewrites the
    source to the gateway address. *)
Theorem ipt_add_nat_rule_stages_pair (m : IptablesNatManager) :
  exists dnat snat,
    ipt_nat_table
      (ipt_add_nat_rule m ext_ip ext_port fixed_ip fixed_port gateway)
    = ipt_nat_table m ++ [("PREROUTING", dnat); ("POSTROUTING", snat)] /\
    matches_destination ext_ip ext_port dnat /\
    jumps_to "DNAT" dnat /\
    rewrites_destination_to (fixed_ip +:+ ":" +:+ fixed_port) dnat /\
    matches_destination fixed_ip fixed_port snat /\
    jumps_to "SNAT" snat /\
    rewrites_source_to gateway snat /\
    option_value "-s" (py_split snat) = None /\
    option_value "--sport" (py_split snat) = None.
Proof.
  eexists _, _. split.
  { unfold ipt_add_nat_rule, _nat_rules, add_rule. simpl.
    rewrite <- app_assoc. reflexivity. }
  unfold matches_destination, jumps_to, rewrites_destination_to,
    rewrites_source_to.
  rewrite dnat_tokens, snat_tokens.
  repeat split; read_option.
Qed.
End IptablesFacts.

(** The spec's scenario: external endpoint 198.51.100.1:10001, fixed
    endpoint 10.0.0.5:80, gateway 10.0.0.1. *)
Lemma ipt_add_nat_rule_stages_pair_scenario :
  exists dnat snat,
    NatManager.ipt_nat_table
      (NatManager.ipt_add_nat_rule (NatManager.mkIpt "sudo" [])
         "198.51.100.1" "10001" "10.0.0.5" "80" "10.0.0.1")
    = [] ++ [("PREROUTING", dnat); ("POSTROUTING", snat)] /\
    NatManager.matches_destination "198.51.100.1" "10001" dnat /\
    NatManager.jumps_to "DNAT" dnat /\
    NatManager.rewrites_destination_to ("10.0.0.5" +:+ ":" +:+ "80") dnat /\
    NatManager.matches_destination "10.0.0.5" "80" snat /\
    NatManager.jumps_to "SNAT" snat /\
    NatManager.rewrites_source_to "10.0.0.1" snat /\
    option_value "-s" (py_split snat) = None /\
    option_value "--sport" (py_split snat) = None.
Proof.
  apply (ipt_add_nat_rule_stages_pair
           "198.51.100.1" "10001" "10.0.0.5" "80" "10.0.0.1");
    reflexivity.
Defined.

(** C6, as stated, fails in the spec's scenario: the two directives staged
    are not a DNAT rule together with a SNAT rule that matches the fixed
    endpoint as source. *)
Lemma snat_rule_has_no_source_match :
  ~ exists dnat snat,
      NatManager.ipt_nat_table
        (NatManager.ipt_add_nat_rule (NatManager.mkIpt "sudo" [])
           "198.51.100.1" "10001" "10.0.0.5" "80" "10.0.0.1")
      = [("PREROUTING", dnat); ("POSTROUTING", snat)] /\
      NatManager.matches_destination "198.51.100.1" "10001" dnat /\
      NatManager.rewrites_destination_to "10.0.0.5:80" dnat /\
      NatManager.matches_source "10.0.0.5" "80" snat /\
      NatManager.rewrites_source_to "10.0.0.1" snat.
Proof.
  intros (dnat & snat & Htable & _ & _ & [Hs _] & _).
  vm_compute in Htable. inversion Htable; subst.
  vm_compute in Hs. discriminate.
Qed.


(** What [remove_rule] and [delete_nat_rule] take out of a table. *)
Section RemoveRuleFacts.
Import NatManager.

Lemma remove_rule_absent (t rest : IptablesTable) (chain rule : string) :
  (chain, rule) ∉ t ->
  remove_rule (t ++ (chain, rule) :: rest) chain rule = t ++ rest.
Proof.
  induction t as [|[c r] t IH]; intros Hnotin; simpl.
  - by rewrite !String.eqb_refl.
  - destruct (String.eqb c chain && String.eqb r rule) eqn:E.
    + apply andb_true_iff in E as [->%String.eqb_eq ->%String.eqb_eq].
      exfalso. apply Hnotin. by left.
    + rewrite IH; [reflexivity|]. intros H. apply Hnotin. by right.
Qed.

End RemoveRuleFacts.

(** ** nat_agent.py: VnatCache *)
Section CacheFacts.
Import VnatCache.

(** The loop leaves the bucket alone when none of the positions it
    visits holds the id. *)
Lemma remove_loop_miss (v : Vnat.t) (vnats : list string) :
  forall indices : list nat,
    (forall i, i ∈ indices ->
       exists x, vnats !! i = Some x /\ x <> Vnat.id v) ->
    remove_loop (Some v) indices vnats = (vnats, inr tt).
Proof.
  induction indices as [|i indices IH]; intros H; simpl; [reflexivity|].
  destruct (H i) as (x & Hx & Hne); [left|].
  rewrite Hx.
  destruct (String.eqb_spec x (Vnat.id v)) as [->|_]; [done|].
  apply IH. intros j Hj. apply H. by right.
Qed.

(** [remove] when the id sits in the last place of the bucket and
    nowhere before: the state it ends in. *)
Lemma remove_last_member_run (c : VnatCache) (v v0 : Vnat.t)
    (port_id : string) (before : list string) :
  cache c !! Vnat.id v = Some v0 ->
  port_lookup c !! port_id = Some (before ++ [Vnat.id v]) ->
  Vnat.id v ∉ before ->
  remove (Some v) port_id c
  = (mkCache (delete (Vnat.id v) (cache c))
       (<[port_id := before ++ [Vnat.id v]]> (port_lookup c)),
     inr tt).
Proof.
  intros Hc Hp Hnotin.
  assert (Hloop : remove_loop (Some v)
            (seq 0 (length (before ++ [Vnat.id v]) - 1))
            (before ++ [Vnat.id v])
          = (before ++ [Vnat.id v], inr tt)).
  { apply remove_loop_miss. intros i Hi.
    rewrite length_app in Hi. simpl in Hi.
    replace (length before + 1 - 1) with (length before) in Hi by lia.
    apply elem_of_seq in Hi.
    destruct (lookup_lt_is_Some_2 before i) as [x Hx]; [lia|].
    exists x. split.
    - rewrite lookup_app_l by lia. exact Hx.
    - intros ->. apply Hnotin. by eapply list_elem_of_lookup_2. }
  unfold remove, bind, gets, modify, lift, ret. simpl.
  rewrite Hc. simpl. rewrite Hp. rewrite Hloop. simpl.
  by destruct before.
Qed.

(** C2.  The loop of [remove] stops one position short of the end of
    the bucket ([range(0, len(vnats) - 1)]): when the id sits in the
    last place of the bucket, and nowhere before, [remove] returns
    normally, drops the cache entry and leaves the bucket as it was,
    still holding the id; a bucket whose only member was removed is
    therefore not deleted. *)
Theorem remove_misses_last_member (c : VnatCache) (v v0 : Vnat.t)
    (port_id : string) (before : list string) :
  cache c !! Vnat.id v = Some v0 ->
  port_lookup c !! port_id = Some (before ++ [Vnat.id v]) ->
  Vnat.id v ∉ before ->
  exists c',
    remove (Some v) port_id c = (c', inr tt) /\
    cache c' !! Vnat.id v = None /\
    port_lookup c' !! port_id = Some (before ++ [Vnat.id v]) /\
    get_vnats_by_port_id c' port_id
    = map (fun id => cache c' !! id) (before ++ [Vnat.id v]).
Proof.
  intros Hc Hp Hnotin. eexists. split.
  { by eapply remove_last_member_run. }
  simpl. split; [apply lookup_delete_eq|].
  split; [apply lookup_insert_eq|].
  unfold get_vnats_by_port_id. simpl. rewrite lookup_insert_eq.
  by destruct before.
Qed.

(** C7.  [put] on an id that is already cached calls [remove] with the
    port id of the new entry, and [remove] stops one position short of
    the end of the bucket.  So the old association is not removed:
    on the port the id is already filed under (as last member), [put]
    files it a second time; on a port without a bucket, [remove] raises
    [KeyError] after the cache entry is gone, so [put] propagates it,
    inserts nothing and leaves every bucket as it was. *)
Theorem put_keeps_old_association (c : VnatCache) (v v0 : Vnat.t)
    (port_id : string) :
  cache c !! Vnat.id v = Some v0 ->
  Vnat.id v0 = Vnat.id v ->
  (forall before,
     port_lookup c !! port_id = Some (before ++ [Vnat.id v]) ->
     Vnat.id v ∉ before ->
     exists c',
       put v port_id c = (c', inr tt) /\
       cache c' !! Vnat.id v = Some v /\
       port_lookup c' !! port_id
       = Some (before ++ [Vnat.id v; Vnat.id v])) /\
  (port_lookup c !! port_id = None ->
     exists c',
       put v port_id c = (c', inl (KeyError port_id)) /\
       cache c' !! Vnat.id v = None /\
       port_lookup c' = port_lookup c).
Proof.
  intros Hc Hid. split.
  - intros before Hp Hnotin.
    rewrite <- Hid in Hc, Hp, Hnotin.
    pose proof (remove_last_member_run c v0 v0 port_id before Hc Hp Hnotin)
      as Hrm.
    rewrite Hid in Hc, Hrm.
    eexists. split.
    { unfold put, bind, gets. rewrite Hc, Hrm. simpl.
      rewrite lookup_insert_eq. reflexivity. }
    simpl. split; [apply lookup_insert_eq|].
    rewrite lookup_insert_eq, <- app_assoc. reflexivity.
  - intros Hp. eexists. split.
    { unfold put, remove, bind, gets, modify, raise. simpl.
      rewrite Hc. simpl. rewrite Hid, Hc. simpl.
      rewrite Hp. reflexivity. }
    simpl. split; [apply lookup_delete_eq | reflexivity].
Qed.
End CacheFacts.


(** [remove(b1, 'p1')] right after [put(b1, 'p1')] on an empty cache. *)
Lemma remove_misses_last_member_scenario :
  exists c',
    VnatCache.remove (Some Scenario.b1) "p1" Scenario.cache_with_b1
    = (c', inr tt) /\
    VnatCache.cache c' !! Vnat.id Scenario.b1 = None /\
    VnatCache.port_lookup c' !! "p1" = Some ([] ++ [Vnat.id Scenario.b1]) /\
    VnatCache.get_vnats_by_port_id c' "p1"
    = map (fun id => VnatCache.cache c' !! id) ([] ++ [Vnat.id Scenario.b1]).
Proof.
  apply (remove_misses_last_member Scenario.cache_with_b1 Scenario.b1
           Scenario.b1 "p1" []).
  - reflexivity.
  - reflexivity.
  - apply not_elem_of_nil.
Defined.

(** The same run, evaluated: the bucket of [p1] survives the removal of
    its only member and still lists [b1], for which [get_vnats_by_port_id]
    now finds no cache entry. *)
Example remove_only_member_keeps_bucket :
  let r := VnatCache.remove (Some Scenario.b1) "p1" Scenario.cache_with_b1 in
  snd r = inr tt /\
  VnatCache.port_lookup (fst r) !! "p1" = Some ["b1"] /\
  VnatCache.cache (fst r) !! "b1" = None /\
  VnatCache.get_vnats_by_port_id (fst r) "p1" = [None] /\
  ~ VnatCache.ids_have_entries (fst r).
Proof.
  repeat split; try (vm_compute; reflexivity).
  intros H.
  destruct (H "p1" ["b1"] "b1") as [x Hx].
  - vm_compute. reflexivity.
  - by left.
  - vm_compute in Hx. discriminate.
Qed.

(** [put(b1, 'p1')] a second time, and [put(b1, 'p2')] after
    [put(b1, 'p1')]. *)
Lemma put_keeps_old_association_scenario :
  (forall before,
     VnatCache.port_lookup Scenario.cache_with_b1 !! "p1"
     = Some (before ++ [Vnat.id Scenario.b1]) ->
     Vnat.id Scenario.b1 ∉ before ->
     exists c',
       VnatCache.put Scenario.b1 "p1" Scenario.cache_with_b1 = (c', inr tt) /\
       VnatCache.cache c' !! Vnat.id Scenario.b1 = Some Scenario.b1 /\
       VnatCache.port_lookup c' !! "p1"
       = Some (before ++ [Vnat.id Scenario.b1; Vnat.id Scenario.b1])) /\
  (VnatCache.port_lookup Scenario.cache_with_b1 !! "p2" = None ->
     exists c',
       VnatCache.put Scenario.b1 "p2" Scenario.cache_with_b1
       = (c', inl (KeyError "p2")) /\
       VnatCache.cache c' !! Vnat.id Scenario.b1 = None /\
       VnatCache.port_lookup c'
       = VnatCache.port_lookup Scenario.cache_with_b1).
Proof.
  split.
  - apply (put_keeps_old_association Scenario.cache_with_b1 Scenario.b1
             Scenario.b1 "p1"); reflexivity.
  - apply (put_keeps_old_association Scenario.cache_with_b1 Scenario.b1
             Scenario.b1 "p2"); reflexivity.
Defined.

(** Both runs, evaluated.  Filed again under [p1], [b1] is listed twice;
    moved to [p2], [put] raises [KeyError], [b1] is gone from the cache
    and the bucket of [p1] still lists it. *)
Example put_twice_and_put_moved :
  let again := VnatCache.put Scenario.b1 "p1" Scenario.cache_with_b1 in
  let moved := VnatCache.put Scenario.b1 "p2" Scenario.cache_with_b1 in
  snd again = inr tt /\
  VnatCache.port_lookup (fst again) !! "p1" = Some ["b1"; "b1"] /\
  snd moved = inl (KeyError "p2") /\
  VnatCache.cache (fst moved) !! "b1" = None /\
  VnatCache.port_lookup (fst moved) !! "p1" = Some ["b1"] /\
  VnatCache.port_lookup (fst moved) !! "p2" = None /\
  ~ VnatCache.ids_have_entries (fst moved).
Proof.
  repeat split; try (vm_compute; reflexivity).
  intros H.
  destruct (H "p1" ["b1"] "b1") as [x Hx].
  - vm_compute. reflexivity.
  - by left.
  - vm_compute in Hx. discriminate.
Qed.

(** ** nat_db.py and nat_rpc_base.py *)

(** C3.  [get_vserver] compares ports as strings.  With the starting port
    9999 and no vserver at the address, the first request creates a
    vserver at port 10000; the second finds that "10000" >= "9999" is
    false for strings, keeps 9999 and creates a second vserver at port
    10000 again.  And with one vserver at port 9 and the starting port 10,
    "9" >= "10" holds for strings, so the new port is 10, not
    max(9, 10) + 1. *)
Theorem get_vserver_repeats_port :
  let first := NatDb.get_vserver Scenario.uuid "198.51.100.1" "9999"
                 Scenario.empty_db in
  let second := NatDb.get_vserver Scenario.uuid "198.51.100.1" "9999"
                  (fst first) in
  let third := NatDb.get_vserver Scenario.uuid "198.51.100.1" "10"
                 (NatDb.mkDb [Vserver.mk "a" "198.51.100.1" "9" true]
                    [] [] 0 []) in
  snd first = inr (Vserver.mk "uuid-0" "198.51.100.1" "10000" true) /\
  snd second = inr (Vserver.mk "uuid-1" "198.51.100.1" "10000" true) /\
  NatDb.vservers (fst second)
  = [Vserver.mk "uuid-0" "198.51.100.1" "10000" true;
     Vserver.mk "uuid-1" "198.51.100.1" "10000" true] /\
  snd third = inr (Vserver.mk "uuid-0" "198.51.100.1" "10" true).
Proof. vm_compute. repeat split. Qed.

(** With the default starting port 10000 the two requests do get
    increasing ports: five-digit numerals compare alike as strings and as
    numbers. *)
Example get_vserver_default_start :
  let first := NatDb.get_vserver Scenario.uuid "198.51.100.1" "10000"
                 Scenario.empty_db in
  let second := NatDb.get_vserver Scenario.uuid "198.51.100.1" "10000"
                  (fst first) in
  snd first = inr (Vserver.mk "uuid-0" "198.51.100.1" "10001" true) /\
  snd second = inr (Vserver.mk "uuid-1" "198.51.100.1" "10002" true).
Proof. vm_compute. split; reflexivity. Qed.

(** A loop whose turns all succeed and keep some view [f] of the state. *)
Lemma for_each_keeps {S A B} (f : S -> B) (body : A -> M S unit) l :
  (forall x s, exists s', body x s = (s', inr tt) /\ f s' = f s) ->
  forall s, exists s', for_each l body s = (s', inr tt) /\ f s' = f s.
Proof.
  intros Hbody. induction l as [|x l IH]; intros s; simpl.
  - by exists s.
  - unfold bind. destruct (Hbody x s) as (s1 & -> & H1).
    destruct (IH s1) as (s2 & -> & H2). exists s2. split; [done|congruence].
Qed.

Section DbFacts.
Import NatDb.
Variable generate_uuid : nat -> string.
Variable _get_tenant_id_for_create : VnatRequest.t -> PyExc + option string.

(** What the scan returns: a vserver of the list that is down, or
    nothing when all are up. *)
Lemma scan_vservers_reclaims vss : forall ext_port vs p,
  scan_vservers vss ext_port = (Some vs, p) ->
  vs ∈ vss /\ Vserver.admin_state_up vs = false.
Proof.
  induction vss as [|x vss IH]; intros ext_port vs p; simpl; [done|].
  destruct (Vserver.admin_state_up x) eqn:Hx; simpl.
  - destruct (str_ge _ _); intros H; apply IH in H as [? ?];
      (split; [by right | done]).
  - intros [= <- <-]. split; [by left | done].
Qed.

Lemma scan_vservers_none vss : forall ext_port p,
  scan_vservers vss ext_port = (None, p) ->
  forall vs, vs ∈ vss -> Vserver.admin_state_up vs = true.
Proof.
  induction vss as [|x vss IH]; intros ext_port p; simpl.
  - intros _ vs Hvs. by apply elem_of_nil in Hvs.
  - destruct (Vserver.admin_state_up x) eqn:Hx; simpl; [|done].
    destruct (str_ge _ _); intros H vs [->|Hvs]%elem_of_cons;
      try done; eapply IH; eauto.
Qed.

(** The loop of [delete_vnat] over the hosting agents touches the
    bindings and the notifications only. *)
Lemma delete_vnat_loop (vnat : Vnat.t) id agents db :
  exists db',
    for_each agents (fun agent =>
      remove_vnat_from_nat_agent (nat_agent_id agent) id ;;;
      if truthy (Vnat.vserver_id vnat)
      then notify (vnat_deleted vnat (nat_agent_host agent))
      else ret tt) db = (db', inr tt) /\
    (vservers db', vnats db') = (vservers db, vnats db).
Proof.
  apply (for_each_keeps (fun db => (vservers db, vnats db))).
  intros a s. unfold bind, remove_vnat_from_nat_agent, modify. simpl.
  destruct (truthy (Vnat.vserver_id vnat)); eexists; split; reflexivity.
Qed.

Lemma update_vserver_ids id b db :
  map Vserver.id (vservers (fst (update_vserver id b db)))
  = map Vserver.id (vservers db).
Proof.
  unfold update_vserver, _get_vserver, bind, gets, modify, raise, ret.
  simpl.
  destruct (filter _ (vservers db)) as [|vs [|? ?]] eqn:E; simpl; try done.
  assert (Hvs : Vserver.id vs = id).
  { assert (Hin : vs ∈ filter
              (fun vs => String.eqb (Vserver.id vs) id = true) (vservers db))
      by (rewrite E; by left).
    apply list_elem_of_filter in Hin as [Hin _].
    by apply String.eqb_eq. }
  rewrite map_map. apply map_ext. intros x.
  destruct (String.eqb_spec (Vserver.id x) id); simpl; congruence.
Qed.

Lemma update_vserver_down id db :
  has_vserver id db ->
  exists db' r,
    update_vserver id false db = (db', inr r) /\
    vnats db' = vnats db /\ is_down id db' /\ ~ is_up id db'.
Proof.
  intros [vs Hvs].
  unfold update_vserver, _get_vserver, bind, gets, modify, raise, ret.
  simpl. rewrite Hvs. simpl. eexists _, _. split; [reflexivity|]. simpl.
  assert (Hin : vs ∈ vservers db /\ Vserver.id vs = id).
  { assert (Hin : vs ∈ filter
              (fun vs => String.eqb (Vserver.id vs) id = true) (vservers db))
      by (rewrite Hvs; by left).
    apply list_elem_of_filter in Hin as [Hid Hin].
    split; [done | by apply String.eqb_eq]. }
  destruct Hin as [Hin Hid].
  split; [reflexivity|]. split.
  - exists (Vserver.set_admin_state_up false vs). split; [|done].
    apply list_elem_of_fmap. exists vs. split; [|done].
    rewrite Hid, String.eqb_refl. reflexivity.
  - intros (x & Hx & Hxid & Hup).
    apply list_elem_of_fmap in Hx as (y & -> & Hy).
    destruct (String.eqb_spec (Vserver.id y) id); simpl in *; congruence.
Qed.

Lemma update_vserver_up id db :
  has_vserver id db ->
  exists db' r,
    update_vserver id true db = (db', inr r) /\
    map Vserver.id (vservers db') = map Vserver.id (vservers db) /\
    is_up id db' /\ ~ is_down id db'.
Proof.
  intros [vs Hvs].
  pose proof (update_vserver_ids id true db) as Hids.
  revert Hids.
  unfold update_vserver, _get_vserver, bind, gets, modify, raise, ret.
  simpl. rewrite Hvs. simpl. intros Hids.
  eexists _, _. split; [reflexivity|]. simpl.
  assert (Hin : vs ∈ vservers db /\ Vserver.id vs = id).
  { assert (Hin : vs ∈ filter
              (fun vs => String.eqb (Vserver.id vs) id = true) (vservers db))
      by (rewrite Hvs; by left).
    apply list_elem_of_filter in Hin as [Hid Hin].
    split; [done | by apply String.eqb_eq]. }
  destruct Hin as [Hin Hid].
  split; [exact Hids|]. split.
  - exists (Vserver.set_admin_state_up true vs). split; [|done].
    apply list_elem_of_fmap. exists vs. split; [|done].
    rewrite Hid, String.eqb_refl. reflexivity.
  - intros (x & Hx & Hxid & Hup).
    apply list_elem_of_fmap in Hx as (y & -> & Hy).
    destruct (String.eqb_spec (Vserver.id y) id); simpl in *; congruence.
Qed.

(** The part of C3 that holds: when the scan meets a vserver that is down
    at the address, [get_vserver] returns it under its recorded port,
    marks it up and creates no vserver. *)
Lemma get_vserver_reclaims ext_ip ext_port db vs p :
  scan_vservers
    (filter (fun vs => existsb (String.eqb (Vserver.external_ip_address vs))
                         [ext_ip] = true) (vservers db)) ext_port
  = (Some vs, p) ->
  has_vserver (Vserver.id vs) db ->
  exists db',
    get_vserver generate_uuid ext_ip ext_port db = (db', inr vs) /\
    Vserver.external_ip_address vs = ext_ip /\
    Vserver.admin_state_up vs = false /\
    map Vserver.id (vservers db') = map Vserver.id (vservers db) /\
    is_up (Vserver.id vs) db'.
Proof.
  intros Hscan Hhas.
  destruct (scan_vservers_reclaims _ _ _ _ Hscan) as [Hin Hdown].
  apply list_elem_of_filter in Hin as [Hip _].
  simpl in Hip. rewrite orb_false_r in Hip. apply String.eqb_eq in Hip.
  destruct (update_vserver_up _ _ Hhas) as (db' & r & Hup & Hids & Hisup & _).
  exists db'. split; [|done].
  unfold get_vserver. unfold bind at 1.
  unfold get_vservers at 1, gets at 1, _make_vserver_dict.
  rewrite map_id, Hscan. unfold bind. by rewrite Hup.
Qed.

(** [delete_vnat] up to the end of its loop over the agents. *)
Lemma delete_vnat_run db id v :
  _get_vnat id db = (db, inr v) ->
  exists db1,
    vservers db1 = vservers db /\ vnats db1 = vnats db /\
    delete_vnat id db
    = ((if truthy (Vnat.vserver_id v)
        then update_vserver (default "" (Vnat.vserver_id v)) false ;;; ret tt
        else ret tt) ;;;
       modify (set_vnats
         (filter (fun u => negb (String.eqb (Vnat.id u) id) = true)))) db1.
Proof.
  intros Hget.
  unfold delete_vnat. unfold bind at 1. rewrite Hget.
  unfold bind at 1. unfold list_nat_agents_hosting_vnat at 1, gets at 1.
  unfold bind at 1. unfold _make_vnat_dict.
  destruct (delete_vnat_loop v id
              (filter (fun b => String.eqb (binding_vnat_id b) id = true)
                 (bindings db)) db) as (db1 & -> & [= Hvs1 Hvn1]).
  by exists db1.
Qed.

(** C8, as amended.  Deleting a vnat never deletes a vserver record.
    When the vnat has no vserver the vserver table is left as it is.
    When it has one, the vserver is set down, without any look at the
    vnats that still reference it: they are exactly the other rows,
    which stay in the table. *)
Theorem delete_vnat_clears_vserver (db : Db) (id : string) (v : Vnat.t) :
  _get_vnat id db = (db, inr v) ->
  let db' := fst (delete_vnat id db) in
  map Vserver.id (vservers db') = map Vserver.id (vservers db) /\
  (truthy (Vnat.vserver_id v) = false ->
     snd (delete_vnat id db) = inr tt /\ vservers db' = vservers db) /\
  (forall s,
     Vnat.vserver_id v = Some s -> s <> "" -> has_vserver s db ->
     snd (delete_vnat id db) = inr tt /\
     is_down s db' /\ ~ is_up s db' /\
     vnats db'
     = filter (fun u => negb (String.eqb (Vnat.id u) id) = true) (vnats db)).
Proof.
  intros Hget. simpl.
  destruct (delete_vnat_run db id v Hget) as (db1 & Hvs1 & Hvn1 & ->).
  unfold bind at 1 3 5 7 9.
  destruct (truthy (Vnat.vserver_id v)) eqn:Ht.
  - pose proof (update_vserver_ids (default "" (Vnat.vserver_id v))
                  false db1) as Hids.
    split; [|split; [done|]].
    + unfold bind.
      destruct (update_vserver _ false db1) as [db2 [e|r]]; simpl in *;
        by rewrite Hids, Hvs1.
    + intros s Hs Hne Hhas. rewrite Hs. simpl.
      assert (Hhas1 : has_vserver s db1).
      { unfold has_vserver. by rewrite Hvs1. }
      destruct (update_vserver_down s db1 Hhas1)
        as (db2 & r & Hup & Hvn2 & Hdown & Hnotup).
      unfold bind. rewrite Hup. simpl.
      repeat split; try done. by rewrite Hvn2, Hvn1.
  - simpl. split; [by rewrite Hvs1|]. split; [done|].
    intros s Hs Hne. rewrite Hs in Ht. simpl in Ht.
    apply negb_false_iff, String.eqb_eq in Ht. done.
Qed.
End DbFacts.

(** Deleting [v1] while [v2] references the same vserver. *)
Lemma delete_vnat_clears_vserver_scenario :
  let db := Scenario.shared_vserver_db in
  let db' := fst (NatDb.delete_vnat "v1" db) in
  NatDb._get_vnat "v1" db = (db, inr Scenario.v1) /\
  map Vserver.id (NatDb.vservers db') = map Vserver.id (NatDb.vservers db) /\
  (truthy (Vnat.vserver_id Scenario.v1) = false ->
     snd (NatDb.delete_vnat "v1" db) = inr tt /\
     NatDb.vservers db' = NatDb.vservers db) /\
  (forall s,
     Vnat.vserver_id Scenario.v1 = Some s -> s <> "" ->
     NatDb.has_vserver s db ->
     snd (NatDb.delete_vnat "v1" db) = inr tt /\
     NatDb.is_down s db' /\ ~ NatDb.is_up s db' /\
     NatDb.vnats db'
     = filter (fun u => negb (String.eqb (Vnat.id u) "v1") = true)
         (NatDb.vnats db)).
Proof.
  split; [reflexivity|].
  apply (delete_vnat_clears_vserver Scenario.shared_vserver_db "v1"
           Scenario.v1).
  reflexivity.
Defined.

(** C8, as stated, fails: [s1] is up and referenced by [v1] and [v2];
    deleting [v1] sets [s1] down although [v2], which is not deleted,
    still references it. *)
Lemma vserver_cleared_while_still_referenced :
  let db := Scenario.shared_vserver_db in
  let db' := fst (NatDb.delete_vnat "v1" db) in
  ~ (NatDb.is_up "s1" db -> NatDb.is_down "s1" db' ->
     NatDb.references "s1" db' = []).
Proof.
  intros db db' H.
  assert (Hrefs : NatDb.references "s1" db' = [Scenario.v2])
    by (vm_compute; reflexivity).
  rewrite H in Hrefs; [discriminate| |].
  - exists Scenario.s1. split; [by left | by split].
  - exists (Vserver.set_admin_state_up false Scenario.s1).
    split; [by left | by split].
Qed.


Section CreateFacts.
Import NatDb.
Variable generate_uuid : nat -> string.
Variable _get_tenant_id_for_create : VnatRequest.t -> PyExc + option string.




End CreateFacts.


(** The two runs, evaluated: the second request for 10.0.0.5:80 returns
    [v1] and changes neither table nor notifications; the same request on
    an empty table adds a row and asks for its notification. *)
Example create_vnat_twice :
  let again := NatDb.create_vnat Scenario.uuid Scenario.admin_tenant
                 (Scenario.request_v1 None) Scenario.shared_vserver_db in
  let fresh := NatDb.create_vnat Scenario.uuid Scenario.admin_tenant
                 (Scenario.request_v1 None) Scenario.empty_db in
  snd again = inr Scenario.v1 /\
  NatDb.vnats (fst again) = [Scenario.v1; Scenario.v2] /\
  NatDb.notifications (fst again) = [] /\
  (exists v, snd fresh = inr v /\ NatDb.vnats (fst fresh) = [v] /\
             NatDb.notifications (fst fresh) = [NatDb.vnat_created v]).
Proof.
  repeat split; try (vm_compute; reflexivity).
  eexists. vm_compute. repeat split.
Qed.




Section RpcCreateFacts.
Import NatDb.
Variable generate_uuid : nat -> string.
Variable _get_tenant_id_for_create : VnatRequest.t -> PyExc + option string.

Lemma update_vnat_keeps id port_id vnat_type device_id tenant_id up db :
  let db' := fst (update_vnat id port_id vnat_type device_id tenant_id up db) in
  map Vnat.id (vnats db') = map Vnat.id (vnats db) /\
  vservers db' = vservers db /\ notifications db' = notifications db.
Proof.
  unfold update_vnat, _get_vnat, bind, gets, modify, raise, ret. simpl.
  destruct (filter _ (vnats db)) as [|v [|? ?]] eqn:E; simpl; try done.
  split; [|done].
  rewrite map_map. apply map_ext. intros x.
  destruct (String.eqb_spec (Vnat.id x) id) as [->|]; simpl; [|done].
  assert (Hin : v ∈ filter
            (fun v => String.eqb (Vnat.id v) id = true) (vnats db))
    by (rewrite E; by left).
  apply list_elem_of_filter in Hin as [Hin _].
  by apply String.eqb_eq.
Qed.

(** The RPC [create_vnat] on a fixed endpoint that already has a vnat: no
    row is added and no notification asked for; the existing row is
    updated and nothing is returned. *)
Lemma rpc_create_vnat_existing kw db v0 rest :
  truthy (CreateVnatKwargs.fixed_ip kw) = true ->
  filter (fun v => vnat_passes (rpc_create_filters kw) v = true) (vnats db)
  = v0 :: rest ->
  let db' := fst (rpc_create_vnat generate_uuid _get_tenant_id_for_create
                    kw db) in
  map Vnat.id (vnats db') = map Vnat.id (vnats db) /\
  vservers db' = vservers db /\ notifications db' = notifications db.
Proof.
  intros Hip Hfound.
  assert (Hrun : rpc_create_vnat generate_uuid _get_tenant_id_for_create kw db
                 = (update_vnat (Vnat.id v0) (CreateVnatKwargs.port_id kw)
                      (CreateVnatKwargs.vnat_type kw)
                      (CreateVnatKwargs.device_id kw)
                      (CreateVnatKwargs.tenant_id kw) true ;;; ret tt) db).
  { unfold rpc_create_vnat. rewrite Hip.
    unfold bind at 1. unfold get_vnats at 1, gets at 1, _make_vnat_dict.
    by rewrite map_id, Hfound. }
  rewrite Hrun.
  pose proof (update_vnat_keeps (Vnat.id v0) (CreateVnatKwargs.port_id kw)
                (CreateVnatKwargs.vnat_type kw) (CreateVnatKwargs.device_id kw)
                (CreateVnatKwargs.tenant_id kw) true db) as Hkeep.
  unfold bind.
  destruct (update_vnat _ _ _ _ _ _ db) as [db1 [e|v]]; exact Hkeep.
Qed.
End RpcCreateFacts.

(** A port notification for 10.0.0.5:80 when [v1] already has that
    endpoint: the table keeps its two rows, [v1] now carries the port. *)
Example rpc_create_vnat_scenario :
  let kw := NatDb.CreateVnatKwargs.mk (Some "port-1") (Some "10.0.0.5")
              (Some "80") VNAT_TYPE_VM (Some "vm-1") (Some "tenant-1") false in
  let r := NatDb.rpc_create_vnat Scenario.uuid Scenario.admin_tenant kw
             Scenario.shared_vserver_db in
  snd r = inr tt /\
  (Vnat.id <$> NatDb.vnats (fst r)) = ["v1"; "v2"] /\
  (Vnat.port_id <$> NatDb.vnats (fst r)) = [Some "port-1"; None] /\
  NatDb.notifications (fst r) = [].
Proof. vm_compute. repeat split. Qed.

Lemma bind_run_inr {S A B} (m : M S A) (k : A -> M S B) s s1 a :
  m s = (s1, inr a) -> bind m k s = k a s1.
Proof. unfold bind. by intros ->. Qed.

Lemma bind_run_inl {S A B} (m : M S A) (k : A -> M S B) s s1 e :
  m s = (s1, inl e) -> bind m k s = (s1, inl e).
Proof. unfold bind. by intros ->. Qed.

(** ** Relations kept by every step of a computation *)
Section Preserves.
Context {S : Type} (R : S -> S -> Prop).
Hypothesis R_refl : forall s, R s s.
Hypothesis R_trans : forall s1 s2 s3, R s1 s2 -> R s2 s3 -> R s1 s3.

Lemma preserves_ret {A} (a : A) : preserves R (ret a).
Proof. intros s. apply R_refl. Qed.

Lemma preserves_raise {A} e : preserves R (@raise S A e).
Proof. intros s. apply R_refl. Qed.

Lemma preserves_lift {A} (r : PyExc + A) : preserves R (lift r).
Proof. intros s. apply R_refl. Qed.

Lemma preserves_gets {A} (f : S -> A) : preserves R (gets f).
Proof. intros s. apply R_refl. Qed.

Lemma preserves_modify (f : S -> S) :
  (forall s, R s (f s)) -> preserves R (modify f).
Proof. intros H s. apply H. Qed.

Lemma preserves_bind {A B} (m : M S A) (k : A -> M S B) :
  preserves R m -> (forall a, preserves R (k a)) -> preserves R (bind m k).
Proof.
  intros Hm Hk s. unfold bind. specialize (Hm s).
  destruct (m s) as [s1 [e|a]]; simpl in *; [done|].
  eapply R_trans; [exact Hm | apply Hk].
Qed.

Lemma preserves_try_except {A} (m : M S A) (h : PyExc -> M S A) :
  preserves R m -> (forall e, preserves R (h e)) ->
  preserves R (try_except m h).
Proof.
  intros Hm Hh s. unfold try_except. specialize (Hm s).
  destruct (m s) as [s1 [e|a]]; simpl in *; [|done].
  eapply R_trans; [exact Hm | apply Hh].
Qed.

Lemma preserves_for_each {A} (l : list A) (body : A -> M S unit) :
  (forall x, preserves R (body x)) -> preserves R (for_each l body).
Proof.
  intros Hbody. induction l as [|x l IH]; simpl.
  - apply preserves_ret.
  - apply preserves_bind; [apply Hbody | intros _; exact IH].
Qed.

Lemma preserves_for_fold {A B} (l : list A) (body : B -> A -> M S B) :
  (forall b x, preserves R (body b x)) ->
  forall b, preserves R (for_fold l b body).
Proof.
  intros Hbody. induction l as [|x l IH]; intros b; simpl.
  - apply preserves_ret.
  - apply preserves_bind; [apply Hbody | intros b'; apply IH].
Qed.

End Preserves.

(** ** nat_agent.py: the reconciliation tick *)
Section AgentFacts.
Import NatAgent.
Variable World : Type.
Variable collaborator : Call -> World -> World * (PyExc + Reply).
Variable prefixlen : string -> PyExc + Z.


Lemma quiet_refl (a : Agent World) : quiet World a a.
Proof. by repeat split. Qed.

Lemma quiet_trans (a1 a2 a3 : Agent World) :
  quiet World a1 a2 -> quiet World a2 a3 -> quiet World a1 a3.
Proof.
  intros (? & ? & ? & ? & ?) (? & ? & ? & ? & ?).
  repeat split; congruence.
Qed.

Lemma rules_untouched_refl (a : Agent World) : rules_untouched World a a.
Proof. split; [done|]. exists []. by rewrite app_nil_r. Qed.

Lemma rules_untouched_trans (a1 a2 a3 : Agent World) :
  rules_untouched World a1 a2 -> rules_untouched World a2 a3 ->
  rules_untouched World a1 a3.
Proof.
  intros (Hm1 & l1 & Hc1 & Hl1) (Hm2 & l2 & Hc2 & Hl2).
  split; [congruence|]. exists (l1 ++ l2). split.
  - by rewrite Hc2, Hc1, app_assoc.
  - by rewrite forallb_app, Hl1, Hl2.
Qed.

Lemma quiet_rules_untouched (a a' : Agent World) :
  quiet World a a' -> rules_untouched World a a'.
Proof.
  intros (Hc & _ & Hm & _). split; [done|].
  exists []. by rewrite app_nil_r.
Qed.

(** A request that does not push rules keeps them untouched. *)
Lemma call_keeps_rules (c : Call) :
  is_rule_apply c = false ->
  preserves (rules_untouched World) (call World collaborator c).
Proof.
  intros Hc a. unfold call.
  destruct (collaborator c (world a)) as [w r]. simpl.
  split; [done|]. exists [c]. split; [done|]. simpl. by rewrite Hc.
Qed.

(** The assignments of the tick are quiet. *)
Lemma set_vnat_info_quiet l (a : Agent World) :
  quiet World a (set_vnat_info World l a).
Proof. by repeat split. Qed.

Lemma append_compute_host_quiet h (a : Agent World) :
  quiet World a (append_compute_host World h a).
Proof. by repeat split. Qed.

Lemma append_log_quiet msg (a : Agent World) :
  quiet World a (append_log World msg a).
Proof. by repeat split. Qed.

Lemma set_needs_resync_quiet b (a : Agent World) :
  quiet World a (set_needs_resync World b a).
Proof. by repeat split. Qed.

Create HintDb keeps_rules.

(** Walks through a computation built from the monad's combinators and
    closes each leaf: a request that pushes no rules, or a quiet
    assignment. *)
Ltac keeps_rules :=
  repeat first
    [ solve [auto with keeps_rules nocore]
    | apply (preserves_bind _ rules_untouched_trans); [|intros ?]
    | apply (preserves_ret _ rules_untouched_refl)
    | apply (preserves_raise _ rules_untouched_refl)
    | apply (preserves_lift _ rules_untouched_refl)
    | apply (preserves_gets _ rules_untouched_refl)
    | apply (preserves_try_except _ rules_untouched_trans); [|intros ?]
    | apply (preserves_for_each _ rules_untouched_refl rules_untouched_trans);
      intros ?
    | apply (preserves_for_fold _ rules_untouched_refl rules_untouched_trans);
      intros ? ?
    | apply call_keeps_rules; reflexivity
    | apply preserves_modify; intros ?; apply quiet_rules_untouched;
      first [ apply set_vnat_info_quiet | apply append_compute_host_quiet
            | apply append_log_quiet | apply set_needs_resync_quiet ]
    | match goal with
      | |- preserves _ (match ?x with _ => _ end) => destruct x
      | |- preserves _ (bad_reply _) => unfold bad_reply
      end ].

Lemma pass_vnat_keeps_rules p vnat :
  preserves (rules_untouched World) (pass_vnat World collaborator p vnat).
Proof.
  unfold pass_vnat. destruct p as [all_vnats port_ids].
  unfold _process_created_vnat. keeps_rules.
Qed.

Hint Resolve pass_vnat_keeps_rules : keeps_rules.

Lemma sync_vnats_keeps_rules :
  preserves (rules_untouched World) (sync_vnats World collaborator).
Proof.
  unfold sync_vnats, delete_inactive, get_active_vnats, delete_vnat.
  keeps_rules.
Qed.

Lemma execute_arping_keeps_rules name count ip rh :
  preserves (rules_untouched World)
    (execute World collaborator
       ["arping"; "-A"; "-U"; "-I"; name; "-c"; count; ip] rh).
Proof. unfold execute. keeps_rules. Qed.
Hint Resolve execute_arping_keeps_rules : keeps_rules.

Lemma sync_gateways_keeps_rules port_ids :
  preserves (rules_untouched World)
    (sync_gateways World collaborator prefixlen port_ids).
Proof.
  unfold sync_gateways, ensure_interface, plumb_if_down, _set_subnet_info,
    read_ip_cidr, internal_network_added, internal_network_removed,
    get_internal_device_name, ip_lib_device_exists,
    _send_gratuitous_arp_packet, get_nat_interfaces, add_nat_interface,
    remove_nat_interface, get_subnets_for_ports.
  keeps_rules.
Qed.

Lemma sync_console_keeps_rules :
  preserves (rules_untouched World) (sync_console World collaborator).
Proof.
  unfold sync_console, create_vnat.
  keeps_rules.
Qed.

Lemma try_block_keeps_rules :
  preserves (rules_untouched World)
    (try_block World collaborator prefixlen).
Proof.
  unfold try_block.
  pose proof sync_vnats_keeps_rules.
  pose proof sync_gateways_keeps_rules.
  pose proof sync_console_keeps_rules.
  keeps_rules.
Qed.

(** The tick stages nothing and applies nothing, whether it completes
    or not. *)
Lemma sync_body_keeps_rules :
  preserves (rules_untouched World)
    (_sync_vnats_task_body World collaborator prefixlen).
Proof.
  unfold _sync_vnats_task_body, except_block.
  pose proof try_block_keeps_rules.
  keeps_rules.
Qed.

(** *** The pass over the full pull *)

Lemma pass_vnat_quiet p vnat :
  preserves (quiet World) (pass_vnat World collaborator p vnat).
Proof.
  unfold pass_vnat. destruct p as [all_vnats port_ids].
  unfold _process_created_vnat.
  repeat first
    [ apply (preserves_bind _ quiet_trans); [|intros ?]
    | apply (preserves_ret _ quiet_refl)
    | apply (preserves_raise _ quiet_refl)
    | apply preserves_modify; intros ?; apply append_compute_host_quiet
    | match goal with
      | |- preserves _ (match ?x with _ => _ end) => destruct x
      end ].
Qed.

(** What one turn of the pass returns: it raises [TypeError] on a vnat
    without vserver, and otherwise drops the vnat's id from
    [all_vnats]. *)
Lemma pass_vnat_run all_vnats port_ids vnat a :
  exists a',
    quiet World a a' /\
    ((truthy (Vnat.vserver_id vnat) = false /\
      exists msg,
        pass_vnat World collaborator (all_vnats, port_ids) vnat a
        = (a', inl (TypeError msg))) \/
     (truthy (Vnat.vserver_id vnat) = true /\
      exists port_ids',
        pass_vnat World collaborator (all_vnats, port_ids) vnat a
        = (a', inr (delete (Vnat.id vnat) all_vnats, port_ids')))).
Proof.
  pose proof (pass_vnat_quiet (all_vnats, port_ids) vnat a) as Hq.
  revert Hq. unfold pass_vnat, _process_created_vnat, bind, modify, ret,
    raise.
  destruct (VnatType_eqb _ _); simpl;
    (destruct (all_vnats !! Vnat.id vnat) eqn:Hl; simpl;
     destruct (truthy (Vnat.vserver_id vnat)); simpl; intros Hq;
     eexists; (split; [exact Hq|]);
     [ right | left | right | left ]; (split; [done|]); eexists;
     rewrite ?(delete_id _ _ Hl); reflexivity).
Qed.

Lemma for_fold_pass_raises full :
  (exists v, v ∈ full /\ truthy (Vnat.vserver_id v) = false) ->
  forall all_vnats port_ids a,
  exists a' msg,
    for_fold full (all_vnats, port_ids) (pass_vnat World collaborator) a
    = (a', inl (TypeError msg)) /\
    quiet World a a'.
Proof.
  induction full as [|u full IH]; intros (v & Hv & Hfalsy).
  { by apply elem_of_nil in Hv. }
  intros all_vnats port_ids a. simpl.
  destruct (pass_vnat_run all_vnats port_ids u a)
    as (a1 & Hq & [[_ [msg Hrun]] | [Htruthy [port_ids' Hrun]]]).
  - exists a1, msg. split; [|done]. by apply bind_run_inl.
  - rewrite (bind_run_inr _ _ _ _ _ Hrun).
    apply elem_of_cons in Hv as [-> | Hv]; [congruence|].
    destruct (IH (ex_intro _ v (conj Hv Hfalsy))
                (delete (Vnat.id u) all_vnats) port_ids' a1)
      as (a2 & msg & Hrest & Hq2).
    exists a2, msg. split; [done|]. by eapply quiet_trans.
Qed.


(** A pull that is answered. *)
Lemma get_active_vnats_run ext (a : Agent World) w l :
  collaborator (msg_get_active_vnats (host (conf a)) ext) (world a)
  = (w, inr (reply_vnats l)) ->
  get_active_vnats World collaborator ext a
  = (mkAgent (needs_resync a) (conf a) (vnat_info a) (compute_hosts a)
       (ext_ip a) (nat_manager a) (default_gateway a) (log a)
       (calls a ++ [msg_get_active_vnats (host (conf a)) ext]) w,
     inr l).
Proof.
  intros H. unfold get_active_vnats, bind, gets, call. by rewrite H.
Qed.

(** The tick up to the pass over the full pull. *)
Lemma sync_vnats_run (a : Agent World) full hosted w1 w2 :
  collaborator (msg_get_active_vnats (host (conf a)) None) (world a)
  = (w1, inr (reply_vnats full)) ->
  collaborator (msg_get_active_vnats (host (conf a)) (Some (ext_ip a))) w1
  = (w2, inr (reply_vnats hosted)) ->
  exists a0,
    calls a0 = calls a ++ [msg_get_active_vnats (host (conf a)) None;
                           msg_get_active_vnats (host (conf a))
                             (Some (ext_ip a))] /\
    world a0 = w2 /\ nat_manager a0 = nat_manager a /\
    sync_vnats World collaborator a
    = (p <- for_fold full (index_by_id hosted, [])
              (pass_vnat World collaborator) ;;
       let '(all_vnats, port_ids) := p in
       delete_inactive World collaborator all_vnats ;;;
       ret port_ids) a0.
Proof.
  intros H1 H2. eexists. split; [|split; [|split]]; cycle 3.
  - unfold sync_vnats.
    rewrite (bind_run_inr _ _ _ _ _ (get_active_vnats_run None a w1 full H1)).
    unfold bind at 1, modify at 1. unfold bind at 1, gets at 1.
    simpl ext_ip.
    erewrite bind_run_inr; [reflexivity|].
    by apply get_active_vnats_run.
  - simpl. by rewrite <- app_assoc.
  - reflexivity.
  - reflexivity.
Qed.

(** C1.  In the tick, a vnat without vserver is handed to
    [_process_created_vnat] without the [gateway] argument, so the call
    raises [TypeError] before its body runs.  Whenever the full pull
    holds such a vnat, the tick therefore does not complete: after the
    two pulls no further request is made (no vserver is asked for, no
    vnat updated), the backend's batch is as before, and the tick ends
    with [needs_resync] set. *)
Theorem tick_raises_on_new_vnat (a : Agent World) full hosted w1 w2 :
  collaborator (msg_get_active_vnats (host (conf a)) None) (world a)
  = (w1, inr (reply_vnats full)) ->
  collaborator (msg_get_active_vnats (host (conf a)) (Some (ext_ip a))) w1
  = (w2, inr (reply_vnats hosted)) ->
  (exists v, v ∈ full /\ truthy (Vnat.vserver_id v) = false) ->
  let a' := fst (_sync_vnats_task_body World collaborator prefixlen a) in
  ~ completes World collaborator prefixlen a /\
  needs_resync a' = true /\
  calls a' = calls a ++ [msg_get_active_vnats (host (conf a)) None;
                         msg_get_active_vnats (host (conf a))
                           (Some (ext_ip a))] /\
  nat_manager a' = nat_manager a /\
  world a' = w2.
Proof.
  intros H1 H2 Hnew.
  destruct (sync_vnats_run a full hosted w1 w2 H1 H2)
    as (a0 & Hcalls & Hworld & Hmgr & Hsync).
  destruct (for_fold_pass_raises full Hnew (index_by_id hosted) [] a0)
    as (a1 & msg & Hfold & Hc1 & Hw1 & Hm1 & _).
  assert (Htry : try_block World collaborator prefixlen a
                 = (a1, inl (TypeError msg))).
  { unfold try_block. apply bind_run_inl. rewrite Hsync.
    by apply bind_run_inl. }
  unfold _sync_vnats_task_body, try_except, completes. rewrite Htry. simpl.
  split; [intros [a' H]; discriminate|].
  split; [reflexivity|].
  split; [congruence|]. split; congruence.
Qed.

(** *** The deletion of the inactive vnats *)




(** *** The handler of the deletion notification *)



End AgentFacts.

(** The first scenario of the spec: the pull returns [b1], which has no
    vserver; the external address is 198.51.100.1, ports start at 10000
    and no vserver exists. *)
Lemma tick_raises_on_new_vnat_scenario :
  let a := Scenario.agent [] Scenario.world_b1 in
  let a' := fst (NatAgent._sync_vnats_task_body Scenario.World Scenario.plugin
                   Scenario.no_prefixlen a) in
  ~ NatAgent.completes Scenario.World Scenario.plugin Scenario.no_prefixlen a /\
  NatAgent.needs_resync a' = true /\
  NatAgent.calls a'
  = NatAgent.calls a
    ++ [NatAgent.msg_get_active_vnats "node-1" None;
        NatAgent.msg_get_active_vnats "node-1" (Some "198.51.100.1")] /\
  NatAgent.nat_manager a' = NatAgent.nat_manager a /\
  NatAgent.world a' = Scenario.world_b1.
Proof.
  apply (tick_raises_on_new_vnat Scenario.World Scenario.plugin
           Scenario.no_prefixlen (Scenario.agent [] Scenario.world_b1)
           [Scenario.b1] [] Scenario.world_b1 Scenario.world_b1).
  - reflexivity.
  - reflexivity.
  - exists Scenario.b1. split; [by left | reflexivity].
Defined.

(** The same binding announced by the creation notification instead: the
    handler supplies the gateway, and then everything the scenario
    expects happens.  A vserver is created at port 10001, the binding is
    updated to ACTIVE with that endpoint, and the DNAT+SNAT pair is staged
    and applied. *)
Example vnat_create_end_scenario :
  let a := Scenario.agent [] Scenario.world_b1 in
  let r := NatAgent.vnat_create_end Scenario.World Scenario.plugin
             Scenario.no_prefixlen Scenario.b1 a in
  snd r = inr tt /\
  NatDb.vservers (Scenario.db (NatAgent.world (fst r)))
  = [Vserver.mk "uuid-0" "198.51.100.1" "10001" true] /\
  (Vnat.status <$> Scenario.full_pull (NatAgent.world (fst r)))
  = [Some "ACTIVE"] /\
  (Vnat.external_port <$> Scenario.full_pull (NatAgent.world (fst r)))
  = [Some "10001"] /\
  Scenario.applied (NatAgent.world (fst r))
  = NatManager._nat_rules "198.51.100.1" "10001" "10.0.0.5" "80" "10.0.0.1".
Proof. vm_compute. repeat split. Qed.


(** The deletion notification for [b2] in that scenario, after the tick:
    with the packet-filter backend the handler takes the pair of [b2] out
    and the kernel's table is empty; with the virtual-server backend it
    raises and the agent is as it was. *)
Example vnat_delete_end_scenario :
  let a := Scenario.agent Scenario.rules_b2 Scenario.world_b2 in
  let r := NatAgent.vnat_delete_end Scenario.World Scenario.plugin
             Scenario.b2 a in
  let lvs := NatAgent.set_nat_manager Scenario.World
               (NatAgent.Lvs (NatManager.mkLvs "sudo" [])) a in
  snd r = inr tt /\
  NatAgent.nat_manager (fst r)
  = NatAgent.Iptables (NatManager.mkIpt "sudo" []) /\
  Scenario.applied (NatAgent.world (fst r)) = [] /\
  NatAgent.vnat_delete_end Scenario.World Scenario.plugin Scenario.b2 lvs
  = (lvs,
     inl (TypeError "delete_nat_rule() takes exactly 5 arguments (6 given)")).
Proof. vm_compute. repeat split. Qed.






(** * Further properties *)

(** ** VnatCache *)
Section CacheMore.
Import VnatCache.

(** What [put] ends in when it returns: the state just before its
    insertion, [c0], is where the insertion starts from. *)
Lemma put_returns (c c' : VnatCache) (v : Vnat.t) (port_id : string) :
  put v port_id c = (c', inr tt) ->
  exists c0,
    cache c' = <[Vnat.id v := v]> (cache c0) /\
    port_lookup c'
    = <[port_id := default [] (port_lookup c0 !! port_id) ++ [Vnat.id v]]>
        (port_lookup c0).
Proof.
  unfold put. intros H.
  apply bind_inr in H as (c1 & old & Hold & H).
  apply bind_inr in H as (c0 & [] & _ & H).
  apply bind_inr in H as (c2 & [] & Hins & H).
  apply bind_inr in H as (c3 & bucket & Hb & H).
  unfold modify in Hins. injection Hins as <-.
  unfold gets in Hb. injection Hb as <- <-. simpl in H.
  exists c0.
  destruct (port_lookup c0 !! port_id) as [vnats|]; unfold modify in H;
    injection H as <-; simpl; done.
Qed.

(** X1.  Whenever [put(vnat, port_id)] returns, [get_vnat_by_id] finds
    the value just put, [get_vnat_ids] lists its id, and the id is the
    last member of the bucket of [port_id], so the last vnat
    [get_vnats_by_port_id] returns is the one just put. *)
Theorem put_then_get (c c' : VnatCache) (v : Vnat.t) (port_id : string) :
  put v port_id c = (c', inr tt) ->
  get_vnat_by_id c' (Vnat.id v) = Some v /\
  Vnat.id v ∈ get_vnat_ids c' /\
  (exists ids, port_lookup c' !! port_id = Some (ids ++ [Vnat.id v])) /\
  last (get_vnats_by_port_id c' port_id) = Some (Some v).
Proof.
  intros H. apply put_returns in H as (c0 & Hc & Hp).
  assert (Hget : cache c' !! Vnat.id v = Some v).
  { rewrite Hc. apply lookup_insert_eq. }
  split; [exact Hget|]. split.
  { unfold get_vnat_ids. apply list_elem_of_fmap.
    exists (Vnat.id v, v). split; [done|]. by apply elem_of_map_to_list. }
  assert (Hb : port_lookup c' !! port_id
               = Some (default [] (port_lookup c0 !! port_id) ++ [Vnat.id v])).
  { rewrite Hp. apply lookup_insert_eq. }
  split; [by eexists|].
  unfold get_vnats_by_port_id. rewrite Hb.
  destruct (default [] (port_lookup c0 !! port_id) ++ [Vnat.id v]) eqn:E.
  { by destruct (default [] (port_lookup c0 !! port_id)). }
  rewrite <- E, map_app. simpl. rewrite last_snoc. by rewrite Hget.
Qed.

(** [put] of an id the cache does not hold: [remove] is not called. *)
Lemma put_fresh_run (c : VnatCache) (v : Vnat.t) (port_id : string) :
  cache c !! Vnat.id v = None ->
  put v port_id c
  = (mkCache (<[Vnat.id v := v]> (cache c))
       (<[port_id := default [] (port_lookup c !! port_id) ++ [Vnat.id v]]>
          (port_lookup c)),
     inr tt).
Proof.
  intros Hfresh. unfold put, bind, gets, modify, ret. simpl.
  rewrite Hfresh. simpl. by destruct (port_lookup c !! port_id).
Qed.

(** X2.  [put] of a vnat whose id the cache does not hold always
    returns; it keeps both invariants of the cache (every id of a bucket
    has an entry, no bucket is empty), appends the id to the bucket of
    [port_id] and leaves every other entry and every other bucket as it
    was. *)
Theorem put_fresh_keeps_invariants (c : VnatCache) (v : Vnat.t)
    (port_id : string) :
  cache c !! Vnat.id v = None ->
  exists c',
    put v port_id c = (c', inr tt) /\
    (ids_have_entries c -> ids_have_entries c') /\
    (no_empty_bucket c -> no_empty_bucket c') /\
    (forall k, k <> Vnat.id v -> cache c' !! k = cache c !! k) /\
    (forall p, p <> port_id -> port_lookup c' !! p = port_lookup c !! p) /\
    port_lookup c' !! port_id
    = Some (default [] (port_lookup c !! port_id) ++ [Vnat.id v]).
Proof.
  intros Hfresh. eexists. split; [by apply put_fresh_run|]. simpl.
  split; [|split; [|split; [|split]]].
  - intros Hinv p vnats k Hp Hk. simpl in *.
    destruct (decide (k = Vnat.id v)) as [->|Hne].
    { rewrite lookup_insert_eq. by eexists. }
    rewrite lookup_insert_ne by done.
    destruct (decide (p = port_id)) as [->|Hp'].
    + rewrite lookup_insert_eq in Hp. injection Hp as <-.
      apply elem_of_app in Hk as [Hk|Hk].
      * destruct (port_lookup c !! port_id) as [old|] eqn:E; simpl in Hk.
        -- by apply (Hinv port_id old).
        -- by apply elem_of_nil in Hk.
      * apply list_elem_of_singleton in Hk. done.
    + rewrite lookup_insert_ne in Hp by done. by apply (Hinv p vnats).
  - intros Hinv p. simpl.
    destruct (decide (p = port_id)) as [->|Hp'].
    + rewrite lookup_insert_eq. intros [= E].
      by destruct (default [] (port_lookup c !! port_id)).
    + rewrite lookup_insert_ne by done. apply Hinv.
  - intros k Hk. by apply lookup_insert_ne.
  - intros p Hp. by apply lookup_insert_ne.
  - apply lookup_insert_eq.
Qed.

(** The cache only ever files a vnat under its own id: [put] and [remove]
    keep [keys_match], whether they return or raise. *)
Lemma remove_keeps_keys_match (vnat : option Vnat.t) (port_id : string)
    (c : VnatCache) :
  keys_match c -> keys_match (fst (remove vnat port_id c)).
Proof.
  assert (Hsame : forall c1,
            (forall k x, cache c1 !! k = Some x -> cache c !! k = Some x) ->
            forall c2,
              cache c2 = cache c1 ->
              keys_match c -> keys_match c2).
  { intros c1 H1 c2 H2 Hk k x Hx. apply Hk. apply H1. by rewrite <- H2. }
  intros Hk. unfold remove, bind, gets, modify, raise, lift, ret.
  destruct vnat as [v|]; simpl.
  - destruct (cache c !! Vnat.id v) eqn:Hv; simpl; [|done].
    destruct (port_lookup c !! port_id) as [vnats|]; simpl.
    + destruct (remove_loop (Some v) _ vnats) as [vnats' [e|[]]]; simpl.
      * eapply (Hsame (mkCache (delete (Vnat.id v) (cache c)) (port_lookup c)));
          [|reflexivity|done].
        intros k x. simpl. rewrite lookup_delete_Some. by intros [_ ?].
      * destruct vnats'; simpl;
          (eapply (Hsame (mkCache (delete (Vnat.id v) (cache c))
                            (port_lookup c))); [|reflexivity|done]);
          intros k x; simpl; rewrite lookup_delete_Some; by intros [_ ?].
    + eapply (Hsame (mkCache (delete (Vnat.id v) (cache c)) (port_lookup c)));
        [|reflexivity|done].
      intros k x. simpl. rewrite lookup_delete_Some. by intros [_ ?].
  - destruct (port_lookup c !! port_id) as [vnats|]; simpl; [|done].
    destruct (remove_loop None _ vnats) as [vnats' [e|[]]]; simpl; [done|].
    by destruct vnats'.
Qed.

(** X3.  [put] and [remove] keep the cache keyed by the vnats' own ids,
    whether they return or raise: an entry found under an id is a vnat
    with that id. *)
Theorem cache_keys_match (c : VnatCache) (v : Vnat.t) (vnat : option Vnat.t)
    (port_id : string) :
  keys_match c ->
  keys_match (fst (put v port_id c)) /\
  keys_match (fst (remove vnat port_id c)).
Proof.
  intros Hk. split; [|by apply remove_keeps_keys_match].
  unfold put. unfold bind at 1, gets at 1.
  destruct (cache c !! Vnat.id v) as [old|] eqn:Hold.
  - unfold bind at 1.
    pose proof (remove_keeps_keys_match (Some old) port_id c Hk) as Hrm.
    destruct (remove (Some old) port_id c) as [c1 [e|[]]]; simpl in *; [done|].
    unfold bind, modify, gets. simpl.
    destruct (port_lookup c1 !! port_id); simpl;
      intros k x; simpl; rewrite lookup_insert;
      (case_decide; [intros [= <-]; done | apply Hrm]).
  - unfold bind, modify, gets, ret. simpl.
    destruct (port_lookup c !! port_id); simpl;
      intros k x; simpl; rewrite lookup_insert;
      (case_decide; [intros [= <-]; done | apply Hk]).
Qed.
End CacheMore.

(** [put(b1, 'p1')] on the empty cache. *)
Lemma put_then_get_scenario :
  let c' := Scenario.cache_with_b1 in
  VnatCache.get_vnat_by_id c' (Vnat.id Scenario.b1) = Some Scenario.b1 /\
  Vnat.id Scenario.b1 ∈ VnatCache.get_vnat_ids c' /\
  (exists ids,
     VnatCache.port_lookup c' !! "p1" = Some (ids ++ [Vnat.id Scenario.b1])) /\
  last (VnatCache.get_vnats_by_port_id c' "p1") = Some (Some Scenario.b1).
Proof.
  apply (put_then_get VnatCache.init Scenario.cache_with_b1 Scenario.b1 "p1").
  reflexivity.
Defined.

Lemma put_fresh_keeps_invariants_scenario :
  exists c',
    VnatCache.put Scenario.b1 "p1" VnatCache.init = (c', inr tt) /\
    (VnatCache.ids_have_entries VnatCache.init ->
     VnatCache.ids_have_entries c') /\
    (VnatCache.no_empty_bucket VnatCache.init ->
     VnatCache.no_empty_bucket c') /\
    (forall k, k <> Vnat.id Scenario.b1 ->
       VnatCache.cache c' !! k = VnatCache.cache VnatCache.init !! k) /\
    (forall p, p <> "p1" ->
       VnatCache.port_lookup c' !! p
       = VnatCache.port_lookup VnatCache.init !! p) /\
    VnatCache.port_lookup c' !! "p1"
    = Some (default [] (VnatCache.port_lookup VnatCache.init !! "p1")
            ++ [Vnat.id Scenario.b1]).
Proof.
  apply (put_fresh_keeps_invariants VnatCache.init Scenario.b1 "p1").
  reflexivity.
Defined.

Lemma cache_keys_match_scenario :
  VnatCache.keys_match (fst (VnatCache.put Scenario.b1 "p1" VnatCache.init)) /\
  VnatCache.keys_match
    (fst (VnatCache.remove (Some Scenario.b1) "p1" VnatCache.init)).
Proof.
  apply (cache_keys_match VnatCache.init Scenario.b1 (Some Scenario.b1) "p1").
  intros k x Hx. simpl in Hx. by rewrite lookup_empty in Hx.
Defined.

Section CacheRemove.
Import VnatCache.

Lemma remove_loop_skip (v : Vnat.t) (vnats : list string)
    (missed rest : list nat) :
  (forall i, i ∈ missed -> exists x, vnats !! i = Some x /\ x <> Vnat.id v) ->
  remove_loop (Some v) (missed ++ rest) vnats
  = remove_loop (Some v) rest vnats.
Proof.
  induction missed as [|i missed IH]; intros H; simpl; [reflexivity|].
  destruct (H i) as (x & Hx & Hne); [left|].
  rewrite Hx.
  destruct (String.eqb_spec x (Vnat.id v)) as [->|_]; [done|].
  apply IH. intros j Hj. apply H. by right.
Qed.

(** The loop on a bucket that holds the id once, before its last
    place. *)
Lemma remove_loop_inner (v : Vnat.t) (before after : list string) :
  after <> [] -> Vnat.id v ∉ before -> Vnat.id v ∉ after ->
  remove_loop (Some v)
    (seq 0 (length (before ++ Vnat.id v :: after) - 1))
    (before ++ Vnat.id v :: after)
  = (before ++ after, inr tt).
Proof.
  intros Hafter Hb Ha.
  destruct after as [|a after']; [done|].
  replace (length (before ++ Vnat.id v :: a :: after') - 1)
    with (length before + S (length after'))
    by (rewrite length_app; simpl; lia).
  rewrite seq_app. simpl.
  rewrite remove_loop_skip.
  2:{ intros i Hi. apply elem_of_seq in Hi.
      destruct (lookup_lt_is_Some_2 before i) as [x Hx]; [lia|].
      exists x. split.
      - rewrite lookup_app_l by lia. exact Hx.
      - intros ->. apply Hb. by eapply list_elem_of_lookup_2. }
  simpl. rewrite list_lookup_middle by done. rewrite String.eqb_refl.
  rewrite delete_middle.
  apply remove_loop_miss. intros i Hi. apply elem_of_seq in Hi.
  destruct (lookup_lt_is_Some_2 (a :: after') (i - length before))
    as [x Hx]; [simpl; lia|].
  exists x. split.
  - rewrite lookup_app_r by lia. exact Hx.
  - intros ->. apply Ha. by eapply list_elem_of_lookup_2.
Qed.

(** X4.  [remove] on a bucket that holds the vnat's id once, anywhere
    but in its last place: it returns, the cache entry is gone, the id is
    out of the bucket and the other members keep their order. *)
Theorem remove_inner_member (c : VnatCache) (v v0 : Vnat.t)
    (port_id : string) (before after : list string) :
  cache c !! Vnat.id v = Some v0 ->
  port_lookup c !! port_id = Some (before ++ Vnat.id v :: after) ->
  after <> [] -> Vnat.id v ∉ before -> Vnat.id v ∉ after ->
  exists c',
    remove (Some v) port_id c = (c', inr tt) /\
    get_vnat_by_id c' (Vnat.id v) = None /\
    port_lookup c' !! port_id = Some (before ++ after) /\
    (forall k, k <> Vnat.id v -> cache c' !! k = cache c !! k) /\
    (forall p, p <> port_id -> port_lookup c' !! p = port_lookup c !! p).
Proof.
  intros Hc Hp Hafter Hb Ha.
  exists (mkCache (delete (Vnat.id v) (cache c))
            (<[port_id := before ++ after]> (port_lookup c))).
  split.
  { unfold remove, bind, gets, modify, lift, ret. simpl.
    rewrite Hc. simpl. rewrite Hp.
    rewrite (remove_loop_inner v before after Hafter Hb Ha). simpl.
    destruct (before ++ after) eqn:E; [|reflexivity].
    apply app_eq_nil in E as [_ ->]. done. }
  simpl. split; [apply lookup_delete_eq|].
  split; [apply lookup_insert_eq|].
  split.
  - intros k Hk. by apply lookup_delete_ne.
  - intros p Hp'. by apply lookup_insert_ne.
Qed.

(** X5.  What [remove] does when it cannot find what it is asked to
    remove.  A vnat the cache does not hold: [KeyError] on its id, and
    nothing has changed.  A port without bucket: [KeyError] on the port
    id, after the cache entry was deleted, which stays deleted. *)
Theorem remove_missing (c : VnatCache) (v : Vnat.t) (port_id : string) :
  (cache c !! Vnat.id v = None ->
   remove (Some v) port_id c = (c, inl (KeyError (Vnat.id v)))) /\
  (is_Some (cache c !! Vnat.id v) -> port_lookup c !! port_id = None ->
   remove (Some v) port_id c
   = (mkCache (delete (Vnat.id v) (cache c)) (port_lookup c),
      inl (KeyError port_id))).
Proof.
  split.
  - intros Hc. unfold remove, bind, gets, raise. simpl. by rewrite Hc.
  - intros [x Hc] Hp. unfold remove, bind, gets, modify, raise. simpl.
    rewrite Hc. simpl. by rewrite Hp.
Qed.

(** X6.  On a cache that keeps its invariants (every id of a bucket has
    an entry, every entry is filed under its own id),
    [get_vnats_by_port_id] returns one vnat for every id of the port's
    bucket, in the bucket's order and with that id; for a port without
    bucket it returns the empty list. *)
Theorem get_vnats_by_port_id_exact (c : VnatCache) (port_id : string) :
  ids_have_entries c -> keys_match c ->
  (forall vnat_ids,
     port_lookup c !! port_id = Some vnat_ids ->
     Forall2 (fun o vnat_id => exists v, o = Some v /\ Vnat.id v = vnat_id)
       (get_vnats_by_port_id c port_id) vnat_ids) /\
  (port_lookup c !! port_id = None -> get_vnats_by_port_id c port_id = []).
Proof.
  intros Hids Hkeys. split.
  - intros vnat_ids Hp. unfold get_vnats_by_port_id. rewrite Hp.
    assert (Hall : Forall2
              (fun o vnat_id => exists v, o = Some v /\ Vnat.id v = vnat_id)
              (map (fun id => cache c !! id) vnat_ids) vnat_ids).
    { apply Forall2_fmap_l, Forall2_same_length_lookup. split; [done|].
      intros i x y Hx Hy. assert (x = y) as -> by congruence.
      destruct (Hids port_id vnat_ids y Hp) as [v Hv].
      { by eapply list_elem_of_lookup_2. }
      exists v. split; [done | by apply Hkeys]. }
    by destruct vnat_ids.
  - intros Hp. unfold get_vnats_by_port_id. by rewrite Hp.
Qed.
End CacheRemove.

(** A bucket [b0; b1; b2] from which [b1] is removed. *)
Lemma remove_inner_member_scenario :
  let v0 := Vnat.mk "b0" None None None None None true false VNAT_TYPE_VM
              None None "10.0.0.4" None None in
  let v2 := Vnat.mk "b2" None None None None None true false VNAT_TYPE_VM
              None None "10.0.0.6" None None in
  let c := fst (VnatCache.put v2 "p1"
             (fst (VnatCache.put Scenario.b1 "p1"
                (fst (VnatCache.put v0 "p1" VnatCache.init))))) in
  exists c',
    VnatCache.remove (Some Scenario.b1) "p1" c = (c', inr tt) /\
    VnatCache.get_vnat_by_id c' (Vnat.id Scenario.b1) = None /\
    VnatCache.port_lookup c' !! "p1" = Some (["b0"] ++ ["b2"]) /\
    (forall k, k <> Vnat.id Scenario.b1 ->
       VnatCache.cache c' !! k = VnatCache.cache c !! k) /\
    (forall p, p <> "p1" ->
       VnatCache.port_lookup c' !! p = VnatCache.port_lookup c !! p).
Proof.
  intros v0 v2 c.
  apply (remove_inner_member c Scenario.b1 Scenario.b1 "p1" ["b0"] ["b2"]).
  - reflexivity.
  - reflexivity.
  - discriminate.
  - intros [H|H]%elem_of_cons; [discriminate | by apply elem_of_nil in H].
  - intros [H|H]%elem_of_cons; [discriminate | by apply elem_of_nil in H].
Defined.

Lemma get_vnats_by_port_id_exact_scenario :
  (forall vnat_ids,
     VnatCache.port_lookup Scenario.cache_with_b1 !! "p1" = Some vnat_ids ->
     Forall2 (fun o vnat_id => exists v, o = Some v /\ Vnat.id v = vnat_id)
       (VnatCache.get_vnats_by_port_id Scenario.cache_with_b1 "p1") vnat_ids) /\
  (VnatCache.port_lookup Scenario.cache_with_b1 !! "p1" = None ->
   VnatCache.get_vnats_by_port_id Scenario.cache_with_b1 "p1" = []).
Proof.
  assert (Eports : VnatCache.port_lookup Scenario.cache_with_b1
                   = <["p1" := ["b1"]]> ∅) by reflexivity.
  assert (Ecache : VnatCache.cache Scenario.cache_with_b1
                   = <["b1" := Scenario.b1]> ∅) by reflexivity.
  apply (get_vnats_by_port_id_exact Scenario.cache_with_b1 "p1").
  - intros p ids k Hp Hk. rewrite Eports in Hp. rewrite Ecache.
    apply lookup_insert_Some in Hp as [[<- <-]|[_ Hp]].
    + apply list_elem_of_singleton in Hk as ->.
      rewrite lookup_insert_eq. by eexists.
    + by rewrite lookup_empty in Hp.
  - intros k x Hx. rewrite Ecache in Hx.
    apply lookup_insert_Some in Hx as [[<- <-]|[_ Hx]]; [done|].
    by rewrite lookup_empty in Hx.
Defined.

(** ** nat_manager.py, further *)
Section LvsCommands.
Import NatManager.
Variable Kernel : Type.
Variable execute :
  list string -> string -> Kernel -> Kernel * (PyExc + string).
Variables ext_ip ext_port fixed_ip fixed_port : string.
Hypothesis ext_ip_plain : plain_value ext_ip = true.
Hypothesis ext_port_plain : plain_value ext_port = true.
Hypothesis fixed_ip_plain : plain_value fixed_ip = true.
Hypothesis fixed_port_plain : plain_value fixed_port = true.

Lemma string_app_assoc (a b c : string) : (a +:+ b) +:+ c = a +:+ b +:+ c.
Proof.
  induction a as [|x a IH]; [reflexivity|].
  change (String x ((a +:+ b) +:+ c) = String x (a +:+ b +:+ c)).
  by rewrite IH.
Qed.

Lemma endpoint_no_blank ip port :
  plain_value ip = true -> plain_value port = true ->
  lacks " " (ip +:+ ":" +:+ port) = true.
Proof.
  intros Hip Hport.
  apply lacks_app; [by apply plain_value_no_blank|].
  apply (lacks_app _ ":"); [reflexivity | by apply plain_value_no_blank].
Qed.

Lemma lvs_add_service_tokens :
  py_split ("-A -t " +:+ ext_ip +:+ ":" +:+ ext_port +:+ " -s rr")
  = ["-A"; "-t"; ext_ip +:+ ":" +:+ ext_port; "-s"; "rr"].
Proof.
  unfold py_split.
  change ("-A -t " +:+ ext_ip +:+ ":" +:+ ext_port +:+ " -s rr")
    with ("-A" +:+ String " " ("-t" +:+ String " "
          (ext_ip +:+ ":" +:+ ext_port +:+ String " "
          ("-s" +:+ String " " "rr")))).
  rewrite !py_split_on_cut by reflexivity.
  replace (ext_ip +:+ ":" +:+ ext_port +:+ String " " ("-s" +:+ String " " "rr"))
    with ((ext_ip +:+ ":" +:+ ext_port) +:+ String " "
          ("-s" +:+ String " " "rr")).
  2:{ rewrite !string_app_assoc. reflexivity. }
  rewrite py_split_on_cut by (by apply endpoint_no_blank).
  rewrite py_split_on_cut by reflexivity.
  rewrite py_split_on_word by reflexivity. reflexivity.
Qed.

Lemma lvs_add_server_tokens :
  py_split ("-a -t " +:+ ext_ip +:+ ":" +:+ ext_port +:+ " -r "
            +:+ fixed_ip +:+ ":" +:+ fixed_port +:+ " -m")
  = ["-a"; "-t"; ext_ip +:+ ":" +:+ ext_port; "-r";
     fixed_ip +:+ ":" +:+ fixed_port; "-m"].
Proof.
  unfold py_split.
  change ("-a -t " +:+ ext_ip +:+ ":" +:+ ext_port +:+ " -r "
            +:+ fixed_ip +:+ ":" +:+ fixed_port +:+ " -m")
    with ("-a" +:+ String " " ("-t" +:+ String " "
          (ext_ip +:+ ":" +:+ ext_port +:+ String " "
          ("-r" +:+ String " "
          (fixed_ip +:+ ":" +:+ fixed_port +:+ String " " "-m"))))).
  rewrite !py_split_on_cut by reflexivity.
  replace (ext_ip +:+ ":" +:+ ext_port +:+ String " "
           ("-r" +:+ String " "
            (fixed_ip +:+ ":" +:+ fixed_port +:+ String " " "-m")))
    with ((ext_ip +:+ ":" +:+ ext_port) +:+ String " "
          ("-r" +:+ String " "
           ((fixed_ip +:+ ":" +:+ fixed_port) +:+ String " " "-m"))).
  2:{ rewrite !string_app_assoc. reflexivity. }
  rewrite py_split_on_cut by (by apply endpoint_no_blank).
  rewrite py_split_on_cut by reflexivity.
  rewrite py_split_on_cut by (by apply endpoint_no_blank).
  rewrite py_split_on_word by reflexivity. reflexivity.
Qed.

Lemma lvs_delete_server_tokens :
  py_split ("-d -t " +:+ ext_ip +:+ ":" +:+ ext_port +:+ " -r "
            +:+ fixed_ip +:+ ":" +:+ fixed_port)
  = ["-d"; "-t"; ext_ip +:+ ":" +:+ ext_port; "-r";
     fixed_ip +:+ ":" +:+ fixed_port].
Proof.
  unfold py_split.
  change ("-d -t " +:+ ext_ip +:+ ":" +:+ ext_port +:+ " -r "
            +:+ fixed_ip +:+ ":" +:+ fixed_port)
    with ("-d" +:+ String " " ("-t" +:+ String " "
          (ext_ip +:+ ":" +:+ ext_port +:+ String " "
          ("-r" +:+ String " " (fixed_ip +:+ ":" +:+ fixed_port))))).
  rewrite !py_split_on_cut by reflexivity.
  replace (ext_ip +:+ ":" +:+ ext_port +:+ String " "
           ("-r" +:+ String " " (fixed_ip +:+ ":" +:+ fixed_port)))
    with ((ext_ip +:+ ":" +:+ ext_port) +:+ String " "
          ("-r" +:+ String " " (fixed_ip +:+ ":" +:+ fixed_port))).
  2:{ rewrite !string_app_assoc. reflexivity. }
  rewrite py_split_on_cut by (by apply endpoint_no_blank).
  rewrite py_split_on_cut by reflexivity.
  rewrite py_split_on_word by (by apply endpoint_no_blank). reflexivity.
Qed.

Lemma lvs_delete_service_tokens :
  py_split ("-D -t " +:+ ext_ip +:+ ":" +:+ ext_port)
  = ["-D"; "-t"; ext_ip +:+ ":" +:+ ext_port].
Proof.
  unfold py_split.
  change ("-D -t " +:+ ext_ip +:+ ":" +:+ ext_port)
    with ("-D" +:+ String " " ("-t" +:+ String " "
          (ext_ip +:+ ":" +:+ ext_port))).
  rewrite !py_split_on_cut by reflexivity.
  rewrite py_split_on_word by (by apply endpoint_no_blank). reflexivity.
Qed.

(** What [runs_in_order] gives for a batch that ends in two rules whose
    commands are known. *)
Lemma runs_in_order_two rh k rules rule1 rule2 args1 args2 :
  ["ipvsadm"] ++ py_split rule1 = args1 ->
  ["ipvsadm"] ++ py_split rule2 = args2 ->
  let before := runs_in_order Kernel execute rh k rules in
  let first := execute args1 rh (fst before) in
  let second := execute args2 rh (fst first) in
  runs_in_order Kernel execute rh k ((rules ++ [rule1]) ++ [rule2])
  = (fst second,
     snd before ++ [log_line rule1 (snd first); log_line rule2 (snd second)]).
Proof.
  intros <- <-. simpl.
  rewrite <- app_assoc. simpl. rewrite runs_in_order_app.
  destruct (runs_in_order Kernel execute rh k rules) as [k0 lines]. simpl.
  unfold outcome. simpl.
  destruct (execute _ rh k0) as [k1 [e1|out1]]; simpl;
    destruct (execute _ rh k1) as [k2 [e2|out2]]; reflexivity.
Qed.

(** X7.  With the virtual-server backend, [add_nat_rule] followed by
    [apply] gives the runner, after the commands staged before, exactly
    two commands: [ipvsadm -A -t ext_ip:ext_port -s rr], which registers
    the virtual service with round-robin scheduling, then
    [ipvsadm -a -t ext_ip:ext_port -r fixed_ip:fixed_port -m], which adds
    the fixed endpoint as its real server.  The kernel [apply] leaves is
    the one the runner reaches on the second command, started in the
    kernel the first one left, whether the first one failed or not; each
    of the two gets its log line from the runner's answer.  The gateway
    argument has no part in them, and the batch is empty afterwards. *)
Theorem lvs_add_nat_rule_commands (m : LvsNatManager) (h : Host Kernel)
    (gateway : string) :
  let rh := lvs_root_helper m in
  let staged :=
    lvs_add_nat_rule m ext_ip ext_port fixed_ip fixed_port gateway in
  let r := lvs_apply Kernel execute staged h in
  let before := runs_in_order Kernel execute rh (kernel h) (lvs_rules m) in
  let service :=
    ["ipvsadm"; "-A"; "-t"; ext_ip +:+ ":" +:+ ext_port; "-s"; "rr"] in
  let server :=
    ["ipvsadm"; "-a"; "-t"; ext_ip +:+ ":" +:+ ext_port; "-r";
     fixed_ip +:+ ":" +:+ fixed_port; "-m"] in
  let first := execute service rh (fst before) in
  let second := execute server rh (fst first) in
  lvs_rules (fst r) = [] /\
  kernel (snd r) = fst second /\
  executed (snd r)
  = executed h
    ++ map (fun r => ["ipvsadm"] ++ py_split r) (lvs_rules m)
    ++ [service; server] /\
  logged (snd r)
  = logged h ++ snd before
    ++ [log_line ("-A -t " +:+ ext_ip +:+ ":" +:+ ext_port +:+ " -s rr")
          (snd first);
        log_line ("-a -t " +:+ ext_ip +:+ ":" +:+ ext_port +:+ " -r "
                  +:+ fixed_ip +:+ ":" +:+ fixed_port +:+ " -m")
          (snd second)].
Proof.
  intros rh staged r before service server first second.
  destruct (fold_runs_in_order Kernel execute rh (lvs_rules staged) h)
    as [Hk Hl].
  assert (Hrun : runs_in_order Kernel execute rh (kernel h) (lvs_rules staged)
                 = (fst second,
                    snd before
                    ++ [log_line ("-A -t " +:+ ext_ip +:+ ":" +:+ ext_port
                                  +:+ " -s rr") (snd first);
                        log_line ("-a -t " +:+ ext_ip +:+ ":" +:+ ext_port
                                  +:+ " -r " +:+ fixed_ip +:+ ":"
                                  +:+ fixed_port +:+ " -m") (snd second)])).
  { apply (runs_in_order_two rh (kernel h) (lvs_rules m)).
    - simpl. by rewrite lvs_add_service_tokens.
    - simpl. by rewrite lvs_add_server_tokens. }
  rewrite Hrun in Hk, Hl.
  split; [reflexivity|]. split; [exact Hk|]. split; [|exact Hl].
  unfold r, lvs_apply. simpl.
  rewrite fold_executed. f_equal.
  rewrite !map_app. simpl.
  rewrite lvs_add_service_tokens, lvs_add_server_tokens.
  by rewrite <- app_assoc.
Qed.

(** X8.  With the virtual-server backend, [delete_nat_rule] followed by
    [apply] gives the runner, after the commands staged before, exactly
    two commands, the inverse of those of [add_nat_rule] in the inverse
    order: [ipvsadm -d -t ext_ip:ext_port -r fixed_ip:fixed_port] takes
    the real server out, then [ipvsadm -D -t ext_ip:ext_port] deletes the
    virtual service.  The kernel [apply] leaves is the one the runner
    reaches on the second command, started in the kernel the first one
    left, whether the first one failed or not; each of the two gets its
    log line from the runner's answer. *)
Theorem lvs_delete_nat_rule_commands (m : LvsNatManager) (h : Host Kernel) :
  let rh := lvs_root_helper m in
  let staged := lvs_delete_nat_rule m ext_ip ext_port fixed_ip fixed_port in
  let r := lvs_apply Kernel execute staged h in
  let before := runs_in_order Kernel execute rh (kernel h) (lvs_rules m) in
  let server :=
    ["ipvsadm"; "-d"; "-t"; ext_ip +:+ ":" +:+ ext_port; "-r";
     fixed_ip +:+ ":" +:+ fixed_port] in
  let service := ["ipvsadm"; "-D"; "-t"; ext_ip +:+ ":" +:+ ext_port] in
  let first := execute server rh (fst before) in
  let second := execute service rh (fst first) in
  lvs_rules (fst r) = [] /\
  kernel (snd r) = fst second /\
  executed (snd r)
  = executed h
    ++ map (fun r => ["ipvsadm"] ++ py_split r) (lvs_rules m)
    ++ [server; service] /\
  logged (snd r)
  = logged h ++ snd before
    ++ [log_line ("-d -t " +:+ ext_ip +:+ ":" +:+ ext_port +:+ " -r "
                  +:+ fixed_ip +:+ ":" +:+ fixed_port)
          (snd first);
        log_line ("-D -t " +:+ ext_ip +:+ ":" +:+ ext_port) (snd second)].
Proof.
  intros rh staged r before server service first second.
  destruct (fold_runs_in_order Kernel execute rh (lvs_rules staged) h)
    as [Hk Hl].
  assert (Hrun : runs_in_order Kernel execute rh (kernel h) (lvs_rules staged)
                 = (fst second,
                    snd before
                    ++ [log_line ("-d -t " +:+ ext_ip +:+ ":" +:+ ext_port
                                  +:+ " -r " +:+ fixed_ip +:+ ":"
                                  +:+ fixed_port) (snd first);
                        log_line ("-D -t " +:+ ext_ip +:+ ":" +:+ ext_port)
                          (snd second)])).
  { apply (runs_in_order_two rh (kernel h) (lvs_rules m)).
    - simpl. by rewrite lvs_delete_server_tokens.
    - simpl. by rewrite lvs_delete_service_tokens. }
  rewrite Hrun in Hk, Hl.
  split; [reflexivity|]. split; [exact Hk|]. split; [|exact Hl].
  unfold r, lvs_apply. simpl.
  rewrite fold_executed. f_equal.
  rewrite !map_app. simpl.
  rewrite lvs_delete_server_tokens, lvs_delete_service_tokens.
  by rewrite <- app_assoc.
Qed.
End LvsCommands.

(** The runner fails on the first command and succeeds on the second. *)
Lemma lvs_add_nat_rule_commands_scenario :
  let staged := NatManager.lvs_add_nat_rule (NatManager.mkLvs "sudo" [])
                  "198.51.100.1" "10001" "10.0.0.5" "80" "10.0.0.1" in
  let r := NatManager.lvs_apply nat Scenario.counting_runner staged
             (NatManager.mkHost 0 [] []) in
  NatManager.lvs_rules (fst r) = [] /\
  NatManager.kernel (snd r) = 2 /\
  NatManager.executed (snd r)
  = [["ipvsadm"; "-A"; "-t"; "198.51.100.1:10001"; "-s"; "rr"];
     ["ipvsadm"; "-a"; "-t"; "198.51.100.1:10001"; "-r"; "10.0.0.5:80";
      "-m"]] /\
  NatManager.logged (snd r)
  = [NatManager.LogFailed "-A -t 198.51.100.1:10001 -s rr"
       (RemoteError "exit code 1");
     NatManager.LogSuccess "-a -t 198.51.100.1:10001 -r 10.0.0.5:80 -m"].
Proof.
  apply (lvs_add_nat_rule_commands nat Scenario.counting_runner
           "198.51.100.1" "10001" "10.0.0.5" "80");
    reflexivity.
Defined.

Lemma lvs_delete_nat_rule_commands_scenario :
  let staged := NatManager.lvs_delete_nat_rule (NatManager.mkLvs "sudo" [])
                  "198.51.100.1" "10001" "10.0.0.5" "80" in
  let r := NatManager.lvs_apply nat Scenario.counting_runner staged
             (NatManager.mkHost 0 [] []) in
  NatManager.lvs_rules (fst r) = [] /\
  NatManager.kernel (snd r) = 2 /\
  NatManager.executed (snd r)
  = [["ipvsadm"; "-d"; "-t"; "198.51.100.1:10001"; "-r"; "10.0.0.5:80"];
     ["ipvsadm"; "-D"; "-t"; "198.51.100.1:10001"]] /\
  NatManager.logged (snd r)
  = [NatManager.LogFailed "-d -t 198.51.100.1:10001 -r 10.0.0.5:80"
       (RemoteError "exit code 1");
     NatManager.LogSuccess "-D -t 198.51.100.1:10001"].
Proof.
  apply (lvs_delete_nat_rule_commands nat Scenario.counting_runner
           "198.51.100.1" "10001" "10.0.0.5" "80");
    reflexivity.
Defined.

Section IptablesRoundTrip.
Import NatManager.

Lemma remove_rule_found (t rest : IptablesTable) (chain rule : string) :
  remove_rule (t ++ (chain, rule) :: rest) chain rule ≡ₚ t ++ rest.
Proof.
  induction t as [|[c r] t IH]; simpl.
  - by rewrite !String.eqb_refl.
  - destruct (String.eqb c chain && String.eqb r rule) eqn:E.
    + apply andb_true_iff in E as [->%String.eqb_eq ->%String.eqb_eq].
      by rewrite Permutation_middle.
    + by rewrite IH.
Qed.

Lemma remove_rule_perm (t t' : IptablesTable) (chain rule : string) :
  t ≡ₚ t' -> remove_rule t chain rule ≡ₚ remove_rule t' chain rule.
Proof.
  induction 1 as [|[c r] t t' Hperm IH|[c1 r1] [c2 r2] t|t1 t2 t3 _ IH1 _ IH2];
    simpl.
  - done.
  - destruct (_ && _); [exact Hperm | by rewrite IH].
  - destruct (String.eqb c1 chain && String.eqb r1 rule) eqn:E1;
      destruct (String.eqb c2 chain && String.eqb r2 rule) eqn:E2; try done.
    + apply andb_true_iff in E1 as [->%String.eqb_eq ->%String.eqb_eq].
      apply andb_true_iff in E2 as [->%String.eqb_eq ->%String.eqb_eq].
      done.
    + apply perm_swap.
  - by rewrite IH1.
Qed.

(** X9.  With the packet-filter backend, [delete_nat_rule] takes out
    what [add_nat_rule] with the same arguments put in: after the two
    calls the staged table holds the directives it held before, and it is
    the very same table when it held neither of the two directives of the
    pair. *)
Theorem ipt_add_then_delete (m : IptablesNatManager)
    (ext_ip ext_port fixed_ip fixed_port gateway : string) :
  let added :=
    ipt_add_nat_rule m ext_ip ext_port fixed_ip fixed_port gateway in
  let deleted :=
    ipt_delete_nat_rule added ext_ip ext_port fixed_ip fixed_port gateway in
  ipt_nat_table deleted ≡ₚ ipt_nat_table m /\
  ((forall d,
      d ∈ _nat_rules ext_ip ext_port fixed_ip fixed_port gateway ->
      d ∉ ipt_nat_table m) ->
   ipt_nat_table deleted = ipt_nat_table m).
Proof.
  unfold ipt_add_nat_rule, ipt_delete_nat_rule, _nat_rules, add_rule.
  simpl. rewrite <- app_assoc. simpl. split.
  - rewrite (remove_rule_perm _ (ipt_nat_table m ++ [_])
               _ _ (remove_rule_found _ _ _ _)).
    rewrite remove_rule_found. by rewrite app_nil_r.
  - intros Habsent.
    rewrite remove_rule_absent by (apply Habsent; by left).
    rewrite remove_rule_absent by (apply Habsent; right; by left).
    by rewrite app_nil_r.
Qed.
End IptablesRoundTrip.

Lemma ipt_add_then_delete_scenario :
  let m := NatManager.mkIpt "sudo" Scenario.rules_b2 in
  let added := NatManager.ipt_add_nat_rule m
                 "198.51.100.1" "10001" "10.0.0.5" "80" "10.0.0.1" in
  let deleted := NatManager.ipt_delete_nat_rule added
                   "198.51.100.1" "10001" "10.0.0.5" "80" "10.0.0.1" in
  NatManager.ipt_nat_table deleted ≡ₚ NatManager.ipt_nat_table m /\
  ((forall d,
      d ∈ NatManager._nat_rules
            "198.51.100.1" "10001" "10.0.0.5" "80" "10.0.0.1" ->
      d ∉ NatManager.ipt_nat_table m) ->
   NatManager.ipt_nat_table deleted = NatManager.ipt_nat_table m).
Proof.
  apply (ipt_add_then_delete (NatManager.mkIpt "sudo" Scenario.rules_b2)).
Defined.

(** ** nat_rpc_base.py and nat_db.py, further *)
Section VserverAllocation.
Import NatDb.
Variable generate_uuid : nat -> string.

Lemma scan_vservers_all_up (vss : list Vserver.t) : forall ext_port,
  Forall (fun vs => Vserver.admin_state_up vs = true) vss ->
  exists p, scan_vservers vss ext_port = (None, p).
Proof.
  induction vss as [|x vss IH]; intros ext_port Hup; simpl; [by eexists|].
  apply Forall_cons in Hup as [-> Hup]. simpl.
  destruct (str_ge _ _); by apply IH.
Qed.

(** What the scan tracks when it meets no vserver that is down: the
    greatest, in the order of strings, of the starting port and the ports
    it went through. *)
Lemma scan_vservers_max (vss : list Vserver.t) : forall ext_port p,
  scan_vservers vss ext_port = (None, p) ->
  String.le ext_port p /\
  Forall (fun vs => String.le (Vserver.external_port vs) p) vss /\
  (p = ext_port \/ p ∈ map Vserver.external_port vss).
Proof.
  induction vss as [|x vss IH]; intros ext_port p; simpl.
  - intros [= <-]. split; [reflexivity|]. split; [constructor | by left].
  - destruct (Vserver.admin_state_up x); simpl; [|done].
    destruct (str_ge (Vserver.external_port x) ext_port) eqn:Hge; intros H;
      apply IH in H as (Hle & Hall & Hin).
    + assert (Hx : String.le ext_port (Vserver.external_port x)).
      { unfold String.le, str_ge in *. by rewrite Hge. }
      split; [by etrans|]. split; [by constructor|].
      right. destruct Hin as [->|Hin]; [by left | by right].
    + assert (Hx : String.le (Vserver.external_port x) ext_port).
      { destruct (total String.le (Vserver.external_port x) ext_port)
          as [?|Hc]; [done|].
        unfold String.le, str_ge in *. by rewrite Hge in Hc. }
      split; [done|]. split; [constructor; [by etrans | done]|].
      destruct Hin as [->|Hin]; [by left | right; by right].
Qed.

Lemma get_vservers_at (ext_ip : string) (db : Db) :
  get_vservers [ext_ip] db
  = (db, inr (filter (fun vs => Vserver.external_ip_address vs = ext_ip)
                (vservers db))).
Proof.
  unfold get_vservers, gets, _make_vserver_dict. rewrite map_id.
  do 2 f_equal. apply list_filter_iff. intros vs. simpl.
  rewrite orb_false_r. apply String.eqb_eq.
Qed.

(** X10.  [get_vserver] when every vserver at the address is up.  The
    port it starts from is the greatest, in the order of strings, of the
    configured starting port and the ports in use at the address.  When
    that string is a numeral [n], a vserver is created at port [n + 1],
    up, under a new identifier, and returned; when it is not, [ValueError]
    is raised and the tables are as they were. *)
Theorem get_vserver_allocates (ext_ip ext_port : string) (db : Db) :
  let at_ip := filter (fun vs => Vserver.external_ip_address vs = ext_ip)
                 (vservers db) in
  Forall (fun vs => Vserver.admin_state_up vs = true) at_ip ->
  exists p,
    String.le ext_port p /\
    Forall (fun vs => String.le (Vserver.external_port vs) p) at_ip /\
    (p = ext_port \/ p ∈ map Vserver.external_port at_ip) /\
    match py_int p with
    | inr n =>
        let vs := Vserver.mk (generate_uuid (uuids_drawn db)) ext_ip
                    (py_str (n + 1)) true in
        get_vserver generate_uuid ext_ip ext_port db
        = (mkDb (vservers db ++ [vs]) (vnats db) (bindings db)
             (S (uuids_drawn db)) (notifications db),
           inr vs)
    | inl e => get_vserver generate_uuid ext_ip ext_port db = (db, inl e)
    end.
Proof.
  intros at_ip Hup.
  destruct (scan_vservers_all_up at_ip ext_port Hup) as [p Hscan].
  destruct (scan_vservers_max at_ip ext_port p Hscan) as (Hle & Hall & Hin).
  exists p. repeat split; try done.
  assert (Hrun : get_vserver generate_uuid ext_ip ext_port db
                 = (n <- lift (py_int p) ;;
                    create_vserver generate_uuid ext_ip (py_str (n + 1)) true)
                     db).
  { unfold get_vserver. unfold bind at 1. rewrite get_vservers_at.
    fold at_ip. by rewrite Hscan. }
  rewrite Hrun. unfold bind, lift.
  destruct (py_int p) as [e|n]; reflexivity.
Qed.
End VserverAllocation.

(** One vserver up at port 10004, ports from 10000. *)
Lemma get_vserver_allocates_scenario :
  let db := NatDb.mkDb [Vserver.mk "a" "198.51.100.1" "10004" true]
              [] [] 0 [] in
  let at_ip := filter (fun vs => Vserver.external_ip_address vs
                                 = "198.51.100.1") (NatDb.vservers db) in
  exists p,
    String.le "10000" p /\
    Forall (fun vs => String.le (Vserver.external_port vs) p) at_ip /\
    (p = "10000" \/ p ∈ map Vserver.external_port at_ip) /\
    match py_int p with
    | inr n =>
        let vs := Vserver.mk (Scenario.uuid (NatDb.uuids_drawn db))
                    "198.51.100.1" (py_str (n + 1)) true in
        NatDb.get_vserver Scenario.uuid "198.51.100.1" "10000" db
        = (NatDb.mkDb (NatDb.vservers db ++ [vs]) (NatDb.vnats db)
             (NatDb.bindings db) (S (NatDb.uuids_drawn db))
             (NatDb.notifications db),
           inr vs)
    | inl e =>
        NatDb.get_vserver Scenario.uuid "198.51.100.1" "10000" db
        = (db, inl e)
    end.
Proof.
  intros db.
  apply (get_vserver_allocates Scenario.uuid "198.51.100.1" "10000" db).
  vm_compute. by repeat constructor.
Defined.

Section VserverReuse.
Import NatDb.
Variable generate_uuid : nat -> string.

(** Under a primary key a row is found by its id. *)
Lemma unique_vserver_split (l : list Vserver.t) (vs : Vserver.t) :
  NoDup (map Vserver.id l) -> vs ∈ l ->
  exists l1 l2,
    l = l1 ++ vs :: l2 /\
    (forall x, x ∈ l1 -> Vserver.id x <> Vserver.id vs) /\
    (forall x, x ∈ l2 -> Vserver.id x <> Vserver.id vs).
Proof.
  intros Hnd Hin.
  apply list_elem_of_split in Hin as (l1 & l2 & ->).
  exists l1, l2. split; [done|].
  rewrite map_app in Hnd. simpl in Hnd.
  apply NoDup_app in Hnd as (_ & Hl1 & Hl2).
  apply NoDup_cons in Hl2 as [Hl2 _].
  split.
  - intros x Hx E. apply (Hl1 (Vserver.id x)).
    + apply list_elem_of_fmap. by exists x.
    + rewrite E. by left.
  - intros x Hx E. apply Hl2. rewrite <- E.
    apply list_elem_of_fmap. by exists x.
Qed.

Lemma filter_id_others (l : list Vserver.t) (id : string) :
  (forall x, x ∈ l -> Vserver.id x <> id) ->
  filter (fun vs => String.eqb (Vserver.id vs) id = true) l = [].
Proof.
  intros H. induction l as [|x l IH]; [done|].
  rewrite filter_cons.
  destruct (decide (String.eqb (Vserver.id x) id = true)) as [E|_].
  - apply String.eqb_eq in E. exfalso. apply (H x); [by left | done].
  - apply IH. intros y Hy. apply H. by right.
Qed.

Lemma filter_id_split (l1 l2 : list Vserver.t) (vs : Vserver.t) (id : string) :
  Vserver.id vs = id ->
  (forall x, x ∈ l1 -> Vserver.id x <> id) ->
  (forall x, x ∈ l2 -> Vserver.id x <> id) ->
  filter (fun vs => String.eqb (Vserver.id vs) id = true) (l1 ++ vs :: l2)
  = [vs].
Proof.
  intros Hid H1 H2.
  rewrite filter_app, filter_cons, (filter_id_others l1), (filter_id_others l2)
    by done.
  rewrite decide_True by (by apply String.eqb_eq). done.
Qed.

Lemma map_update_split (l1 l2 : list Vserver.t) (vs vs' : Vserver.t)
    (id : string) :
  Vserver.id vs = id ->
  (forall x, x ∈ l1 -> Vserver.id x <> id) ->
  (forall x, x ∈ l2 -> Vserver.id x <> id) ->
  map (fun x => if String.eqb (Vserver.id x) id then vs' else x)
      (l1 ++ vs :: l2)
  = l1 ++ vs' :: l2.
Proof.
  intros Hid H1 H2.
  assert (Hsame : forall l, (forall x, x ∈ l -> Vserver.id x <> id) ->
            map (fun x => if String.eqb (Vserver.id x) id then vs' else x) l
            = l).
  { intros l Hl. induction l as [|x l IH]; [done|]. simpl.
    destruct (String.eqb_spec (Vserver.id x) id) as [E|_].
    - exfalso. apply (Hl x); [by left | done].
    - f_equal. apply IH. intros y Hy. apply Hl. by right. }
  rewrite map_app. simpl. rewrite !Hsame by done.
  by rewrite Hid, String.eqb_refl.
Qed.

(** [update_vserver] on a table that has the id once. *)
Lemma update_vserver_split (l1 l2 : list Vserver.t) (vs : Vserver.t)
    (b : bool) (db : Db) :
  vservers db = l1 ++ vs :: l2 ->
  (forall x, x ∈ l1 -> Vserver.id x <> Vserver.id vs) ->
  (forall x, x ∈ l2 -> Vserver.id x <> Vserver.id vs) ->
  update_vserver (Vserver.id vs) b db
  = (set_vservers (fun _ => l1 ++ Vserver.set_admin_state_up b vs :: l2) db,
     inr (Vserver.set_admin_state_up b vs)).
Proof.
  intros Hl H1 H2.
  unfold update_vserver, _get_vserver, bind, gets, modify, ret,
    _make_vserver_dict.
  rewrite Hl, (filter_id_split l1 l2 vs) by done. simpl.
  unfold set_vservers. rewrite Hl.
  by rewrite (map_update_split l1 l2 vs) by done.
Qed.

(** The scan stops at the first vserver that is down. *)
Lemma scan_vservers_first_down (l1 l2 : list Vserver.t) (d : Vserver.t) :
  Forall (fun vs => Vserver.admin_state_up vs = true) l1 ->
  Vserver.admin_state_up d = false ->
  forall ext_port, exists p,
    scan_vservers (l1 ++ d :: l2) ext_port = (Some d, p).
Proof.
  intros Hup Hd. induction Hup as [|x l1 Hx _ IH]; intros ext_port; simpl.
  - rewrite Hd. simpl. by eexists.
  - rewrite Hx. simpl. destruct (str_ge _ _); apply IH.
Qed.

(** The loop of [delete_vnat] over the hosting agents, in full: each
    turn drops the rows that bind the vnat to that agent and, when the
    vnat has a vserver, asks for one notification to the agent's host. *)
Lemma delete_vnat_loop_exact (vnat : Vnat.t) (id : string)
    (agents : list VnatNatAgentBinding) : forall db,
  for_each agents (fun agent =>
    remove_vnat_from_nat_agent (nat_agent_id agent) id ;;;
    if truthy (Vnat.vserver_id vnat)
    then notify (vnat_deleted vnat (nat_agent_host agent))
    else ret tt) db
  = (mkDb (vservers db) (vnats db)
       (fold_left
          (fun bs agent =>
             filter (fun b =>
               negb (String.eqb (nat_agent_id b) (nat_agent_id agent)
                     && String.eqb (binding_vnat_id b) id) = true) bs)
          agents (bindings db))
       (uuids_drawn db)
       (notifications db
        ++ (if truthy (Vnat.vserver_id vnat)
            then map (fun agent => vnat_deleted vnat (nat_agent_host agent))
                   agents
            else [])),
     inr tt).
Proof.
  induction agents as [|a agents IH]; intros db.
  - simpl. destruct db. simpl.
    destruct (truthy _); by rewrite app_nil_r.
  - cbn [for_each]. unfold bind at 1. unfold bind at 1.
    unfold remove_vnat_from_nat_agent, modify at 1.
    destruct (truthy (Vnat.vserver_id vnat)) eqn:Ht.
    + unfold notify, modify. rewrite IH. simpl.
      by rewrite <- app_assoc.
    + unfold ret at 1. rewrite IH. reflexivity.
Qed.

(** X11.  A port freed by the deletion of a vnat is the next one handed
    out.  On a table where every vserver at the address is up, deleting a
    vnat that references the vserver [vs] of that address and then
    asking [get_vserver] for the address returns [vs] (as the scan saw it:
    down) under its recorded port, marks it up again, creates no vserver
    and draws no identifier. *)
Theorem delete_vnat_frees_vserver (db : Db) (id ext_ip ext_port : string)
    (v : Vnat.t) (vs : Vserver.t) :
  NoDup (map Vserver.id (vservers db)) ->
  _get_vnat id db = (db, inr v) ->
  Vnat.vserver_id v = Some (Vserver.id vs) -> Vserver.id vs <> "" ->
  vs ∈ vservers db -> Vserver.external_ip_address vs = ext_ip ->
  (forall x, x ∈ vservers db -> Vserver.external_ip_address x = ext_ip ->
             Vserver.admin_state_up x = true) ->
  exists db1 db2,
    delete_vnat id db = (db1, inr tt) /\
    get_vserver generate_uuid ext_ip ext_port db1
    = (db2, inr (Vserver.set_admin_state_up false vs)) /\
    map Vserver.id (vservers db2) = map Vserver.id (vservers db) /\
    is_up (Vserver.id vs) db2 /\
    uuids_drawn db2 = uuids_drawn db.
Proof.
  intros Hnd Hget Hv Hne Hin Hip Hup.
  destruct (unique_vserver_split _ vs Hnd Hin) as (l1 & l2 & Hl & H1 & H2).
  assert (Ht : truthy (Vnat.vserver_id v) = true).
  { rewrite Hv. simpl. by apply negb_true_iff, String.eqb_neq. }
  set (down := Vserver.set_admin_state_up false vs).
  assert (Hdel : exists db1,
            delete_vnat id db = (db1, inr tt) /\
            vservers db1 = l1 ++ down :: l2 /\
            uuids_drawn db1 = uuids_drawn db).
  { unfold delete_vnat. unfold bind at 1. rewrite Hget.
    unfold bind at 1. unfold list_nat_agents_hosting_vnat at 1, gets at 1.
    unfold bind at 1. unfold _make_vnat_dict.
    rewrite delete_vnat_loop_exact. rewrite Ht, Hv.
    match goal with
    | |- context [mkDb ?a ?b ?c ?d ?e] => set (db0 := mkDb a b c d e)
    end.
    assert (Hl0 : vservers db0 = l1 ++ vs :: l2) by exact Hl.
    cbn [from_option Datatypes.id].
    unfold bind at 1. unfold bind at 1.
    rewrite (update_vserver_split l1 l2 vs false db0 Hl0 H1 H2).
    eexists. split; [reflexivity|]. split; reflexivity. }
  destruct Hdel as (db1 & Hdel & Hl1 & Hdrawn).
  assert (Hat : filter (fun x => Vserver.external_ip_address x = ext_ip)
                  (vservers db1)
                = filter (fun x => Vserver.external_ip_address x = ext_ip) l1
                  ++ down
                  :: filter (fun x => Vserver.external_ip_address x = ext_ip)
                       l2).
  { rewrite Hl1, filter_app, filter_cons_True by done. reflexivity. }
  destruct (scan_vservers_first_down
              (filter (fun x => Vserver.external_ip_address x = ext_ip) l1)
              (filter (fun x => Vserver.external_ip_address x = ext_ip) l2)
              down) with (ext_port := ext_port) as [p Hscan].
  { apply Forall_forall. intros x [Hx Hxin]%list_elem_of_filter.
    apply Hup; [|done]. rewrite Hl. apply elem_of_app. by left. }
  { reflexivity. }
  exists db1. eexists. split; [exact Hdel|].
  assert (Hrun : get_vserver generate_uuid ext_ip ext_port db1
                 = (set_vservers
                      (fun _ => l1 ++ Vserver.set_admin_state_up true down
                                :: l2) db1,
                    inr down)).
  { unfold get_vserver. unfold bind at 1. rewrite get_vservers_at.
    rewrite Hat, Hscan. unfold bind.
    by rewrite (update_vserver_split l1 l2 down true db1 Hl1 H1 H2). }
  split; [exact Hrun|]. simpl. split; [|split; [|exact Hdrawn]].
  - rewrite Hl, !map_app. reflexivity.
  - exists (Vserver.set_admin_state_up true down). split; [|done].
    apply elem_of_app. right. by left.
Qed.
End VserverReuse.

(** Deleting [v1] of the shared vserver [s1], then asking for a vserver at
    its address. *)
Lemma delete_vnat_frees_vserver_scenario :
  let db := Scenario.shared_vserver_db in
  exists db1 db2,
    NatDb.delete_vnat "v1" db = (db1, inr tt) /\
    NatDb.get_vserver Scenario.uuid "198.51.100.1" "10000" db1
    = (db2, inr (Vserver.set_admin_state_up false Scenario.s1)) /\
    map Vserver.id (NatDb.vservers db2) = map Vserver.id (NatDb.vservers db) /\
    NatDb.is_up (Vserver.id Scenario.s1) db2 /\
    NatDb.uuids_drawn db2 = NatDb.uuids_drawn db.
Proof.
  apply (delete_vnat_frees_vserver Scenario.uuid Scenario.shared_vserver_db
           "v1" "198.51.100.1" "10000" Scenario.v1 Scenario.s1).
  - vm_compute. repeat constructor. by intros H%elem_of_nil.
  - reflexivity.
  - reflexivity.
  - discriminate.
  - by left.
  - reflexivity.
  - intros x [->|H]%elem_of_cons; [reflexivity | by apply elem_of_nil in H].
Defined.

Section DeleteVnatMore.
Import NatDb.

Lemma filter_ext_in {A} (P Q : A -> Prop) `{!forall x, Decision (P x)}
    `{!forall x, Decision (Q x)} (l : list A) :
  (forall x, x ∈ l -> (P x <-> Q x)) -> filter P l = filter Q l.
Proof.
  induction l as [|x l IH]; intros Hext; [done|].
  rewrite !filter_cons.
  rewrite IH by (intros y Hy; apply Hext; by right).
  destruct (decide (P x)) as [HP|HP], (decide (Q x)) as [HQ|HQ]; try done.
  - exfalso. apply HQ, Hext; [by left | done].
  - exfalso. apply HP, Hext; [by left | done].
Qed.

(** What the turns of the loop leave of the binding table. *)
Lemma remove_hosting_agents (id : string)
    (agents : list VnatNatAgentBinding) : forall bs,
  fold_left
    (fun (bs : list VnatNatAgentBinding) agent =>
       filter (fun b =>
         negb (String.eqb (nat_agent_id b) (nat_agent_id agent)
               && String.eqb (binding_vnat_id b) id) = true) bs)
    agents bs
  = filter (fun b => binding_vnat_id b <> id \/
                     nat_agent_id b ∉ map nat_agent_id agents) bs.
Proof.
  induction agents as [|a agents IH]; intros bs.
  - simpl. symmetry. induction bs as [|b bs IHbs]; [done|].
    rewrite filter_cons_True; [by rewrite IHbs|].
    right. apply not_elem_of_nil.
  - cbn [fold_left]. rewrite IH, list_filter_filter.
    apply list_filter_iff. intros b.
    rewrite negb_true_iff, andb_false_iff, !String.eqb_neq.
    cbn [map]. rewrite not_elem_of_cons.
    destruct (decide (binding_vnat_id b = id)) as [Hid|Hid];
      destruct (decide (nat_agent_id b = nat_agent_id a)) as [Ha|Ha];
      split; (intros H; intuition auto).
Qed.

(** [delete_vnat] of a vnat the table has, whose vserver (if it names
    one) the table has, from its first statement to its last. *)
Lemma delete_vnat_returns (db : Db) (id : string) (v : Vnat.t) :
  _get_vnat id db = (db, inr v) ->
  (truthy (Vnat.vserver_id v) = true ->
   has_vserver (default "" (Vnat.vserver_id v)) db) ->
  exists db',
    delete_vnat id db = (db', inr tt) /\
    vnats db' = filter (fun u => Vnat.id u <> id) (vnats db) /\
    bindings db' = filter (fun b => binding_vnat_id b <> id) (bindings db) /\
    notifications db'
    = notifications db
      ++ (if truthy (Vnat.vserver_id v)
          then map (fun b => vnat_deleted v (nat_agent_host b))
                 (filter (fun b => binding_vnat_id b = id) (bindings db))
          else []) /\
    uuids_drawn db' = uuids_drawn db /\
    map Vserver.id (vservers db') = map Vserver.id (vservers db).
Proof.
  intros Hget Hhas.
  set (hosting := filter (fun b => binding_vnat_id b = id) (bindings db)).
  assert (Hagents : filter (fun b => String.eqb (binding_vnat_id b) id = true)
                      (bindings db) = hosting).
  { apply list_filter_iff. intros b. apply String.eqb_eq. }
  assert (Hvnats : forall l : list Vnat.t,
            filter (fun u => negb (String.eqb (Vnat.id u) id) = true) l
            = filter (fun u => Vnat.id u <> id) l).
  { intros l. apply list_filter_iff. intros u.
    by rewrite negb_true_iff, String.eqb_neq. }
  assert (Hbind : fold_left
            (fun (bs : list VnatNatAgentBinding) agent =>
               filter (fun b =>
                 negb (String.eqb (nat_agent_id b) (nat_agent_id agent)
                       && String.eqb (binding_vnat_id b) id) = true) bs)
            hosting (bindings db)
          = filter (fun b => binding_vnat_id b <> id) (bindings db)).
  { rewrite remove_hosting_agents. apply filter_ext_in. intros b Hb.
    split; [|by left]. intros [?|Hnot]; [done|]. intros Hid.
    apply Hnot. apply list_elem_of_fmap. exists b. split; [done|].
    by apply list_elem_of_filter. }
  unfold delete_vnat. unfold bind at 1. rewrite Hget.
  unfold bind at 1. unfold list_nat_agents_hosting_vnat at 1, gets at 1.
  unfold bind at 1. unfold _make_vnat_dict.
  rewrite Hagents, delete_vnat_loop_exact, Hbind.
  destruct (truthy (Vnat.vserver_id v)) eqn:Ht.
  - destruct (Hhas eq_refl) as [vs Hvs].
    assert (Hid : Vserver.id vs = default "" (Vnat.vserver_id v)).
    { assert (Hin : vs ∈ filter
                (fun vs => String.eqb (Vserver.id vs)
                             (default "" (Vnat.vserver_id v)) = true)
                (vservers db)) by (rewrite Hvs; by left).
      apply list_elem_of_filter in Hin as [Hin _]. by apply String.eqb_eq. }
    unfold bind at 1. unfold bind at 1.
    unfold update_vserver, _get_vserver, bind, gets, modify, ret. simpl.
    rewrite Hvs. simpl. eexists. split; [reflexivity|]. simpl.
    rewrite Hvnats. repeat split.
    rewrite map_map. apply map_ext. intros x.
    destruct (String.eqb_spec (Vserver.id x)
                (default "" (Vnat.vserver_id v))); simpl; congruence.
  - unfold bind, ret, modify. simpl. eexists. split; [reflexivity|].
    simpl. by rewrite Hvnats.
Qed.

(** X12.  [delete_vnat] of a vnat the table has, whose vserver (if it
    names one) the table has.  It returns; the vnat's row is gone and no
    other; every row binding the vnat to an agent is gone and no other;
    when the vnat has a vserver one deletion notification is asked for
    each of those rows, to the host of its agent and in the rows' order,
    and when it has none, no notification at all; no identifier is
    drawn. *)
Theorem delete_vnat_unbinds_and_notifies (db : Db) (id : string)
    (v : Vnat.t) :
  _get_vnat id db = (db, inr v) ->
  (truthy (Vnat.vserver_id v) = true ->
   has_vserver (default "" (Vnat.vserver_id v)) db) ->
  let hosting := filter (fun b => binding_vnat_id b = id) (bindings db) in
  exists db',
    delete_vnat id db = (db', inr tt) /\
    vnats db' = filter (fun u => Vnat.id u <> id) (vnats db) /\
    bindings db' = filter (fun b => binding_vnat_id b <> id) (bindings db) /\
    notifications db'
    = notifications db
      ++ (if truthy (Vnat.vserver_id v)
          then map (fun b => vnat_deleted v (nat_agent_host b)) hosting
          else []) /\
    uuids_drawn db' = uuids_drawn db.
Proof.
  intros Hget Hhas hosting.
  destruct (delete_vnat_returns db id v Hget Hhas)
    as (db' & Hrun & Hvn & Hb & Hn & Hu & _).
  by exists db'.
Qed.
End DeleteVnatMore.

(** Deleting [v1], hosted by the agent on [node-1]. *)
Lemma delete_vnat_unbinds_and_notifies_scenario :
  let db := Scenario.shared_vserver_db in
  let hosting := filter (fun b => NatDb.binding_vnat_id b = "v1")
                   (NatDb.bindings db) in
  exists db',
    NatDb.delete_vnat "v1" db = (db', inr tt) /\
    NatDb.vnats db' = filter (fun u => Vnat.id u <> "v1") (NatDb.vnats db) /\
    NatDb.bindings db'
    = filter (fun b => NatDb.binding_vnat_id b <> "v1") (NatDb.bindings db) /\
    NatDb.notifications db'
    = NatDb.notifications db
      ++ (if truthy (Vnat.vserver_id Scenario.v1)
          then map (fun b => NatDb.vnat_deleted Scenario.v1
                               (NatDb.nat_agent_host b)) hosting
          else []) /\
    NatDb.uuids_drawn db' = NatDb.uuids_drawn db.
Proof.
  apply (delete_vnat_unbinds_and_notifies Scenario.shared_vserver_db "v1"
           Scenario.v1).
  - reflexivity.
  - intros _. by exists Scenario.s1.
Defined.

Section CreateTwice.
Import NatDb.
Variable generate_uuid : nat -> string.
Variable _get_tenant_id_for_create : VnatRequest.t -> PyExc + option string.


End CreateTwice.


Section DeleteVserver.
Import NatDb.

Lemma get_vnats_references (id : string) (db : Db) :
  get_vnats [(col_vserver_id, [Some id])] db = (db, inr (references id db)).
Proof.
  unfold get_vnats, gets, _make_vnat_dict, references. rewrite map_id.
  do 2 f_equal. apply list_filter_iff. intros v.
  unfold vnat_passes. simpl. rewrite andb_true_r.
  destruct (Vnat.vserver_id v) as [s|]; simpl.
  - rewrite orb_false_r, String.eqb_eq.
    split; [by intros -> | by intros [= ->]].
  - split; intros; discriminate.
Qed.

(** X14.  [delete_vserver] never leaves a vnat without its vserver.  It
    touches no vnat; when some vnat references the vserver it raises
    [VserverInUse] and the tables are as they were; when none does it
    takes the vserver's row out and no other; when the table does not
    have the id (once) it raises [VserverNotFound]; and in every case a
    table in which every vnat's vserver exists stays such a table. *)
Theorem delete_vserver_keeps_references (db : Db) (id : string) :
  let r := delete_vserver id db in
  vnats (fst r) = vnats db /\
  (references_resolve db -> references_resolve (fst r)) /\
  (has_vserver id db -> references id db <> [] ->
   r = (db, inl (VserverInUse id))) /\
  (has_vserver id db -> references id db = [] ->
   snd r = inr tt /\
   vservers (fst r) = filter (fun vs => Vserver.id vs <> id) (vservers db)) /\
  (~ has_vserver id db -> r = (db, inl (Raised (VserverNotFound id)))).
Proof.
  intros r. subst r. unfold delete_vserver, has_vserver.
  unfold _get_vserver, bind, gets, ret, raise.
  destruct (filter (fun vs => String.eqb (Vserver.id vs) id = true)
              (vservers db)) as [|vs [|vs' rest]] eqn:Hrows.
  - simpl. split; [done|]. split; [done|].
    split; [by intros [x Hx]|]. split; [by intros [x Hx]|]. done.
  - assert (Hid : Vserver.id vs = id).
    { assert (Hin : vs ∈ filter
                (fun vs => String.eqb (Vserver.id vs) id = true) (vservers db))
        by (rewrite Hrows; by left).
      apply list_elem_of_filter in Hin as [Hin _]. by apply String.eqb_eq. }
    rewrite get_vnats_references.
    destruct (references id db) as [|v0 others] eqn:Href; simpl.
    + split; [reflexivity|]. split; [|split; [done|split]].
      * intros Hres v s Hv Hs.
        destruct (Hres v s Hv Hs) as (x & Hx & Hxid).
        exists x. split; [|done].
        apply list_elem_of_filter. split; [|done].
        apply negb_true_iff, String.eqb_neq. rewrite Hxid, Hid.
        intros ->.
        assert (Hin : v ∈ references id db).
        { unfold references. by apply list_elem_of_filter. }
        rewrite Href in Hin. by apply elem_of_nil in Hin.
      * intros _ _. split; [reflexivity|].
        apply list_filter_iff. intros x.
        by rewrite negb_true_iff, String.eqb_neq, Hid.
      * intros Hnot. exfalso. apply Hnot. by exists vs.
    + split; [done|]. split; [done|]. split; [done|].
      split; [intros _ Hnil; discriminate|].
      intros Hnot. exfalso. apply Hnot. by exists vs.
  - simpl. split; [done|]. split; [done|].
    split; [by intros [x Hx]|]. split; [by intros [x Hx]|]. done.
Qed.
End DeleteVserver.

(** The shared vserver [s1] cannot be deleted while [v1] and [v2]
    reference it. *)
Example delete_vserver_in_use_scenario :
  NatDb.delete_vserver "s1" Scenario.shared_vserver_db
  = (Scenario.shared_vserver_db, inl (NatDb.VserverInUse "s1")).
Proof. reflexivity. Qed.

Section PortDeleted.
Import NatDb.

(** Under a primary key two rows with the same id are the same row. *)
Lemma same_id_same_row (t : list Vnat.t) (x y : Vnat.t) :
  NoDup (map Vnat.id t) -> x ∈ t -> y ∈ t -> Vnat.id x = Vnat.id y -> x = y.
Proof.
  intros Hnd Hx Hy E. induction t as [|u t IHt];
    [by apply elem_of_nil in Hx|].
  simpl in Hnd. apply NoDup_cons in Hnd as [Hu Hnd].
  apply elem_of_cons in Hx as [->|Hx], Hy as [->|Hy]; try done.
  - exfalso. apply Hu. rewrite E. apply list_elem_of_fmap. by exists y.
  - exfalso. apply Hu. rewrite <- E. apply list_elem_of_fmap. by exists x.
  - by apply IHt.
Qed.

(** Under a primary key [_get_vnat] finds the row. *)
Lemma get_vnat_unique (db : Db) (v : Vnat.t) :
  NoDup (map Vnat.id (vnats db)) -> v ∈ vnats db ->
  _get_vnat (Vnat.id v) db = (db, inr v).
Proof.
  intros Hnd Hin. unfold _get_vnat, bind, gets, ret.
  assert (Hrows : filter (fun u => String.eqb (Vnat.id u) (Vnat.id v) = true)
                    (vnats db) = [v]).
  { revert Hnd Hin. generalize (vnats db) as l.
    induction l as [|x l IH]; intros Hnd Hin; [by apply elem_of_nil in Hin|].
    simpl in Hnd. apply NoDup_cons in Hnd as [Hx Hnd].
    rewrite filter_cons.
    assert (Hrest : forall u, u ∈ l -> Vnat.id u <> Vnat.id x).
    { intros u Hu E. apply Hx. rewrite <- E.
      apply list_elem_of_fmap. by exists u. }
    apply elem_of_cons in Hin as [<-|Hin].
    - rewrite decide_True by apply String.eqb_refl. f_equal.
      clear IH Hx Hnd. induction l as [|y l IH]; [done|].
      rewrite filter_cons_False.
      + apply IH. intros u Hu. apply Hrest. by right.
      + rewrite String.eqb_eq. apply Hrest. by left.
    - rewrite decide_False; [by apply IH|].
      rewrite String.eqb_eq. intros E. by apply (Hrest v). }
  by rewrite Hrows.
Qed.

(** Whether the table has a vserver depends on the ids of its rows
    only. *)
Lemma has_vserver_ids (s : string) (db db' : Db) :
  map Vserver.id (vservers db') = map Vserver.id (vservers db) ->
  has_vserver s db -> has_vserver s db'.
Proof.
  unfold has_vserver.
  generalize (vservers db) as l, (vservers db') as l'.
  assert (Hnone : forall l l' : list Vserver.t,
            map Vserver.id l' = map Vserver.id l ->
            filter (fun vs => String.eqb (Vserver.id vs) s = true) l = [] ->
            filter (fun vs => String.eqb (Vserver.id vs) s = true) l' = []).
  { induction l as [|x l IH]; intros [|x' l'] Hids Hl; try done.
    simpl in Hids. injection Hids as Hx Hids.
    rewrite filter_cons in Hl. rewrite filter_cons, Hx.
    destruct (decide (String.eqb (Vserver.id x) s = true)); [done|].
    by apply (IH l'). }
  induction l as [|x l IH]; intros [|x' l'] Hids [vs Hl]; try done.
  simpl in Hids. injection Hids as Hx Hids.
  rewrite filter_cons in Hl. rewrite filter_cons, Hx.
  destruct (decide (String.eqb (Vserver.id x) s = true)).
  - injection Hl as -> Hl. exists x'. f_equal. by apply (Hnone l).
  - apply (IH l'); [done | by exists vs].
Qed.

(** The loop of [port_delete_end] over vnats of the table. *)
Lemma delete_each (l : list Vnat.t) : forall db,
  NoDup (map Vnat.id (vnats db)) ->
  NoDup (map Vnat.id l) ->
  (forall v, v ∈ l -> v ∈ vnats db) ->
  (forall v, v ∈ l -> truthy (Vnat.vserver_id v) = true ->
             has_vserver (default "" (Vnat.vserver_id v)) db) ->
  exists db',
    for_each l (fun vnat => delete_vnat (Vnat.id vnat)) db = (db', inr tt) /\
    vnats db' = filter (fun u => Vnat.id u ∉ map Vnat.id l) (vnats db) /\
    map Vserver.id (vservers db') = map Vserver.id (vservers db).
Proof.
  induction l as [|v l IH]; intros db Hnd Hl Hin Hhas.
  - exists db. simpl. split; [done|]. split; [|done].
    symmetry. generalize (vnats db) as t.
    induction t as [|u t IHt]; [done|].
    rewrite filter_cons_True; [by rewrite IHt | apply not_elem_of_nil].
  - simpl in Hl. apply NoDup_cons in Hl as [Hv Hl].
    destruct (delete_vnat_returns db (Vnat.id v) v)
      as (db1 & Hrun & Hvn1 & _ & _ & _ & Hids1).
    { apply get_vnat_unique; [done|]. apply Hin. by left. }
    { apply Hhas. by left. }
    destruct (IH db1) as (db' & Hrest & Hvn' & Hids'); [| done | | |].
    { rewrite Hvn1. apply NoDup_fmap_2_strong; [|by apply NoDup_filter, (NoDup_fmap_1 Vnat.id)].
      intros x y [_ Hx]%list_elem_of_filter [_ Hy]%list_elem_of_filter E.
      by apply (same_id_same_row (vnats db)). }
    { intros u Hu. rewrite Hvn1. apply list_elem_of_filter.
      split; [|apply Hin; by right].
      intros E. apply Hv. rewrite <- E. apply list_elem_of_fmap.
      by exists u. }
    { intros u Hu Ht. apply (has_vserver_ids _ db); [done|].
      apply Hhas; [by right | done]. }
    exists db'. cbn [for_each]. unfold bind. rewrite Hrun.
    split; [exact Hrest|]. split; [|congruence].
    rewrite Hvn', Hvn1, list_filter_filter.
    apply list_filter_iff. intros u. cbn [map].
    rewrite not_elem_of_cons. tauto.
Qed.

(** X15.  When a port is deleted, [port_delete_end] deletes every vnat of
    the port and no other.  On a table keyed by the vnats' ids, in which
    the vnats of the port that name a vserver name one the table has, the
    notification returns, the vnats left are exactly those of other
    ports, in their order, and no vserver row is added or removed.
    Without the scheduler extension nothing is done. *)
Theorem port_delete_end_cascade (db : Db) (port_id : string) :
  NoDup (map Vnat.id (vnats db)) ->
  (forall v, v ∈ vnats db -> Vnat.port_id v = Some port_id ->
             truthy (Vnat.vserver_id v) = true ->
             has_vserver (default "" (Vnat.vserver_id v)) db) ->
  exists db',
    port_delete_end true port_id db = (db', inr tt) /\
    vnats db' = filter (fun v => Vnat.port_id v <> Some port_id) (vnats db) /\
    map Vserver.id (vservers db') = map Vserver.id (vservers db) /\
    port_delete_end false port_id db = (db, inr tt).
Proof.
  intros Hnd Hhas.
  set (of_port := filter (fun v => Vnat.port_id v = Some port_id) (vnats db)).
  assert (Hget : get_vnats [(col_port_id, [Some port_id])] db
                 = (db, inr of_port)).
  { unfold get_vnats, gets, _make_vnat_dict. rewrite map_id.
    do 2 f_equal. apply list_filter_iff. intros v.
    unfold vnat_passes. simpl. rewrite andb_true_r.
    destruct (Vnat.port_id v) as [p|]; simpl.
    - rewrite orb_false_r, String.eqb_eq.
      split; [by intros -> | by intros [= ->]].
    - split; intros; discriminate. }
  destruct (delete_each of_port db) as (db' & Hrun & Hvn & Hids).
  { done. }
  { apply NoDup_fmap_2_strong; [|by apply NoDup_filter, (NoDup_fmap_1 Vnat.id)].
    intros x y [_ Hx]%list_elem_of_filter [_ Hy]%list_elem_of_filter E.
    by apply (same_id_same_row (vnats db)). }
  { intros v [_ Hv]%list_elem_of_filter. done. }
  { intros v [Hp Hv]%list_elem_of_filter. by apply Hhas. }
  exists db'. unfold port_delete_end. unfold bind. rewrite Hget.
  split; [exact Hrun|]. split; [|split; [exact Hids | reflexivity]].
  rewrite Hvn. apply filter_ext_in. intros u Hu. split.
  - intros Hnot Hp. apply Hnot. apply list_elem_of_fmap. exists u.
    split; [done|]. by apply list_elem_of_filter.
  - intros Hp [y [E Hy]]%list_elem_of_fmap.
    apply list_elem_of_filter in Hy as [Hyp Hy].
    assert (u = y) as ->; [|done].
    by apply (same_id_same_row (vnats db)).
Qed.
End PortDeleted.

(** The port of [vm-1] is deleted: its vnat goes, the vnat of another
    port stays. *)
Lemma port_delete_end_cascade_scenario :
  let w1 := Vnat.mk "w1" (Some "tenant-1") (Some "198.51.100.1")
              (Some "10001") (Some "s1") (Some "ACTIVE") true false
              VNAT_TYPE_VM (Some "vm-1") (Some "port-1") "10.0.0.5"
              (Some "10.0.0.1") (Some "22") in
  let w2 := Vnat.mk "w2" (Some "tenant-1") None None None (Some "ACTIVE")
              true false VNAT_TYPE_VM (Some "vm-2") (Some "port-2")
              "10.0.0.6" None (Some "22") in
  let db := NatDb.mkDb [Scenario.s1] [w1; w2]
              [NatDb.mkBinding "agent-1" "node-1" "w1"] 0 [] in
  exists db',
    NatDb.port_delete_end true "port-1" db = (db', inr tt) /\
    NatDb.vnats db'
    = filter (fun v => Vnat.port_id v <> Some "port-1") (NatDb.vnats db) /\
    map Vserver.id (NatDb.vservers db') = map Vserver.id (NatDb.vservers db) /\
    NatDb.port_delete_end false "port-1" db = (db, inr tt).
Proof.
  intros w1 w2 db.
  apply (port_delete_end_cascade db "port-1").
  - apply (bool_decide_unpack _). by vm_compute.
  - intros v [->|[->|H]%elem_of_cons]%elem_of_cons Hp Ht.
    + by exists Scenario.s1.
    + discriminate.
    + by apply elem_of_nil in H.
Defined.

(** ** nat_agent.py, further *)
Section AgentMore.
Import NatAgent.
Variable World : Type.
Variable collaborator : Call -> World -> World * (PyExc + Reply).
Variable prefixlen : string -> PyExc + Z.

(** X16.  [_process_created_vnat] stages its rule only after both plugin
    requests have been answered.  When [get_vserver] raises, the
    exception leaves the method after that one request; when
    [get_vserver] answers and [update_vnat] raises, it leaves after these
    two requests, the vserver already handed out.  In both cases nothing
    is staged, nothing is applied and [needs_resync] is as it was. *)
Theorem process_created_vnat_plugin_failure (a : Agent World)
    (vnat_id fixed_ip gateway : string) (fixed_port device_id : option string) :
  let get := msg_get_vserver (ext_ip a) (external_port_start (conf a)) in
  let r := _process_created_vnat World collaborator vnat_id fixed_ip
             fixed_port (supplied gateway) device_id a in
  (forall w e,
     collaborator get (world a) = (w, inl e) ->
     snd r = inl e /\ new_calls World a (fst r) = [get] /\
     world (fst r) = w /\ nat_manager (fst r) = nat_manager a /\
     needs_resync (fst r) = needs_resync a) /\
  (forall w vs w' e,
     let update :=
       msg_update_vnat
         (UpdateVnat.mk vnat_id (Some (ext_ip a)) (Some (Vserver.id vs))
            (Some (Vserver.external_port vs)) device_id (Some true)
            (Some gateway) (Some "ACTIVE")) in
     collaborator get (world a) = (w, inr (reply_vserver vs)) ->
     collaborator update w = (w', inl e) ->
     snd r = inl e /\ new_calls World a (fst r) = [get; update] /\
     world (fst r) = w' /\ nat_manager (fst r) = nat_manager a /\
     needs_resync (fst r) = needs_resync a).
Proof.
  intros get r. subst get r. split.
  - intros w e Hget.
    unfold _process_created_vnat, get_vserver, bind, gets, call. simpl.
    rewrite Hget. simpl. unfold new_calls. simpl.
    by rewrite drop_app_length.
  - intros w vs w' e update Hget Hupdate. subst update.
    unfold _process_created_vnat, get_vserver, update_vnat, bind, gets, call,
      ret. simpl.
    rewrite Hget. simpl. rewrite Hupdate. simpl. unfold new_calls. simpl.
    by rewrite <- app_assoc, drop_app_length.
Qed.


(** X18.  [_sync_vnats_task] runs the body only while a resync is
    pending, and never raises.  With [needs_resync] false it leaves the
    agent as it is and makes no request.  With [needs_resync] true, when
    the [try] block of the body runs to its last statement the flag is
    false afterwards, so that the next tick does nothing. *)
Theorem sync_vnats_task_gate (a : Agent World) :
  let task := _sync_vnats_task World collaborator prefixlen in
  snd (task a) = inr tt /\
  (needs_resync a = false -> task a = (a, inr tt)) /\
  (forall a',
     needs_resync a = true ->
     try_block World collaborator prefixlen
       (append_log World "Synchronizing state" a) = (a', inr tt) ->
     task a = (a', inr tt) /\ task a' = (a', inr tt)).
Proof.
  intros task. subst task.
  assert (Hidle : forall b : Agent World,
            needs_resync b = false ->
            _sync_vnats_task World collaborator prefixlen b = (b, inr tt)).
  { intros b Hb. unfold _sync_vnats_task, bind, gets. simpl. by rewrite Hb. }
  split; [|split; [apply Hidle|]].
  - unfold _sync_vnats_task, bind, gets, modify. simpl.
    destruct (needs_resync a); [|done].
    unfold _sync_vnats_task_body, try_except.
    destruct (try_block _ _ _ _) as [a1 [e|[]]]; [|done].
    unfold except_block, bind, modify. done.
  - intros a' Hpending Htry.
    assert (Hflag : needs_resync a' = false).
    { unfold try_block in Htry.
      apply bind_inr in Htry as (a2 & port_ids & _ & Htry).
      apply bind_inr in Htry as (a3 & [] & _ & Htry).
      apply bind_inr in Htry as (a4 & [] & _ & Htry).
      unfold modify in Htry. by injection Htry as <-. }
    split; [|by apply Hidle].
    unfold _sync_vnats_task, bind, gets, modify. simpl. rewrite Hpending.
    unfold _sync_vnats_task_body, try_except.
    change (mkAgent (needs_resync a) (conf a) (vnat_info a) (compute_hosts a)
              (ext_ip a) (nat_manager a) (default_gateway a)
              (log a ++ ["Synchronizing state"]) (calls a) (world a))
      with (append_log World "Synchronizing state" a).
    by rewrite Htry.
Qed.
End AgentMore.

Section GatewayAndLvs.
Import NatAgent.
Variable World : Type.
Variable collaborator : Call -> World -> World * (PyExc + Reply).
Variable prefixlen : string -> PyExc + Z.

(** X19.  [_get_gateway].  Without a port it answers the configured
    [local_internal_ip] and asks nothing; so it does when the port has no
    subnet, after that one request.  Otherwise it looks at the first
    subnet only: when the plugin has a nat interface on its network that
    is not down, the gateway is the first fixed address of the first such
    interface, after two requests; when it has none, the agent asks for
    one, with the [gateway] flag the backend chose, and the gateway is
    the first fixed address of the interface it is given.  No device is
    touched in these cases. *)
Theorem get_gateway_cases (a : Agent World) (port_id : option string) :
  let r := _get_gateway World collaborator prefixlen port_id a in
  let gateway := local_internal_ip (conf a) in
  (truthy port_id = false -> r = (a, inr gateway)) /\
  (forall p w,
     port_id = Some p -> p <> "" ->
     collaborator (msg_get_subnets [p]) (world a)
     = (w, inr (reply_subnets [])) ->
     snd r = inr gateway /\
     new_calls World a (fst r) = [msg_get_subnets [p]]) /\
  (forall p w subnet more w' intf others ip0 ips,
     let interfaces :=
       msg_get_nat_interfaces (Some (Subnet.network_id subnet))
         (host (conf a)) in
     port_id = Some p -> p <> "" ->
     collaborator (msg_get_subnets [p]) (world a)
     = (w, inr (reply_subnets (subnet :: more))) ->
     collaborator interfaces w = (w', inr (reply_intfs (intf :: others))) ->
     Intf.status intf <> "DOWN" ->
     Intf.fixed_ips intf = ip0 :: ips ->
     snd r = inr (FixedIp.ip_address ip0) /\
     new_calls World a (fst r) = [msg_get_subnets [p]; interfaces]) /\
  (forall p w subnet more w' w'' intf ip0 ips,
     let interfaces :=
       msg_get_nat_interfaces (Some (Subnet.network_id subnet))
         (host (conf a)) in
     let add :=
       msg_add_nat_interface (Subnet.id subnet) (host (conf a))
         (default_gateway a) in
     port_id = Some p -> p <> "" ->
     collaborator (msg_get_subnets [p]) (world a)
     = (w, inr (reply_subnets (subnet :: more))) ->
     collaborator interfaces w = (w', inr (reply_intfs [])) ->
     collaborator add w' = (w'', inr (reply_intf intf)) ->
     Intf.status intf <> "DOWN" ->
     Intf.fixed_ips intf = ip0 :: ips ->
     snd r = inr (FixedIp.ip_address ip0) /\
     new_calls World a (fst r) = [msg_get_subnets [p]; interfaces; add]).
Proof.
  intros r gateway. subst r gateway.
  split; [|split; [|split]].
  - intros Hp. unfold _get_gateway, bind, gets, ret. simpl. by rewrite Hp.
  - intros p w -> Hne Hsub.
    unfold _get_gateway, get_subnets_for_ports, bind, gets, call, ret. simpl.
    apply String.eqb_neq in Hne. rewrite Hne. simpl. rewrite Hsub. simpl.
    unfold new_calls. simpl. by rewrite drop_app_length.
  - intros p w subnet more w' intf others ip0 ips interfaces -> Hne Hsub
      Hintfs Hstatus Hips. subst interfaces.
    unfold _get_gateway, get_subnets_for_ports, ensure_interface,
      get_nat_interfaces, plumb_if_down, bind, gets, call, ret. simpl.
    apply String.eqb_neq in Hne. rewrite Hne. simpl. rewrite Hsub. simpl.
    rewrite Hintfs. simpl.
    apply String.eqb_neq in Hstatus. rewrite Hstatus. simpl. rewrite Hips.
    unfold new_calls. simpl. by rewrite <- app_assoc, drop_app_length.
  - intros p w subnet more w' w'' intf ip0 ips interfaces add -> Hne Hsub
      Hintfs Hadd Hstatus Hips. subst interfaces add.
    unfold _get_gateway, get_subnets_for_ports, ensure_interface,
      get_nat_interfaces, add_nat_interface, plumb_if_down, bind, gets, call,
      ret. simpl.
    apply String.eqb_neq in Hne. rewrite Hne. simpl. rewrite Hsub. simpl.
    rewrite Hintfs. simpl. rewrite Hadd. simpl.
    apply String.eqb_neq in Hstatus. rewrite Hstatus. simpl. rewrite Hips.
    unfold new_calls. simpl.
    by rewrite <- !app_assoc, drop_app_length.
Qed.





End GatewayAndLvs.


(** In the second scenario the tick completes, and the tick after it
    finds nothing to do. *)
Example sync_vnats_task_twice_scenario :
  let task := NatAgent._sync_vnats_task Scenario.World Scenario.plugin
                Scenario.no_prefixlen in
  let a := Scenario.agent Scenario.rules_b2 Scenario.world_b2 in
  let a1 := fst (task a) in
  NatAgent.needs_resync a1 = false /\ task a1 = (a1, inr tt).
Proof. vm_compute. split; reflexivity. Qed.

(** A vnat without port: the gateway is the configured internal
    address, and no request is made. *)
Example get_gateway_no_port_scenario :
  let a := Scenario.agent [] Scenario.world_b1 in
  NatAgent._get_gateway Scenario.World Scenario.plugin Scenario.no_prefixlen
    None a
  = (a, inr "10.0.0.1").
Proof. reflexivity. Qed.
